(** * Smart-ToDo: a shallow embedding of [app.py]

    The Flask application keeps three tables (users, columns, tasks) in a
    relational store, serves a set of view functions guarded by a session
    check, and runs a polling reminder loop.  Every view function below is a
    state transformer over the store, the cookie session and the flashed
    messages; the reminder loop is a fold of one cycle over clock readings. *)

From Stdlib Require Import String Ascii ZArith NArith List Bool Lia.
From Stdlib Require Import Permutation Sorted.
Import ListNotations.
Local Open Scope Z_scope.

(** ** Python values *)

(** A Python [str] is a sequence of Unicode code points. *)
Definition str := list N.

Definition py (s : string) : str := map N_of_ascii (list_ascii_of_string s).

Fixpoint str_eqb (a b : str) : bool :=
  match a, b with
  | [], [] => true
  | x :: a', y :: b' => N.eqb x y && str_eqb a' b'
  | _, _ => false
  end.

(** [name in names] on a list of strings. *)
Definition str_in (x : str) (l : list str) : bool := existsb (str_eqb x) l.

(** Truthiness of a string and of an optional string ([None] and [''] are
    both falsy). *)
Definition truthy (s : str) : bool :=
  match s with [] => false | _ :: _ => true end.

Definition truthy_opt (o : option str) : bool :=
  match o with Some s => truthy s | None => false end.

(** [o or d] where [o] is a string or [None]. *)
Definition or_str (o : option str) (d : str) : str :=
  match o with
  | Some s => if truthy s then s else d
  | None => d
  end.

(** The code points for which [str.isspace] holds; [str.strip()] removes
    exactly these from both ends. *)
Definition isspace (c : N) : bool :=
  ((9 <=? c) && (c <=? 13) || (28 <=? c) && (c <=? 32)
   || (c =? 133) || (c =? 160) || (c =? 5760)
   || (8192 <=? c) && (c <=? 8202)
   || (c =? 8232) || (c =? 8233) || (c =? 8239) || (c =? 8287)
   || (c =? 12288))%N.

Fixpoint lstrip (s : str) : str :=
  match s with
  | c :: s' => if isspace c then lstrip s' else s
  | [] => []
  end.

Definition rstrip (s : str) : str := rev (lstrip (rev s)).

Definition strip (s : str) : str := rstrip (lstrip s).

(** A naive [datetime], counted in microseconds from [datetime.min]. *)
Definition datetime := Z.

(** [datetime.max] is 9999-12-31 23:59:59.999999. *)
Definition datetime_max : datetime := 3652059 * 86400 * 1000000 - 1.

(** Exceptions that reach the request dispatcher or the worker's handler. *)
Inductive Exception :=
| NameError (name : string)
| KeyError (key : string)
| AttributeError (attr : string)
| StatementError (what : string)
| OverflowError.

(** ** Models *)

Record User := mkUser {
  user_id : Z;
  user_name : str;
  email : str;
  password : str
}.

(** [position] carries the column default 0 once a row is inserted. *)
Record Column := mkColumn {
  column_id : Z;
  column_name : str;
  position : Z;
  column_user_id : Z
}.

Record Task := mkTask {
  task_id : Z;
  title : str;
  description : option str;
  due_date : option datetime;
  priority : str;
  complete : bool;
  reminder_set : bool;
  created_at : datetime;
  status : str;
  task_user_id : Z;
  task_column_id : option Z
}.

(** The database file: one list of rows per table, in row order. *)
Record Db := mkDb {
  users : list User;
  columns : list Column;
  tasks : list Task
}.

(** An integer primary key without AUTOINCREMENT: one more than the largest
    key in the table, 1 for an empty table. *)
Definition next_id (ids : list Z) : Z := 1 + fold_right Z.max 0 ids.

(** Stable sort by a strict order: an element stays in front of the later
    elements it ties with.  This is Python's [sorted]; it also stands for
    [ORDER BY], with ties kept in row order. *)
Section Sorting.
Context {A : Type} (ltb : A -> A -> bool).

Fixpoint insert_sorted (x : A) (l : list A) : list A :=
  match l with
  | [] => [x]
  | y :: l' => if ltb y x then y :: insert_sorted x l' else x :: l
  end.

Definition sorted (l : list A) : list A := fold_right insert_sorted [] l.
End Sorting.

(** [ORDER BY] on a nullable column, ascending: NULL sorts first. *)
Definition null_first_ltb (a b : option Z) : bool :=
  match a, b with
  | None, None => false
  | None, Some _ => true
  | Some _, None => false
  | Some x, Some y => x <? y
  end.

(** ** Queries *)

(** [User.query.get(id)] *)
Definition get_user (id : Z) (d : Db) : option User :=
  find (fun u => user_id u =? id) (users d).

(** [Column.query.get(id)] *)
Definition get_column (id : Z) (d : Db) : option Column :=
  find (fun c => column_id c =? id) (columns d).

(** [Task.query.get(id)] *)
Definition get_task (id : Z) (d : Db) : option Task :=
  find (fun t => task_id t =? id) (tasks d).

(** [Column.query.filter_by(user_id=uid)] *)
Definition owned_columns (uid : Z) (d : Db) : list Column :=
  filter (fun c => column_user_id c =? uid) (columns d).

(** [Column.query.filter_by(user_id=uid).order_by(Column.position).all()] *)
Definition columns_of (uid : Z) (d : Db) : list Column :=
  sorted (fun a b => position a <? position b) (owned_columns uid d).

(** [Column.query.filter_by(id=cid, user_id=uid).first()] *)
Definition column_of_user (cid uid : Z) (d : Db) : option Column :=
  find (fun c => (column_id c =? cid) && (column_user_id c =? uid)) (columns d).

(** [Task.query.filter_by(user_id=uid).all()] *)
Definition tasks_of (uid : Z) (d : Db) : list Task :=
  filter (fun t => task_user_id t =? uid) (tasks d).

(** [.order_by(Task.due_date)] *)
Definition by_due_date (l : list Task) : list Task :=
  sorted (fun a b => null_first_ltb (due_date a) (due_date b)) l.

(** The [tasks] relationship of a column. *)
Definition column_tasks (c : Column) (d : Db) : list Task :=
  filter (fun t => match task_column_id t with
                   | Some k => k =? column_id c
                   | None => false
                   end) (tasks d).

(** ** Row updates *)

Definition set_complete (b : bool) (t : Task) : Task :=
  mkTask (task_id t) (title t) (description t) (due_date t) (priority t)
         b (reminder_set t) (created_at t) (status t) (task_user_id t)
         (task_column_id t).

Definition set_reminder_set (b : bool) (t : Task) : Task :=
  mkTask (task_id t) (title t) (description t) (due_date t) (priority t)
         (complete t) b (created_at t) (status t) (task_user_id t)
         (task_column_id t).

Definition set_status (s : str) (t : Task) : Task :=
  mkTask (task_id t) (title t) (description t) (due_date t) (priority t)
         (complete t) (reminder_set t) (created_at t) s (task_user_id t)
         (task_column_id t).

Definition set_column_id (c : option Z) (t : Task) : Task :=
  mkTask (task_id t) (title t) (description t) (due_date t) (priority t)
         (complete t) (reminder_set t) (created_at t) (status t)
         (task_user_id t) c.

Definition set_edited (ti : str) (de : option str) (du : option datetime)
    (pr : str) (t : Task) : Task :=
  mkTask (task_id t) ti de du pr (complete t) (reminder_set t)
         (created_at t) (status t) (task_user_id t) (task_column_id t).

(** [UPDATE task SET ... WHERE task.id = id] *)
Definition update_task (id : Z) (f : Task -> Task) (d : Db) : Db :=
  mkDb (users d) (columns d)
       (map (fun t => if task_id t =? id then f t else t) (tasks d)).

(** [DELETE FROM task WHERE task.id = id] *)
Definition delete_task (id : Z) (d : Db) : Db :=
  mkDb (users d) (columns d)
       (filter (fun t => negb (task_id t =? id)) (tasks d)).

(** Deleting a column whose [tasks] relationship has no delete cascade:
    the unit of work first clears the reference of every task in it. *)
Definition delete_column_row (id : Z) (d : Db) : Db :=
  mkDb (users d)
       (filter (fun c => negb (column_id c =? id)) (columns d))
       (map (fun t => match task_column_id t with
                      | Some k => if k =? id then set_column_id None t else t
                      | None => t
                      end) (tasks d)).

(** [INSERT INTO column]: the row takes the next key. *)
Definition insert_column (name : str) (pos uid : Z) (d : Db) : Db :=
  mkDb (users d)
       (columns d ++ [mkColumn (next_id (map column_id (columns d))) name pos uid])
       (tasks d).

(** [INSERT INTO task]: [complete] takes its default. *)
Definition insert_task (ti : str) (de : option str) (du : option datetime)
    (pr : str) (rem : bool) (created : datetime) (st : str) (uid : Z)
    (cid : option Z) (d : Db) : Db :=
  mkDb (users d) (columns d)
       (tasks d ++ [mkTask (next_id (map task_id (tasks d))) ti de du pr
                           false rem created st uid cid]).

(** ** Requests, sessions and the unit of work *)

(** The signed cookie session: the keys the application uses. *)
Record Session := mkSession {
  session_user_id : option Z;
  dark_mode : option bool
}.

(** What a view function reads from the request, and the two clocks. *)
Record Request := mkRequest {
  form : list (string * str);
  args : list (string * str);
  referrer : option str;
  now : datetime;
  utcnow : datetime
}.

(** [form.get(key)]: the first value stored under the key. *)
Fixpoint form_get (key : string) (f : list (string * str)) : option str :=
  match f with
  | [] => None
  | (k, v) :: f' => if String.eqb key k then Some v else form_get key f'
  end.

(** [key in form] *)
Definition form_has (key : string) (f : list (string * str)) : bool :=
  match form_get key f with Some _ => true | None => false end.

(** State of a request in flight: the database file, the view of it inside
    the open transaction of [db.session], the cookie session, and the
    flashed [(message, category)] pairs. *)
Record St := mkSt {
  persisted : Db;
  txn : Db;
  session : Session;
  flashes : list (str * str)
}.

Definition flash (msg cat : string) (st : St) : St :=
  mkSt (persisted st) (txn st) (session st) (flashes st ++ [(py msg, py cat)]).

Definition flash_str (msg : str) (cat : string) (st : St) : St :=
  mkSt (persisted st) (txn st) (session st) (flashes st ++ [(msg, py cat)]).

(** A change made through [db.session] or on a loaded object. *)
Definition modify (f : Db -> Db) (st : St) : St :=
  mkSt (persisted st) (f (txn st)) (session st) (flashes st).

(** [db.session.commit()] *)
Definition commit (st : St) : St :=
  mkSt (txn st) (txn st) (session st) (flashes st).

(** [db.session.remove()], run when the application context is torn down:
    what was not committed is rolled back. *)
Definition teardown (st : St) : St :=
  mkSt (persisted st) (persisted st) (session st) (flashes st).

Definition set_session (s : Session) (st : St) : St :=
  mkSt (persisted st) (txn st) s (flashes st).

Definition url_index : str := py "/".
Definition url_login : str := py "/login".
Definition url_workflow : str := py "/workflow".

(** [request.referrer or url_for('index')] *)
Definition back (req : Request) : str := or_str (referrer req) url_index.

Record Stats := mkStats {
  stat_total : nat;
  stat_pending : nat;
  stat_completed : nat;
  stat_overdue : nat
}.

(** The template variables the views pass to [render_template]. *)
Record Context := mkContext {
  ctx_user : User;
  ctx_tasks : list Task;
  ctx_columns : option (list (Column * list Task));
  ctx_stats : Stats;
  ctx_sort_by : option str;
  ctx_dark_mode : bool
}.

Inductive Response :=
| Redirect (location : str)
| RenderTemplate (template : string) (ctx : Context)
| Jsonify (success : bool) (error : option str) (status_code : Z)
| Abort (status_code : Z)
| BadRequestKeyError (key : string)
| InternalServerError (exc : Exception).

Definition Handler := Request -> St -> Response * St.

(** SQLite holds an INTEGER in 64 bits, and the driver raises OverflowError
    when a query is given a larger Python int as parameter; the [<int:...>]
    converter of a route puts no bound on the number.  A stored key is
    always in range, so the error shows exactly where the lookup finds no
    row. *)
Definition sqlite_integer (n : Z) : bool := (- 2 ^ 63 <=? n) && (n <? 2 ^ 63).

(** The outcome of a lookup by [key] that found no row: the view's own
    answer, or the driver's error for a key it cannot bind. *)
Definition not_found (key : Z) (st : St) (answer : Response * St) : Response * St :=
  if sqlite_integer key then answer else (InternalServerError OverflowError, st).

(** ** Helpers *)

Definition enumerate {A} (l : list A) : list (Z * A) :=
  combine (map Z.of_nat (seq 0 (length l))) l.

(** Create default workflow columns for a user if none exist. *)
Definition ensure_default_columns (uid : Z) (st : St) : St :=
  let cols := columns_of uid (txn st) in
  match cols with
  | [] =>
      let defaults := [py "To Do"; py "In Progress"; py "Done"] in
      commit (fold_left
                (fun s (p : Z * str) => modify (insert_column (snd p) (fst p) uid) s)
                (enumerate defaults) st)
  | _ :: _ => st
  end.

Definition is_overdue (current : datetime) (t : Task) : bool :=
  match due_date t with
  | Some d => (d <? current) && negb (complete t)
  | None => false
  end.

(** The four counts; [current] is the reading of [datetime.now()]. *)
Definition calculate_stats (current : datetime) (ts : list Task) : Stats :=
  mkStats (length ts)
          (length (filter (fun t => negb (complete t)) ts))
          (length (filter (fun t => complete t) ts))
          (length (filter (is_overdue current) ts)).

(** The decorator in front of every board and task view. *)
Definition login_required (f : Handler) : Handler :=
  fun req st =>
    match session_user_id (session st) with
    | None => (Redirect url_login, flash "Please login first!" "warning" st)
    | Some _ => f req st
    end.

(** [session['user_id']] *)
Definition with_user_id (st : St) (k : Z -> Response * St) : Response * St :=
  match session_user_id (session st) with
  | Some uid => k uid
  | None => (InternalServerError (KeyError "user_id"), st)
  end.

(** [session.get('dark_mode', False)] *)
Definition get_dark_mode (st : St) : bool :=
  match dark_mode (session st) with Some b => b | None => false end.

(** [owner != session.get('user_id')] *)
Definition not_owner (owner : Z) (st : St) : bool :=
  match session_user_id (session st) with
  | Some uid => negb (owner =? uid)
  | None => true
  end.

(** ** Routes *)

Definition priority_rank (p : str) : Z :=
  if str_eqb p (py "High") then 0
  else if str_eqb p (py "Medium") then 1
  else if str_eqb p (py "Low") then 2
  else 3.

(** The key of [sorted(col.tasks, key=...)]: no due date counts as
    [datetime.max]. *)
Definition due_or_max (t : Task) : datetime :=
  match due_date t with Some d => d | None => datetime_max end.

Definition index : Handler :=
  login_required (fun req st =>
    with_user_id st (fun uid =>
      match get_user uid (txn st) with
      | None => (InternalServerError (AttributeError "id"), st)
      | Some user =>
          let ts := by_due_date (tasks_of (user_id user) (txn st)) in
          let stats := calculate_stats (now req) ts in
          (RenderTemplate "index.html"
             (mkContext user ts None stats None (get_dark_mode st)), st)
      end)).

Definition workflow : Handler :=
  login_required (fun req st =>
    with_user_id st (fun uid =>
      match get_user uid (txn st) with
      | None => (InternalServerError (AttributeError "id"), st)
      | Some user =>
          let st := ensure_default_columns (user_id user) st in
          let sort_by :=
            match form_get "sort" (args req) with
            | Some s => s
            | None => py "due_date"
            end in
          let tasks_query := tasks_of (user_id user) (txn st) in
          let ts :=
            if str_eqb sort_by (py "priority") then
              sorted (fun a b => priority_rank (priority a) <? priority_rank (priority b))
                     tasks_query
            else if str_eqb sort_by (py "created_at") then
              sorted (fun a b => created_at b <? created_at a) tasks_query
            else by_due_date tasks_query in
          let cols := columns_of (user_id user) (txn st) in
          let default_names :=
            [py "To Do"; py "In Progress"; py "Completed"; py "Pending"; py "Done"] in
          let existing_names := map column_name cols in
          let st :=
            fold_left
              (fun s name =>
                 if negb (str_in name existing_names)
                 then modify (insert_column name 0 (user_id user)) s
                 else s)
              default_names st in
          let shown :=
            map (fun col =>
                   (col, sorted (fun a b => due_or_max a <? due_or_max b)
                                (column_tasks col (txn st))))
                cols in
          let stats := calculate_stats (now req) ts in
          (RenderTemplate "workflow.html"
             (mkContext user ts (Some shown) stats (Some sort_by) (get_dark_mode st)),
           st)
      end)).

Definition completed : Handler :=
  login_required (fun req st =>
    with_user_id st (fun uid =>
      match get_user uid (txn st) with
      | None => (InternalServerError (AttributeError "id"), st)
      | Some user =>
          let ts := by_due_date (filter (fun t => complete t)
                                        (tasks_of (user_id user) (txn st))) in
          let stats := calculate_stats (now req) (tasks_of (user_id user) (txn st)) in
          (RenderTemplate "completed.html"
             (mkContext user ts None stats None (get_dark_mode st)), st)
      end)).

Definition pending : Handler :=
  login_required (fun req st =>
    with_user_id st (fun uid =>
      match get_user uid (txn st) with
      | None => (InternalServerError (AttributeError "id"), st)
      | Some user =>
          let ts := by_due_date (filter (fun t => negb (complete t))
                                        (tasks_of (user_id user) (txn st))) in
          let stats := calculate_stats (now req) (tasks_of (user_id user) (txn st)) in
          (RenderTemplate "pending.html"
             (mkContext user ts None stats None (get_dark_mode st)), st)
      end)).

(** [Column.query.filter_by(user_id=uid).order_by(Column.position).first()] *)
Definition first_column (uid : Z) (d : Db) : option Column :=
  hd_error (columns_of uid d).

Section Library.
(** Library functions the views call on request text:
    [datetime.strptime(s, "%Y-%m-%dT%H:%M")] and [int(s)], with [None]
    where they raise, and [str.lower]. *)
Variable strptime : str -> option datetime.
Variable int_of_str : str -> option Z.
Variable lower : str -> str.

Definition add : Handler :=
  login_required (fun req st =>
    let title := strip (or_str (form_get "title" (form req)) []) in
    let desc := form_get "desc" (form req) in
    let due := form_get "due" (form req) in
    let priority := or_str (form_get "priority" (form req)) (py "Medium") in
    let column_id_field := form_get "column_id" (form req) in
    let reminder := form_has "reminder" (form req) in
    if negb (truthy title) then
      (Redirect (back req), flash "Title required" "danger" st)
    else
      let due_date :=
        match due with
        | Some s => if truthy s then strptime s else None
        | None => None
        end in
      with_user_id st (fun user_id =>
        let st := ensure_default_columns user_id st in
        let fallback :=
          match first_column user_id (txn st) with
          | Some c => inr (Some (column_id c))
          | None => inl (AttributeError "id")
          end in
        let resolved :=
          if truthy_opt column_id_field then
            match int_of_str (or_str column_id_field []) with
            | Some n =>
                match column_of_user n user_id (txn st) with
                | Some _ => inr (Some n)
                | None => fallback
                end
            | None => fallback
            end
          else inr (option_map column_id (first_column user_id (txn st))) in
        match resolved with
        | inl e => (InternalServerError e, st)
        | inr chosen =>
            let st := modify (insert_task title desc due_date priority reminder
                                          (utcnow req) (py "todo") user_id chosen) st in
            let st := commit st in
            (Redirect (back req), flash "Task added." "success" st)
        end)).

Definition add_column : Handler :=
  login_required (fun req st =>
    let name := strip (or_str (form_get "name" (form req)) []) in
    if negb (truthy name) then
      (Redirect url_workflow, flash "Name required" "danger" st)
    else
      with_user_id st (fun user_id =>
        let pos := Z.of_nat (length (owned_columns user_id (txn st))) in
        let st := commit (modify (insert_column name pos user_id) st) in
        (Redirect url_workflow, flash "Column added." "success" st))).

Definition update_column (task_id col_id : Z) : Handler :=
  login_required (fun req st =>
    match get_task task_id (txn st) with
    | None => not_found task_id st (Abort 404, st)
    | Some task =>
        if not_owner (task_user_id task) st then
          (Jsonify false (Some (py "Unauthorized")) 403, st)
        else
          with_user_id st (fun uid =>
            match column_of_user col_id uid (txn st) with
            | None =>
                not_found col_id st
                  (Jsonify false (Some (py "Column not found")) 404, st)
            | Some col =>
                let st := modify (update_task task_id
                                    (fun t => set_status (lower (column_name col))
                                                         (set_column_id (Some col_id) t))) st in
                (Jsonify true None 200, commit st)
            end)
    end).

Definition update_status (task_id : Z) (new_status : str) : Handler :=
  login_required (fun req st =>
    match get_task task_id (txn st) with
    | None => not_found task_id st (Abort 404, st)
    | Some task =>
        if not_owner (task_user_id task) st then
          (Jsonify false (Some (py "Unauthorized")) 403, st)
        else
          let st := modify (update_task task_id (set_status new_status)) st in
          (Jsonify true None 200, commit st)
    end).

Definition toggle_reminder (id : Z) : Handler :=
  login_required (fun req st =>
    match get_task id (txn st) with
    | None => not_found id st (Abort 404, st)
    | Some t =>
        if not_owner (task_user_id t) st then
          (Redirect (back req), flash "Not authorized" "danger" st)
        else
          let st := modify (update_task id (set_reminder_set (negb (reminder_set t)))) st in
          let st := commit st in
          (Redirect (back req), flash "Reminder toggled." "info" st)
    end).

Definition toggle (id : Z) : Handler :=
  login_required (fun req st =>
    match get_task id (txn st) with
    | None => not_found id st (Abort 404, st)
    | Some t =>
        if not_owner (task_user_id t) st then
          (Redirect url_index, flash "Not authorized." "danger" st)
        else
          let st := modify (update_task id (set_complete (negb (complete t)))) st in
          let st := commit st in
          (Redirect (back req), flash "Task updated." "success" st)
    end).

Definition delete (id : Z) : Handler :=
  login_required (fun req st =>
    match get_task id (txn st) with
    | None => not_found id st (Abort 404, st)
    | Some t =>
        if not_owner (task_user_id t) st then
          (Redirect url_index, flash "Not authorized." "danger" st)
        else
          let st := commit (modify (delete_task id) st) in
          (Redirect (back req), flash "Task deleted." "info" st)
    end).

Definition toggle_theme : Handler :=
  login_required (fun req st =>
    let st := set_session (mkSession (session_user_id (session st))
                                     (Some (negb (get_dark_mode st)))) st in
    (Redirect (back req), st)).
End Library.

(** Name lookup in the body of [delete_column], for names bound to a list of
    strings.  The body binds [default_columns]; the module binds no such
    list at top level (the [default_names] of [workflow] is a local of that
    function). *)
Definition delete_column_locals : list (string * list str) :=
  [("default_columns"%string,
    [py "To Do"; py "In Progress"; py "Pending"; py "Done"])].

Definition module_globals : list (string * list str) := [].

Fixpoint scope_get (name : string) (sc : list (string * list str)) : option (list str) :=
  match sc with
  | [] => None
  | (k, v) :: sc' => if String.eqb name k then Some v else scope_get name sc'
  end.

Definition load_name (name : string) : Exception + list str :=
  match scope_get name delete_column_locals with
  | Some v => inr v
  | None =>
      match scope_get name module_globals with
      | Some v => inr v
      | None => inl (NameError name)
      end
  end.

Definition delete_column (column_id : Z) : Handler :=
  login_required (fun req st =>
    let refuse :=
      (Redirect url_workflow,
       flash "You cannot delete default columns." "warning" st) in
    match get_column column_id (txn st) with
    | None => not_found column_id st refuse
    | Some column =>
        match load_name "default_names" with
        | inl e => (InternalServerError e, st)
        | inr names =>
            if negb (str_in (column_name column) names) then
              let st := commit (modify (delete_column_row column_id) st) in
              (Redirect url_workflow,
               flash_str (py "Column '" ++ column_name column
                            ++ py "' deleted successfully!") "success" st)
            else refuse
        end
    end).

(** [request.form[key]] on a missing key raises BadRequestKeyError, which
    the dispatcher answers with status 400, or treats as an unhandled
    exception where bad request errors are trapped, as they are by default
    when the application runs with [debug=True]; the fields assigned before
    it are dropped with the session.  A non-empty [due_date] is assigned as
    the submitted text, which the DateTime column of the SQLite dialect
    refuses when the commit flushes it; nothing of the edit is then
    stored. *)
Definition edit_task (task_id : Z) : Handler :=
  login_required (fun req st =>
    match get_task task_id (txn st) with
    | None =>
        not_found task_id st
          (Redirect url_workflow, flash "Task not found!" "danger" st)
    | Some task =>
        match form_get "title" (form req) with
        | None => (BadRequestKeyError "title", st)
        | Some ti =>
            match form_get "description" (form req) with
            | None => (BadRequestKeyError "description", st)
            | Some de =>
                match form_get "due_date" (form req) with
                | None => (BadRequestKeyError "due_date", st)
                | Some du =>
                    match form_get "priority" (form req) with
                    | None => (BadRequestKeyError "priority", st)
                    | Some pr =>
                        if truthy du then
                          (InternalServerError (StatementError "due_date"), st)
                        else
                          let st := modify (update_task task_id
                                              (set_edited ti (Some de) None pr)) st in
                          let st := commit st in
                          (Redirect url_workflow, flash "Task updated!" "success" st)
                    end
                end
            end
        end
    end).

(** ** Dispatch *)

Inductive Endpoint :=
| EIndex
| EWorkflow
| ECompleted
| EPending
| EAdd
| EAddColumn
| EUpdateColumn (task_id col_id : Z)
| EUpdateStatus (task_id : Z) (new_status : str)
| EToggleReminder (id : Z)
| EToggle (id : Z)
| EDelete (id : Z)
| EToggleTheme
| EDeleteColumn (column_id : Z)
| EEditTask (task_id : Z).

(** What lasts between requests. *)
Record World := mkWorld {
  db : Db;
  cookie : Session;
  flashed : list (str * str)
}.

Section Serve.
Variable strptime : str -> option datetime.
Variable int_of_str : str -> option Z.
Variable lower : str -> str.

Definition view_function (e : Endpoint) : Handler :=
  match e with
  | EIndex => index
  | EWorkflow => workflow
  | ECompleted => completed
  | EPending => pending
  | EAdd => add strptime int_of_str
  | EAddColumn => add_column
  | EUpdateColumn t c => update_column lower t c
  | EUpdateStatus t s => update_status t s
  | EToggleReminder i => toggle_reminder i
  | EToggle i => toggle i
  | EDelete i => delete i
  | EToggleTheme => toggle_theme
  | EDeleteColumn c => delete_column c
  | EEditTask t => edit_task t
  end.

(** One request: the view runs on a fresh session over the database, and
    the session is removed when the request ends. *)
Definition serve (e : Endpoint) (req : Request) (w : World) : Response * World :=
  let (r, st) := view_function e req (mkSt (db w) (db w) (cookie w) (flashed w)) in
  let st := teardown st in
  (r, mkWorld (persisted st) (session st) (flashes st)).
End Serve.

(** ** Reminder worker *)

(** [app.config]: the two mail credentials read from the environment. *)
Record Config := mkConfig {
  MAIL_USERNAME : option str;
  MAIL_PASSWORD : option str
}.

Record Message := mkMessage {
  subject : str;
  sender : str;
  recipients : list str;
  body : str
}.

(** The worker's footprint: the database, the calls of [mail.send] (each with
    the id of the task whose iteration made it), and the ids of the tasks
    whose iteration printed a send error. *)
Record Worker := mkWorker {
  store : Db;
  sent : list (Z * Message);
  printed : list Z
}.

(** [0 < seconds_left < 300].  [total_seconds()] divides a whole number of
    microseconds by 10**6 with correct rounding, so both comparisons decide
    the same on the microsecond count. *)
Definition due_soon (current due : datetime) : bool :=
  (0 <? due - current) && (due - current <? 300 * 1000000).

Definition credentials_set (cfg : Config) : bool :=
  truthy_opt (MAIL_USERNAME cfg) && truthy_opt (MAIL_PASSWORD cfg).

Section Reminder.
Variable cfg : Config.
(** [datetime.strftime('%Y-%m-%d %H:%M')] *)
Variable strftime : datetime -> str.

Definition newline : str := [10%N].

Definition reminder_body (t : Task) (due : datetime) : str :=
  py "Reminder: " ++ title t ++ newline ++ py "Due at " ++ strftime due
     ++ newline ++ newline ++ or_str (description t) [].

(** The [try] block for one task: what is handed to [mail.send], and
    whether the block raised. [mail_send m] is [false] when the transport
    raises. *)
Definition try_send (mail_send : Message -> bool) (d : Db) (t : Task)
    (due : datetime) : option Message * bool :=
  if credentials_set cfg then
    match get_user (task_user_id t) d with
    | None => (None, true)
    | Some owner =>
        let msg := mkMessage (py "Task Reminder") (or_str (MAIL_USERNAME cfg) [])
                             [email owner] (reminder_body t due) in
        (Some msg, negb (mail_send msg))
    end
  else (None, false).

(** The body of [for t in tasks]. *)
Definition remind (mail_send : Message -> bool) (current : datetime)
    (w : Worker) (t : Task) : Worker :=
  match due_date t with
  | None => w
  | Some due =>
      if due_soon current due then
        let (attempt, raised) := try_send mail_send (store w) t due in
        mkWorker
          (update_task (task_id t) (set_reminder_set false) (store w))
          (match attempt with
           | Some m => sent w ++ [(task_id t, m)]
           | None => sent w
           end)
          (if raised then printed w ++ [task_id t] else printed w)
      else w
  end.

(** One pass of the [while True] body, at clock reading [current]. *)
Definition reminder_cycle (mail_send : Message -> bool) (current : datetime)
    (w : Worker) : Worker :=
  let due_tasks := filter (fun t => reminder_set t && negb (complete t))
                          (tasks (store w)) in
  fold_left (remind mail_send current) due_tasks w.

(** The loop, unrolled over the clock readings and transport behaviour of
    its successive passes. *)
Fixpoint reminder_worker (passes : list (datetime * (Message -> bool)))
    (w : Worker) : Worker :=
  match passes with
  | [] => w
  | (current, mail_send) :: rest =>
      reminder_worker rest (reminder_cycle mail_send current w)
  end.
End Reminder.

(** The [mail.send] calls made for one task. *)
Definition sent_for (id : Z) (w : Worker) : list (Z * Message) :=
  filter (fun p => fst p =? id) (sent w).

(** A task that carries a due date. *)
Definition has_due_date (t : Task) : bool :=
  match due_date t with Some _ => true | None => false end.

(** What identifies a column on the board: name, position and owner. *)
Definition column_card (c : Column) : str * Z * Z :=
  (column_name c, position c, column_user_id c).

(** ** Accounts *)

Inductive Method := GET | POST.

(** The account views render a bare form or redirect. *)
Inductive AuthResponse :=
| RenderForm (template : string)
| RedirectTo (location : str).

Definition AuthHandler := Request -> St -> AuthResponse * St.

(** [User.query.filter_by(email=e).first()] *)
Definition find_user_by_email (e : str) (d : Db) : option User :=
  find (fun u => str_eqb (email u) e) (users d).

(** [INSERT INTO user]: the row takes the next key. *)
Definition insert_user (name mail hashed : str) (d : Db) : Db :=
  mkDb (users d ++ [mkUser (next_id (map user_id (users d))) name mail hashed])
       (columns d) (tasks d).

(** The text flashed after a signup, as the source file spells it. *)
Definition account_created : str :=
  py "Account created " ++ [226%N; 8364%N; 8221%N] ++ py " please log in.".

Section Accounts.
(** [str.lower], and the two password functions of werkzeug:
    [generate_password_hash(p)] as the hash this call returns, and
    [check_password_hash(h, p)]. *)
Variable lower : str -> str.
Variable generate_password_hash : str -> str.
Variable check_password_hash : str -> str -> bool.

Definition signup (method : Method) : AuthHandler :=
  fun req st =>
    match method with
    | POST =>
        let name := strip (or_str (form_get "name" (form req)) []) in
        let mail := lower (strip (or_str (form_get "email" (form req)) [])) in
        let secret := strip (or_str (form_get "password" (form req)) []) in
        if negb (truthy name) || negb (truthy mail) || negb (truthy secret) then
          (RenderForm "signup.html", flash "Please fill all fields." "danger" st)
        else
          match find_user_by_email mail (txn st) with
          | Some _ =>
              (RenderForm "signup.html",
               flash "Email already registered." "warning" st)
          | None =>
              let hashed := generate_password_hash secret in
              let new_id := next_id (map user_id (users (txn st))) in
              let st := commit (modify (insert_user name mail hashed) st) in
              let st := ensure_default_columns new_id st in
              (RedirectTo url_login, flash_str account_created "success" st)
          end
    | GET => (RenderForm "signup.html", st)
    end.

Definition login (method : Method) : AuthHandler :=
  fun req st =>
    match method with
    | POST =>
        let mail := lower (strip (or_str (form_get "email" (form req)) [])) in
        let secret := strip (or_str (form_get "password" (form req)) []) in
        if negb (truthy mail) || negb (truthy secret) then
          (RenderForm "login.html", flash "Enter email and password." "danger" st)
        else
          match find_user_by_email mail (txn st) with
          | Some user =>
              if check_password_hash (password user) secret then
                let st := set_session (mkSession (Some (user_id user))
                                                 (dark_mode (session st))) st in
                (RedirectTo url_index,
                 flash_str (py "Welcome, " ++ user_name user ++ py "!") "success" st)
              else
                (RenderForm "login.html", flash "Invalid credentials." "danger" st)
          | None =>
              (RenderForm "login.html", flash "Invalid credentials." "danger" st)
          end
    | GET => (RenderForm "login.html", st)
    end.

(** [session.pop('user_id', None)] *)
Definition logout : AuthHandler :=
  fun req st =>
    let st := set_session (mkSession None (dark_mode (session st))) st in
    (RedirectTo url_login, flash "Logged out." "info" st).

Inductive AuthEndpoint :=
| ESignup (method : Method)
| ELogin (method : Method)
| ELogout.

Definition auth_view (e : AuthEndpoint) : AuthHandler :=
  match e with
  | ESignup m => signup m
  | ELogin m => login m
  | ELogout => logout
  end.

(** One request to an account view, with the session removed at its end. *)
Definition serve_auth (e : AuthEndpoint) (req : Request) (w : World)
    : AuthResponse * World :=
  let (r, st) := auth_view e req (mkSt (db w) (db w) (cookie w) (flashed w)) in
  let st := teardown st in
  (r, mkWorld (persisted st) (session st) (flashes st)).
End Accounts.

(** The database after [ensure_default_columns] has run for a user at the
    start of a request. *)
Definition provision (uid : Z) (d : Db) : Db :=
  persisted (ensure_default_columns uid (mkSt d d (mkSession None None) [])).

(** [d'] is [d] with the task under [id] replaced by [t'] and nothing else
    changed. *)
Definition rewrites_task (id : Z) (t' : Task) (d d' : Db) : Prop :=
  users d' = users d
  /\ columns d' = columns d
  /\ length (tasks d') = length (tasks d)
  /\ get_task id d' = Some t'
  /\ forall k, k <> id -> get_task k d' = get_task k d.

(** A send that the cycle at clock reading [current] owes to a task of the
    database [d]: the task is armed, incomplete and due within the window,
    and the message is the reminder for it, addressed to its owner. *)
Definition reminder_of (cfg : Config) (strftime : datetime -> str)
    (current : datetime) (d : Db) (p : Z * Message) : Prop :=
  exists t owner due,
    In t (tasks d) /\ task_id t = fst p
    /\ reminder_set t = true /\ complete t = false
    /\ due_date t = Some due /\ 0 < due - current < 300 * 1000000
    /\ get_user (task_user_id t) d = Some owner
    /\ snd p = mkMessage (py "Task Reminder") (or_str (MAIL_USERNAME cfg) [])
                         [email owner] (reminder_body strftime t due).

(** ** Integrity of the tables *)

(** Primary keys are distinct in each table. *)
Definition keys_unique (d : Db) : Prop :=
  NoDup (map user_id (users d))
  /\ NoDup (map column_id (columns d))
  /\ NoDup (map task_id (tasks d)).

(** Every task that sits in a column sits in a column of its own user. *)
Definition filed_with_owner (d : Db) : Prop :=
  forall t c, In t (tasks d) -> task_column_id t = Some c ->
    exists col, In col (columns d) /\ column_id col = c
                /\ column_user_id col = task_user_id t.

(** The two integrity properties together. *)
Definition intact (d : Db) : Prop := keys_unique d /\ filed_with_owner d.

(** The tasks a rendered page lists, and the counts it shows. *)
Definition listed_tasks (r : Response) : list Task :=
  match r with
  | RenderTemplate _ ctx => ctx_tasks ctx
  | _ => []
  end.

Definition shown_stats (r : Response) : option Stats :=
  match r with
  | RenderTemplate _ ctx => Some (ctx_stats ctx)
  | _ => None
  end.

(** ** A board used in the examples

    Ann owns the three provisioned columns and one of her own; Bob owns one
    column and one armed task due 200 seconds after the clock reading
    [t_now]. *)
Definition second : Z := 1000000.
Definition t_now : datetime := 1000 * second.

Definition ann : User := mkUser 1 (py "Ann") (py "ann@x.com") (py "pbkdf2-a").
Definition bob : User := mkUser 2 (py "Bob") (py "bob@x.com") (py "pbkdf2-b").

Definition board_columns : list Column :=
  [mkColumn 1 (py "To Do") 0 1; mkColumn 2 (py "In Progress") 1 1;
   mkColumn 3 (py "Done") 2 1; mkColumn 4 (py "My Stage") 3 1;
   mkColumn 5 (py "To Do") 0 2].

Definition bobs_task : Task :=
  mkTask 1 (py "Pay rent") (Some (py "before Friday")) (Some (t_now + 200 * second))
         (py "High") false true (t_now - 3600 * second) (py "todo") 2 (Some 5).

Definition board : Db := mkDb [ann; bob] board_columns [bobs_task].

Definition ann_world : World := mkWorld board (mkSession (Some 1) None) [].
Definition bob_world : World := mkWorld board (mkSession (Some 2) None) [].
Definition anonymous_world : World := mkWorld board (mkSession None None) [].

Definition plain_request : Request := mkRequest [] [] None t_now t_now.

(** The form Ann submits to [/edit_task/1]. *)
Definition overwrite_form : list (string * str) :=
  [("title"%string, py "Taken over"); ("description"%string, py "");
   ("due_date"%string, py ""); ("priority"%string, py "Low")].

Definition overwrite_request : Request :=
  mkRequest overwrite_form [] None t_now t_now.

(** The names of the columns a rendered board shows. *)
Definition shown_names (r : Response) : option (list str) :=
  match r with
  | RenderTemplate _ ctx =>
      option_map (map (fun p : Column * list Task => column_name (fst p)))
                 (ctx_columns ctx)
  | _ => None
  end.

(** No row of the task with this id is armed. *)
Definition disarmed (id : Z) (d : Db) : Prop :=
  forall r, In r (tasks d) -> task_id r = id -> reminder_set r = false.

(** [d'] is [d] with some reminder flags cleared and nothing else changed. *)
Definition only_disarms (d d' : Db) : Prop :=
  users d' = users d
  /\ columns d' = columns d
  /\ Forall2 (fun r r' => r' = r \/ r' = set_reminder_set false r) (tasks d) (tasks d').

(** A worker that starts on the example board, with and without mail
    credentials, and a transport that always delivers. *)
Definition mail_configured : Config :=
  mkConfig (Some (py "todo@x.com")) (Some (py "app-password")).
Definition mail_absent : Config := mkConfig None None.
Definition fresh_worker : Worker := mkWorker board [] [].
Definition delivers (m : Message) : bool := true.
Definition clock_text (d : datetime) : str := py "1970-01-01 00:20".

(** Ann adds a task without naming a column. *)
Definition milk_request : Request :=
  mkRequest [("title"%string, py " Buy milk "); ("reminder"%string, py "on")]
            [] (Some (py "/workflow")) t_now t_now.

(** Ann adds a task and names Bob's column 5. *)
Definition trespass_request : Request :=
  mkRequest [("title"%string, py "Peek"); ("column_id"%string, py "5")]
            [] None t_now t_now.

(** Ann adds a column. *)
Definition review_request : Request :=
  mkRequest [("name"%string, py " Review ")] [] None t_now t_now.

(** A reader of one- and two-digit decimal numerals, for the examples. *)
Definition digits_to_Z (s : str) : option Z :=
  match s with
  | [a] => if ((48 <=? a) && (a <=? 57))%N then Some (Z.of_N a - 48) else None
  | [a; b] =>
      if ((48 <=? a) && (a <=? 57) && (48 <=? b) && (b <=? 57))%N
      then Some (10 * (Z.of_N a - 48) + (Z.of_N b - 48)) else None
  | _ => None
  end.

(** A session left over from a user whose row does not exist. *)
Definition stale_world : World := mkWorld board (mkSession (Some 7) None) [].

(** The board asked for in priority order. *)
Definition priority_request : Request :=
  mkRequest [] [("sort"%string, py "priority")] None t_now t_now.

(** The columns a rendered board shows, each with its tasks. *)
Definition shown_columns (r : Response) : list (Column * list Task) :=
  match r with
  | RenderTemplate _ ctx =>
      match ctx_columns ctx with Some l => l | None => [] end
  | _ => []
  end.

(** Cat signs up and logs in with the same form. *)
Definition cat_request : Request :=
  mkRequest [("name"%string, py " Cat "); ("email"%string, py "Cat@X.com ");
             ("password"%string, py "pw123456")] [] None t_now t_now.

(** Someone signs up with Ann's email in another spelling. *)
Definition ann_again_request : Request :=
  mkRequest [("name"%string, py "Ann B"); ("email"%string, py " ANN@x.com");
             ("password"%string, py "secret")] [] None t_now t_now.

(** A toy pair of password functions for the examples. *)
Definition toy_hash (p : str) : str := py "toy$" ++ p.
Definition toy_check (h p : str) : bool := str_eqb h (toy_hash p).

(** Stand-ins for the library functions in the examples. *)
Definition never_parses {A} (s : str) : option A := None.
Definition ascii_lower (s : str) : str :=
  map (fun c => if ((65 <=? c) && (c <=? 90))%N then (c + 32)%N else c) s.

(** * Properties *)

(** ** Strings, sorting and row updates *)

Lemma str_eqb_refl (a : str) : str_eqb a a = true.
Proof.
  induction a as [|x a IH]; simpl; [reflexivity|].
  now rewrite N.eqb_refl, IH.
Qed.

Lemma str_eqb_eq (a b : str) : str_eqb a b = true <-> a = b.
Proof.
  split.
  - revert b. induction a as [|x a IH]; intros [|y b]; simpl; try discriminate; auto.
    intros H. apply andb_true_iff in H. destruct H as [Hx Ha].
    apply N.eqb_eq in Hx. apply IH in Ha. now subst.
  - intros <-. apply str_eqb_refl.
Qed.

Lemma lstrip_spaces (s : str) : forallb isspace s = true -> lstrip s = [].
Proof.
  induction s as [|c s IH]; simpl; [reflexivity|].
  intros H. apply andb_true_iff in H. destruct H as [Hc Hs].
  rewrite Hc. auto.
Qed.

Lemma lstrip_nil_spaces (s : str) : lstrip s = [] -> forallb isspace s = true.
Proof.
  induction s as [|c s IH]; simpl; [reflexivity|].
  destruct (isspace c); simpl; [exact IH | discriminate].
Qed.

Lemma strip_nil_iff (s : str) : strip s = [] <-> forallb isspace s = true.
Proof.
  unfold strip, rstrip. split.
  - intros H. apply lstrip_nil_spaces.
    apply (f_equal (@rev N)) in H. rewrite rev_involutive in H. simpl in H.
    apply lstrip_nil_spaces in H.
    destruct (lstrip s) as [|c r] eqn:E; [reflexivity|].
    (* the stripped text starts with a non-space, so it cannot be all spaces *)
    exfalso.
    assert (Hc : isspace c = false).
    { clear H. induction s as [|x s IH]; simpl in E; [discriminate|].
      destruct (isspace x) eqn:Ex; [auto|]. now injection E as -> _. }
    rewrite forallb_forall in H. specialize (H c).
    rewrite Hc in H. discriminate H. apply in_rev. rewrite rev_involutive. now left.
  - intros H. now rewrite (lstrip_spaces s H).
Qed.

Lemma insert_sorted_not_nil {A} (ltb : A -> A -> bool) x l :
  insert_sorted ltb x l <> [].
Proof. destruct l as [|y l]; simpl; [|destruct (ltb y x)]; discriminate. Qed.

Lemma sorted_nil_iff {A} (ltb : A -> A -> bool) l : sorted ltb l = [] <-> l = [].
Proof.
  split; [|now intros ->].
  destruct l as [|x l]; [reflexivity|]. simpl. intros H.
  now apply insert_sorted_not_nil in H.
Qed.

Lemma filter_split_length {A} (f : A -> bool) (l : list A) :
  length l = (length (filter (fun x => negb (f x)) l) + length (filter f l))%nat.
Proof.
  induction l as [|x l IH]; simpl; [reflexivity|].
  destruct (f x); simpl; lia.
Qed.

Lemma overdue_ignores_undated (current : datetime) (ts : list Task) :
  filter (is_overdue current) ts
  = filter (is_overdue current) (filter has_due_date ts).
Proof.
  induction ts as [|t ts IH]; simpl; [reflexivity|].
  unfold has_due_date at 1. destruct (due_date t) as [d|] eqn:E; simpl.
  - now rewrite <- IH.
  - assert (H : is_overdue current t = false) by (unfold is_overdue; now rewrite E).
    now rewrite H.
Qed.

(** ** Statistics *)

(** C7: the counts of [calculate_stats] satisfy total = pending + completed,
    where pending counts the tasks that are not complete and completed those
    that are; the overdue count is the same once every task without a due
    date is dropped from the list, and every task it counts has a due date,
    whatever its completion flag. *)
Theorem calculate_stats_counts (current : datetime) (ts : list Task) :
  let s := calculate_stats current ts in
  stat_total s = (stat_pending s + stat_completed s)%nat
  /\ stat_total s = length ts
  /\ stat_pending s = length (filter (fun t => negb (complete t)) ts)
  /\ stat_completed s = length (filter complete ts)
  /\ stat_overdue s = stat_overdue (calculate_stats current (filter has_due_date ts))
  /\ stat_overdue s
     = length (filter (fun t => has_due_date t && is_overdue current t) ts).
Proof.
  simpl. repeat split.
  - apply (filter_split_length complete).
  - now rewrite <- overdue_ignores_undated.
  - f_equal. apply filter_ext. intros t.
    unfold has_due_date, is_overdue. now destruct (due_date t).
Qed.

(** ** Default columns *)

Lemma owned_columns_app uid us cs ts extra :
  owned_columns uid (mkDb us (cs ++ extra) ts)
  = owned_columns uid (mkDb us cs ts) ++ filter (fun c => column_user_id c =? uid) extra.
Proof. unfold owned_columns. simpl. apply filter_app. Qed.

(** C6: [ensure_default_columns] is idempotent: a second call in succession
    leaves the state of the first untouched.  When the user owns no column
    the first call appends three rows named To Do, In Progress, Done with
    positions 0, 1, 2, owned by the user, commits them, and the user's
    columns are then exactly these three; when the user owns a column the
    call changes nothing. *)
Theorem ensure_default_columns_idempotent (uid : Z) (st : St) :
  let st1 := ensure_default_columns uid st in
  ensure_default_columns uid st1 = st1
  /\ match owned_columns uid (txn st) with
     | [] =>
         exists created,
           columns (txn st1) = columns (txn st) ++ created
           /\ map column_card created
              = [(py "To Do", 0, uid); (py "In Progress", 1, uid); (py "Done", 2, uid)]
           /\ columns_of uid (txn st1) = created
           /\ users (txn st1) = users (txn st)
           /\ tasks (txn st1) = tasks (txn st)
           /\ persisted st1 = txn st1
     | _ :: _ => st1 = st
     end.
Proof.
  unfold ensure_default_columns, columns_of.
  destruct (owned_columns uid (txn st)) as [|c cs] eqn:E.
  - cbn [sorted fold_right].
    cbn -[py next_id]. unfold columns_of.
    set (c0 := mkColumn _ (py "To Do") 0 uid).
    set (c1 := mkColumn _ (py "In Progress") 1 uid).
    set (c2 := mkColumn _ (py "Done") 2 uid).
    assert (Hown : filter (fun c => column_user_id c =? uid)
                          (((columns (txn st) ++ [c0]) ++ [c1]) ++ [c2])
                   = [c0; c1; c2]).
    { rewrite !filter_app.
      change (filter _ (columns (txn st))) with (owned_columns uid (txn st)).
      rewrite E. simpl. now rewrite Z.eqb_refl. }
    rewrite Hown. split.
    + reflexivity.
    + exists [c0; c1; c2]. repeat split.
      now rewrite <- !app_assoc.
  - assert (Hs : sorted (fun a b => position a <? position b) (c :: cs) <> [])
      by (intros H; apply sorted_nil_iff in H; discriminate).
    destruct (sorted _ (c :: cs)) eqn:Es; [contradiction|].
    rewrite E, Es. split; reflexivity.
Qed.

(** ** The session check *)

Section Views.
Variable strptime : str -> option datetime.
Variable int_of_str : str -> option Z.
Variable lower : str -> str.

Lemma login_required_anonymous (f : Handler) req st :
  session_user_id (session st) = None ->
  login_required f req st
  = (Redirect url_login, flash "Please login first!" "warning" st).
Proof. unfold login_required. now intros ->. Qed.

Lemma login_required_logged_in (f : Handler) req st uid :
  session_user_id (session st) = Some uid ->
  login_required f req st = f req st.
Proof. unfold login_required. now intros ->. Qed.

Lemma serve_anonymous e req d dm fl :
  serve strptime int_of_str lower e req (mkWorld d (mkSession None dm) fl)
  = (Redirect url_login,
     mkWorld d (mkSession None dm) (fl ++ [(py "Please login first!", py "warning")])).
Proof. destruct e; reflexivity. Qed.

Lemma not_owner_true owner st uid :
  session_user_id (session st) = Some uid -> owner <> uid ->
  not_owner owner st = true.
Proof.
  unfold not_owner. intros -> H.
  apply negb_true_iff. now apply Z.eqb_neq.
Qed.

Lemma not_owner_false st uid :
  session_user_id (session st) = Some uid -> not_owner uid st = false.
Proof. unfold not_owner. intros ->. now rewrite Z.eqb_refl. Qed.

(** C3, as the code has it: without an authenticated session every guarded
    endpoint, the two JSON endpoints included, redirects to the login page
    with the warning and changes nothing else, whatever the database holds;
    the JSON endpoints answer with the Unauthorized payload and status 403
    when an authenticated user targets a task owned by someone else. *)
Theorem session_check_precedes_json_refusal
    (e : Endpoint) (req : Request) (d : Db) (dm : option bool)
    (fl : list (str * str)) :
  serve strptime int_of_str lower e req (mkWorld d (mkSession None dm) fl)
  = (Redirect url_login,
     mkWorld d (mkSession None dm)
             (fl ++ [(py "Please login first!", py "warning")]))
  /\ forall (tid cid uid : Z) (new_status : str) (t : Task),
       get_task tid d = Some t ->
       task_user_id t <> uid ->
       serve strptime int_of_str lower (EUpdateColumn tid cid) req
             (mkWorld d (mkSession (Some uid) dm) fl)
       = (Jsonify false (Some (py "Unauthorized")) 403,
          mkWorld d (mkSession (Some uid) dm) fl)
       /\ serve strptime int_of_str lower (EUpdateStatus tid new_status) req
                (mkWorld d (mkSession (Some uid) dm) fl)
          = (Jsonify false (Some (py "Unauthorized")) 403,
             mkWorld d (mkSession (Some uid) dm) fl).
Proof.
  split; [apply serve_anonymous|].
  intros tid cid uid new_status t Ht Hne.
  unfold serve, view_function, update_column, update_status, login_required.
  cbn [session session_user_id txn db cookie flashed].
  rewrite Ht.
  rewrite (not_owner_true _ _ uid) by (auto; reflexivity).
  split; reflexivity.
Qed.
End Views.

Lemma session_check_precedes_json_refusal_witness :
  get_task 1 board = Some bobs_task
  /\ task_user_id bobs_task <> 1
  /\ serve never_parses never_parses ascii_lower (EUpdateColumn 1 1) plain_request
           anonymous_world
     = (Redirect url_login,
        mkWorld board (mkSession None None) [(py "Please login first!", py "warning")])
  /\ serve never_parses never_parses ascii_lower (EUpdateColumn 1 1) plain_request
           (mkWorld (mkDb [] [] []) (mkSession None None) [])
     = (Redirect url_login,
        mkWorld (mkDb [] [] []) (mkSession None None)
                [(py "Please login first!", py "warning")])
  /\ serve never_parses never_parses ascii_lower (EUpdateColumn 1 1) plain_request
           ann_world
     = (Jsonify false (Some (py "Unauthorized")) 403, ann_world)
  /\ serve never_parses never_parses ascii_lower (EUpdateStatus 1 (py "done"))
           plain_request ann_world
     = (Jsonify false (Some (py "Unauthorized")) 403, ann_world).
Proof.
  assert (Hne : task_user_id bobs_task <> 1) by (simpl; lia).
  split; [reflexivity|]. split; [exact Hne|].
  destruct (session_check_precedes_json_refusal never_parses never_parses ascii_lower
              (EUpdateColumn 1 1) plain_request board None []) as [Hanon Hjson].
  split; [exact Hanon|].
  split.
  - exact (proj1 (session_check_precedes_json_refusal never_parses never_parses
                    ascii_lower (EUpdateColumn 1 1) plain_request (mkDb [] [] [])
                    None [])).
  - exact (Hjson 1 1 1 (py "done") bobs_task eq_refl Hne).
Defined.

(** C3, as stated, fails: [update_column] and [update_status] called without
    a session answer with the redirect to the login page, not with a JSON
    payload. *)
Lemma json_endpoints_redirect_anonymous :
  fst (serve never_parses never_parses ascii_lower (EUpdateColumn 1 1) plain_request
             anonymous_world) = Redirect url_login
  /\ fst (serve never_parses never_parses ascii_lower (EUpdateStatus 1 (py "done"))
                plain_request anonymous_world) = Redirect url_login
  /\ ~ (exists ok err code,
          fst (serve never_parses never_parses ascii_lower (EUpdateColumn 1 1)
                     plain_request anonymous_world) = Jsonify ok err code)
  /\ ~ (exists ok err code,
          fst (serve never_parses never_parses ascii_lower (EUpdateStatus 1 (py "done"))
                     plain_request anonymous_world) = Jsonify ok err code).
Proof.
  repeat split; try reflexivity; intros (ok & err & code & H); discriminate H.
Qed.

(** ** Adding a task *)

Lemma blank_title_strips_to_nothing (field : option str) :
  match field with
  | Some v => forallb isspace v = true
  | None => True
  end ->
  truthy (strip (or_str field [])) = false.
Proof.
  intros H.
  assert (E : strip (or_str field []) = []).
  { apply strip_nil_iff. destruct field as [v|]; simpl; [|reflexivity].
    destruct (truthy v); [exact H | reflexivity]. }
  now rewrite E.
Qed.

(** C8: an add-task request of a logged-in user whose title field is
    missing, empty or made of whitespace only is answered with the redirect
    back and the flashed error "Title required"; the database, and with it
    the task table, is left as it was. *)
Theorem add_blank_title_rejected
    (strptime : str -> option datetime) (int_of_str : str -> option Z)
    (lower : str -> str) (req : Request) (w : World) (uid : Z) :
  session_user_id (cookie w) = Some uid ->
  match form_get "title" (form req) with
  | Some v => forallb isspace v = true
  | None => True
  end ->
  serve strptime int_of_str lower EAdd req w
  = (Redirect (back req),
     mkWorld (db w) (cookie w) (flashed w ++ [(py "Title required", py "danger")])).
Proof.
  intros Hu Hblank.
  unfold serve, view_function, add, login_required.
  cbn [session session_user_id txn db cookie flashed].
  rewrite Hu.
  rewrite (blank_title_strips_to_nothing _ Hblank).
  reflexivity.
Qed.

Lemma add_blank_title_rejected_witness :
  session_user_id (cookie ann_world) = Some 1
  /\ forallb isspace (py "  ") = true
  /\ serve never_parses never_parses ascii_lower EAdd
           (mkRequest [("title"%string, py "  "); ("priority"%string, py "High")]
                      [] None t_now t_now)
           ann_world
     = (Redirect url_index,
        mkWorld board (cookie ann_world) [(py "Title required", py "danger")]).
Proof.
  split; [reflexivity|]. split; [reflexivity|].
  apply (add_blank_title_rejected never_parses never_parses ascii_lower
           (mkRequest [("title"%string, py "  "); ("priority"%string, py "High")]
                      [] None t_now t_now)
           ann_world 1).
  - reflexivity.
  - reflexivity.
Defined.

(** ** Updating one task row *)

Lemma get_task_update_same (id : Z) (f : Task -> Task) (d : Db) :
  (forall t, task_id (f t) = task_id t) ->
  get_task id (update_task id f d) = option_map f (get_task id d).
Proof.
  intros Hid. unfold get_task, update_task. simpl.
  induction (tasks d) as [|t ts IH]; simpl; [reflexivity|].
  destruct (task_id t =? id) eqn:E; simpl.
  - now rewrite Hid, E.
  - now rewrite E.
Qed.

Lemma get_task_update_other (id k : Z) (f : Task -> Task) (d : Db) :
  (forall t, task_id (f t) = task_id t) -> k <> id ->
  get_task k (update_task id f d) = get_task k d.
Proof.
  intros Hid Hk. unfold get_task, update_task. simpl.
  induction (tasks d) as [|t ts IH]; simpl; [reflexivity|].
  destruct (task_id t =? id) eqn:E; simpl.
  - rewrite Hid. apply Z.eqb_eq in E. rewrite E.
    assert (Hf : (id =? k) = false) by (apply Z.eqb_neq; congruence).
    now rewrite Hf.
  - destruct (task_id t =? k); [reflexivity | exact IH].
Qed.

Lemma get_task_found (id : Z) (d : Db) (t : Task) :
  get_task id d = Some t -> task_id t = id /\ In t (tasks d).
Proof.
  unfold get_task. intros H. apply find_some in H. destruct H as [Hin Heq].
  split; [now apply Z.eqb_eq | exact Hin].
Qed.

Section Toggles.
Variable strptime : str -> option datetime.
Variable int_of_str : str -> option Z.
Variable lower : str -> str.

Lemma toggle_owner req w uid id t :
  session_user_id (cookie w) = Some uid ->
  get_task id (db w) = Some t ->
  task_user_id t = uid ->
  serve strptime int_of_str lower (EToggle id) req w
  = (Redirect (back req),
     mkWorld (update_task id (set_complete (negb (complete t))) (db w))
             (cookie w) (flashed w ++ [(py "Task updated.", py "success")])).
Proof.
  intros Hu Ht Ho.
  unfold serve, view_function, toggle, login_required.
  cbn [session session_user_id txn db cookie flashed].
  rewrite Hu, Ht, Ho.
  rewrite (not_owner_false _ uid) by exact Hu.
  reflexivity.
Qed.

Lemma toggle_reminder_owner req w uid id t :
  session_user_id (cookie w) = Some uid ->
  get_task id (db w) = Some t ->
  task_user_id t = uid ->
  serve strptime int_of_str lower (EToggleReminder id) req w
  = (Redirect (back req),
     mkWorld (update_task id (set_reminder_set (negb (reminder_set t))) (db w))
             (cookie w) (flashed w ++ [(py "Reminder toggled.", py "info")])).
Proof.
  intros Hu Ht Ho.
  unfold serve, view_function, toggle_reminder, login_required.
  cbn [session session_user_id txn db cookie flashed].
  rewrite Hu, Ht, Ho.
  rewrite (not_owner_false _ uid) by exact Hu.
  reflexivity.
Qed.

(** C10: for a task owned by the session user, [toggle] stores the task
    with [complete] negated and every other field as it was, and
    [toggle_reminder] does the same for [reminder_set]; users, columns and
    the tasks under other ids are untouched; the same toggle applied a
    second time gives back the original task. *)
Theorem toggle_changes_one_flag
    (req : Request) (w : World) (uid id : Z) (t : Task) :
  session_user_id (cookie w) = Some uid ->
  get_task id (db w) = Some t ->
  task_user_id t = uid ->
  let flip e := snd (serve strptime int_of_str lower e req w) in
  let flip2 e :=
    snd (serve strptime int_of_str lower e req (flip e)) in
  get_task id (db (flip (EToggle id)))
  = Some (mkTask (task_id t) (title t) (description t) (due_date t) (priority t)
                 (negb (complete t)) (reminder_set t) (created_at t) (status t)
                 (task_user_id t) (task_column_id t))
  /\ get_task id (db (flip (EToggleReminder id)))
     = Some (mkTask (task_id t) (title t) (description t) (due_date t) (priority t)
                    (complete t) (negb (reminder_set t)) (created_at t) (status t)
                    (task_user_id t) (task_column_id t))
  /\ (forall e, e = EToggle id \/ e = EToggleReminder id ->
        users (db (flip e)) = users (db w)
        /\ columns (db (flip e)) = columns (db w)
        /\ length (tasks (db (flip e))) = length (tasks (db w))
        /\ forall k, k <> id -> get_task k (db (flip e)) = get_task k (db w))
  /\ get_task id (db (flip2 (EToggle id))) = Some t
  /\ get_task id (db (flip2 (EToggleReminder id))) = Some t.
Proof.
  intros Hu Ht Ho flip flip2.
  assert (F1 : flip (EToggle id)
               = mkWorld (update_task id (set_complete (negb (complete t))) (db w))
                         (cookie w) (flashed w ++ [(py "Task updated.", py "success")])).
  { unfold flip. now rewrite (toggle_owner req w uid id t). }
  assert (F2 : flip (EToggleReminder id)
               = mkWorld (update_task id (set_reminder_set (negb (reminder_set t))) (db w))
                         (cookie w) (flashed w ++ [(py "Reminder toggled.", py "info")])).
  { unfold flip. now rewrite (toggle_reminder_owner req w uid id t). }
  assert (G1 : get_task id (db (flip (EToggle id)))
               = Some (set_complete (negb (complete t)) t)).
  { rewrite F1. simpl. rewrite get_task_update_same by reflexivity. now rewrite Ht. }
  assert (G2 : get_task id (db (flip (EToggleReminder id)))
               = Some (set_reminder_set (negb (reminder_set t)) t)).
  { rewrite F2. simpl. rewrite get_task_update_same by reflexivity. now rewrite Ht. }
  split; [exact G1|]. split; [exact G2|]. split; [|split].
  - intros e [-> | ->]; [rewrite F1 | rewrite F2]; simpl;
      (repeat split; [apply length_map |]);
      intros k Hk; now apply get_task_update_other.
  - unfold flip2.
    rewrite (toggle_owner req (flip (EToggle id)) uid id
               (set_complete (negb (complete t)) t));
      [| now rewrite F1 | exact G1 | exact Ho].
    simpl. rewrite get_task_update_same by reflexivity. rewrite G1. simpl.
    rewrite negb_involutive. now destruct t.
  - unfold flip2.
    rewrite (toggle_reminder_owner req (flip (EToggleReminder id)) uid id
               (set_reminder_set (negb (reminder_set t)) t));
      [| now rewrite F2 | exact G2 | exact Ho].
    simpl. rewrite get_task_update_same by reflexivity. rewrite G2. simpl.
    rewrite negb_involutive. now destruct t.
Qed.
End Toggles.

Lemma toggle_changes_one_flag_witness :
  session_user_id (cookie bob_world) = Some 2
  /\ get_task 1 (db bob_world) = Some bobs_task
  /\ task_user_id bobs_task = 2
  /\ get_task 1 (db (snd (serve never_parses never_parses ascii_lower (EToggle 1)
                               plain_request bob_world)))
     = Some (mkTask 1 (py "Pay rent") (Some (py "before Friday"))
                    (Some (t_now + 200 * second)) (py "High") true true
                    (t_now - 3600 * second) (py "todo") 2 (Some 5)).
Proof.
  split; [reflexivity|]. split; [reflexivity|]. split; [reflexivity|].
  apply (toggle_changes_one_flag never_parses never_parses ascii_lower
           plain_request bob_world 2 1 bobs_task); reflexivity.
Defined.

(** ** Tasks of another user *)

Section Ownership.
Variable strptime : str -> option datetime.
Variable int_of_str : str -> option Z.
Variable lower : str -> str.

(** The five task operations that compare the owner with the session
    refuse a task of another user and leave the database as it was. *)
Lemma guarded_operations_refuse_foreign_task
    (req : Request) (w : World) (uid id cid : Z) (s : str) (t : Task) :
  session_user_id (cookie w) = Some uid ->
  get_task id (db w) = Some t ->
  task_user_id t <> uid ->
  serve strptime int_of_str lower (EToggle id) req w
  = (Redirect url_index,
     mkWorld (db w) (cookie w) (flashed w ++ [(py "Not authorized.", py "danger")]))
  /\ serve strptime int_of_str lower (EToggleReminder id) req w
     = (Redirect (back req),
        mkWorld (db w) (cookie w) (flashed w ++ [(py "Not authorized", py "danger")]))
  /\ serve strptime int_of_str lower (EDelete id) req w
     = (Redirect url_index,
        mkWorld (db w) (cookie w) (flashed w ++ [(py "Not authorized.", py "danger")]))
  /\ serve strptime int_of_str lower (EUpdateColumn id cid) req w
     = (Jsonify false (Some (py "Unauthorized")) 403, w)
  /\ serve strptime int_of_str lower (EUpdateStatus id s) req w
     = (Jsonify false (Some (py "Unauthorized")) 403, w).
Proof.
  intros Hu Ht Hne.
  unfold serve, view_function, toggle, toggle_reminder, delete, update_column,
    update_status, login_required.
  cbn [session session_user_id txn db cookie flashed].
  rewrite Hu, Ht.
  rewrite (not_owner_true _ _ uid) by (auto; exact Hu).
  destruct w. repeat split; reflexivity.
Qed.

(** [edit_task] never looks at the owner: whoever is logged in overwrites
    the four submitted fields of the task with that id. *)
Lemma edit_task_any_session
    (req : Request) (w : World) (uid id : Z) (t : Task) (ti de pr : str) :
  session_user_id (cookie w) = Some uid ->
  get_task id (db w) = Some t ->
  form_get "title" (form req) = Some ti ->
  form_get "description" (form req) = Some de ->
  form_get "due_date" (form req) = Some [] ->
  form_get "priority" (form req) = Some pr ->
  serve strptime int_of_str lower (EEditTask id) req w
  = (Redirect url_workflow,
     mkWorld (update_task id (set_edited ti (Some de) None pr) (db w))
             (cookie w) (flashed w ++ [(py "Task updated!", py "success")])).
Proof.
  intros Hu Ht H1 H2 H3 H4.
  unfold serve, view_function, edit_task, login_required.
  cbn [session session_user_id txn db cookie flashed].
  now rewrite Hu, Ht, H1, H2, H3, H4.
Qed.
End Ownership.

(** C1, at the input where the code departs from it: Ann, logged in, posts
    an edit for task 1, which Bob owns.  The request is not refused; the
    stored task has Ann's title, description, due date and priority.  (The
    five operations that compare the owner refuse such a request, see
    [guarded_operations_refuse_foreign_task].) *)
Theorem edit_task_overwrites_foreign_task :
  session_user_id (cookie ann_world) = Some 1
  /\ get_task 1 (db ann_world) = Some bobs_task
  /\ task_user_id bobs_task = 2
  /\ serve never_parses never_parses ascii_lower (EEditTask 1) overwrite_request ann_world
     = (Redirect url_workflow,
        mkWorld (mkDb [ann; bob] board_columns
                      [mkTask 1 (py "Taken over") (Some (py "")) None (py "Low")
                              false true (t_now - 3600 * second) (py "todo") 2 (Some 5)])
                (cookie ann_world) [(py "Task updated!", py "success")]).
Proof. repeat split. Qed.

(** ** Deleting a column *)

Lemma default_names_unbound : load_name "default_names" = inl (NameError "default_names").
Proof. reflexivity. Qed.

(** Whenever the column exists, evaluating the membership test raises
    before anything is deleted or flashed. *)
Lemma delete_column_existing_raises
    (strptime : str -> option datetime) (int_of_str : str -> option Z)
    (lower : str -> str) (req : Request) (w : World) (uid cid : Z) (c : Column) :
  session_user_id (cookie w) = Some uid ->
  get_column cid (db w) = Some c ->
  serve strptime int_of_str lower (EDeleteColumn cid) req w
  = (InternalServerError (NameError "default_names"), w).
Proof.
  intros Hu Hc.
  unfold serve, view_function, delete_column, login_required.
  cbn [session session_user_id txn db cookie flashed].
  rewrite Hu, Hc, default_names_unbound. now destruct w.
Qed.

(** C2, at the inputs where the code departs from it: Ann asks to delete her
    own column "My Stage" (id 4) and the column "Done" (id 3).  Both requests
    end in a NameError for [default_names]: "My Stage" is not removed, and
    for "Done" no warning is flashed. *)
Theorem delete_column_raises_name_error :
  option_map column_card (get_column 4 board) = Some (py "My Stage", 3, 1)
  /\ option_map column_card (get_column 3 board) = Some (py "Done", 2, 1)
  /\ serve never_parses never_parses ascii_lower (EDeleteColumn 4) plain_request ann_world
     = (InternalServerError (NameError "default_names"), ann_world)
  /\ serve never_parses never_parses ascii_lower (EDeleteColumn 3) plain_request ann_world
     = (InternalServerError (NameError "default_names"), ann_world).
Proof. repeat split. Qed.

(** ** The board view *)

Lemma staged_columns_not_persisted (uid : Z) (existing names : list str) (st : St) :
  persisted
    (fold_left
       (fun s name =>
          if negb (str_in name existing)
          then modify (insert_column name 0 uid) s
          else s)
       names st)
  = persisted st.
Proof.
  revert st. induction names as [|n names IH]; intros st; simpl; [reflexivity|].
  rewrite IH. now destruct (negb (str_in n existing)).
Qed.

(** What [workflow] leaves in the database is what [ensure_default_columns]
    committed; the columns it adds for the five default names are dropped
    with the session. *)
Lemma workflow_stores_only_provisioning
    (strptime : str -> option datetime) (int_of_str : str -> option Z)
    (lower : str -> str) (req : Request) (w : World) (uid : Z) (user : User) :
  session_user_id (cookie w) = Some uid ->
  get_user uid (db w) = Some user ->
  db (snd (serve strptime int_of_str lower EWorkflow req w))
  = persisted (ensure_default_columns (user_id user)
                 (mkSt (db w) (db w) (cookie w) (flashed w))).
Proof.
  intros Hu Hg.
  unfold serve, view_function, workflow, login_required, with_user_id.
  cbn [session session_user_id txn db cookie flashed].
  rewrite Hu, Hg. cbn [snd teardown persisted db].
  apply staged_columns_not_persisted.
Qed.

(** C4, at the input where the code departs from it: Ann owns To Do,
    In Progress, Done and My Stage; Completed and Pending are missing.  The
    board rendered by [workflow] shows her four columns only, and the
    database after the request is the one before it: neither missing name is
    shown or stored. *)
Theorem workflow_drops_missing_defaults :
  map column_name (columns_of 1 board)
  = [py "To Do"; py "In Progress"; py "Done"; py "My Stage"]
  /\ shown_names (fst (serve never_parses never_parses ascii_lower EWorkflow
                             plain_request ann_world))
     = Some [py "To Do"; py "In Progress"; py "Done"; py "My Stage"]
  /\ snd (serve never_parses never_parses ascii_lower EWorkflow plain_request ann_world)
     = ann_world
  /\ str_in (py "Completed") (map column_name (columns_of 1 board)) = false
  /\ str_in (py "Pending") (map column_name (columns_of 1 board)) = false.
Proof. repeat split. Qed.

(** ** The reminder worker *)

Section ReminderFacts.
Variable cfg : Config.
Variable strftime : datetime -> str.

Lemma remind_skip mail_send current w t :
  match due_date t with
  | Some due => due_soon current due = false
  | None => True
  end ->
  remind cfg strftime mail_send current w t = w.
Proof.
  unfold remind. destruct (due_date t) as [due|]; [|reflexivity].
  now intros ->.
Qed.

Lemma remind_hit mail_send current w t due :
  due_date t = Some due -> due_soon current due = true ->
  remind cfg strftime mail_send current w t
  = mkWorker
      (update_task (task_id t) (set_reminder_set false) (store w))
      (match fst (try_send cfg strftime mail_send (store w) t due) with
       | Some m => sent w ++ [(task_id t, m)]
       | None => sent w
       end)
      (if snd (try_send cfg strftime mail_send (store w) t due)
       then printed w ++ [task_id t] else printed w).
Proof.
  unfold remind. intros -> ->.
  now destruct (try_send cfg strftime mail_send (store w) t due).
Qed.

(** Each iteration either leaves the worker alone or clears the flag of
    its own task and appends at most one send, tagged with that task. *)
Lemma remind_cases mail_send current w t :
  remind cfg strftime mail_send current w t = w
  \/ exists due,
       due_date t = Some due /\ due_soon current due = true
       /\ store (remind cfg strftime mail_send current w t)
          = update_task (task_id t) (set_reminder_set false) (store w)
       /\ sent (remind cfg strftime mail_send current w t)
          = sent w ++ match fst (try_send cfg strftime mail_send (store w) t due) with
                      | Some m => [(task_id t, m)]
                      | None => []
                      end.
Proof.
  destruct (due_date t) as [due|] eqn:Ed.
  - destruct (due_soon current due) eqn:Es.
    + right. exists due. rewrite (remind_hit _ _ _ _ due Ed Es). simpl.
      split; [reflexivity|]. split; [exact Es|]. split; [reflexivity|].
      destruct (fst (try_send cfg strftime mail_send (store w) t due));
        [reflexivity | now rewrite app_nil_r].
    + left. apply remind_skip. now rewrite Ed.
  - left. apply remind_skip. now rewrite Ed.
Qed.
End ReminderFacts.

Lemma sent_for_app id (w : Worker) extra :
  filter (fun p : Z * Message => fst p =? id) (sent w ++ extra)
  = sent_for id w ++ filter (fun p : Z * Message => fst p =? id) extra.
Proof. unfold sent_for. apply filter_app. Qed.

Lemma disarmed_update (id k : Z) (d : Db) :
  disarmed id d -> disarmed id (update_task k (set_reminder_set false) d).
Proof.
  unfold disarmed, update_task. simpl. intros H r Hin Hid.
  apply in_map_iff in Hin. destruct Hin as (r0 & Hr & Hin0).
  destruct (task_id r0 =? k); subst r; [reflexivity|].
  now apply H.
Qed.

Lemma disarmed_update_same (id : Z) (d : Db) :
  disarmed id (update_task id (set_reminder_set false) d).
Proof.
  unfold disarmed, update_task. simpl. intros r Hin Hid.
  apply in_map_iff in Hin. destruct Hin as (r0 & Hr & Hin0).
  destruct (task_id r0 =? id) eqn:E; subst r; [reflexivity|].
  apply Z.eqb_neq in E. contradiction.
Qed.

Lemma only_disarms_refl (d : Db) : only_disarms d d.
Proof.
  repeat split. induction (tasks d); constructor; auto.
Qed.

Lemma only_disarms_update (k : Z) (d d' : Db) :
  only_disarms d d' -> only_disarms d (update_task k (set_reminder_set false) d').
Proof.
  intros (Hu & Hc & Ht). repeat split; simpl; auto.
  revert Ht. generalize (tasks d) (tasks d').
  induction 1 as [|r r' l l' Hr _ IH]; simpl; constructor; auto.
  destruct (task_id r' =? k); [|exact Hr].
  right. destruct Hr as [-> | ->]; reflexivity.
Qed.

Lemma get_user_update_task uid k f d :
  get_user uid (update_task k f d) = get_user uid d.
Proof. reflexivity. Qed.

(** A selection of rows with distinct ids has distinct ids. *)
Lemma selected_ids_distinct (keep : Task -> bool) (rows : list Task) :
  NoDup (map task_id rows) -> NoDup (map task_id (filter keep rows)).
Proof.
  induction rows as [|x rows IH]; simpl; intros H; [constructor|].
  inversion H as [|? ? Hnin Hnd]; subst.
  destruct (keep x); simpl; [|auto].
  constructor; [|auto].
  intros Hin. apply Hnin. apply in_map_iff in Hin.
  destruct Hin as (y & Hy & Hin). apply filter_In in Hin.
  apply in_map_iff. exists y. tauto.
Qed.

Lemma get_task_unique (d : Db) (t : Task) :
  NoDup (map task_id (tasks d)) -> In t (tasks d) ->
  get_task (task_id t) d = Some t.
Proof.
  unfold get_task. induction (tasks d) as [|x l IH]; simpl; intros Hnd Hin; [contradiction|].
  inversion Hnd as [|? ? Hnin Hnd']; subst.
  destruct Hin as [-> | Hin].
  - now rewrite Z.eqb_refl.
  - destruct (task_id x =? task_id t) eqn:E; [|auto].
    apply Z.eqb_eq in E. exfalso. apply Hnin. rewrite E. now apply in_map.
Qed.

Lemma get_task_only_disarms (id : Z) (d d' : Db) (t : Task) :
  only_disarms d d' -> get_task id d = Some t ->
  exists t', get_task id d' = Some t' /\ (t' = t \/ t' = set_reminder_set false t).
Proof.
  intros (_ & _ & H). unfold get_task. revert H.
  generalize (tasks d) (tasks d').
  induction 1 as [|r r' l l' Hr _ IH]; simpl; [discriminate|].
  assert (Hid : task_id r' = task_id r) by (destruct Hr as [-> | ->]; reflexivity).
  rewrite Hid. destruct (task_id r =? id); [|exact IH].
  intros [= <-]. exists r'. split; [reflexivity | exact Hr].
Qed.

Section Cycle.
Variable cfg : Config.
Variable strftime : datetime -> str.
Variable mail_send : Message -> bool.
Variable current : datetime.

Lemma remind_users w t : users (store (remind cfg strftime mail_send current w t)) = users (store w).
Proof.
  destruct (remind_cases cfg strftime mail_send current w t)
    as [E | (due & _ & _ & Es & _)].
  - now rewrite E.
  - now rewrite Es.
Qed.

Lemma remind_only_disarms d w t :
  only_disarms d (store w) -> only_disarms d (store (remind cfg strftime mail_send current w t)).
Proof.
  intros H.
  destruct (remind_cases cfg strftime mail_send current w t)
    as [E | (due & _ & _ & Es & _)].
  - now rewrite E.
  - rewrite Es. now apply only_disarms_update.
Qed.

Lemma remind_disarmed id w t :
  disarmed id (store w) -> disarmed id (store (remind cfg strftime mail_send current w t)).
Proof.
  intros H.
  destruct (remind_cases cfg strftime mail_send current w t)
    as [E | (due & _ & _ & Es & _)].
  - now rewrite E.
  - rewrite Es. now apply disarmed_update.
Qed.

Lemma remind_sent_other id w t :
  task_id t <> id -> sent_for id (remind cfg strftime mail_send current w t) = sent_for id w.
Proof.
  intros Hne.
  destruct (remind_cases cfg strftime mail_send current w t)
    as [E | (due & _ & _ & _ & Es)].
  - now rewrite E.
  - unfold sent_for at 1. rewrite Es, sent_for_app.
    destruct (fst (try_send _ _ _ _ _ _)); simpl; [|apply app_nil_r].
    apply Z.eqb_neq in Hne. rewrite Hne. apply app_nil_r.
Qed.

Lemma fold_users l w : users (store (fold_left (remind cfg strftime mail_send current) l w)) = users (store w).
Proof.
  revert w. induction l as [|x l IH]; intros w; simpl; [reflexivity|].
  now rewrite IH, remind_users.
Qed.

Lemma fold_only_disarms d l w :
  only_disarms d (store w) -> only_disarms d (store (fold_left (remind cfg strftime mail_send current) l w)).
Proof.
  revert w. induction l as [|x l IH]; intros w H; simpl; [exact H|].
  apply IH. now apply remind_only_disarms.
Qed.

Lemma fold_disarmed id l w :
  disarmed id (store w) -> disarmed id (store (fold_left (remind cfg strftime mail_send current) l w)).
Proof.
  revert w. induction l as [|x l IH]; intros w H; simpl; [exact H|].
  apply IH. now apply remind_disarmed.
Qed.

Lemma fold_sent_other id l w :
  ~ In id (map task_id l) -> sent_for id (fold_left (remind cfg strftime mail_send current) l w) = sent_for id w.
Proof.
  revert w. induction l as [|x l IH]; intros w H; simpl; [reflexivity|].
  simpl in H. rewrite IH by tauto.
  apply remind_sent_other. tauto.
Qed.

(** The iteration of an armed task inside the window, among tasks with
    distinct ids: its send, if any, is the only one added under its id,
    and its flag ends cleared. *)
Lemma fold_remind_one l w t due :
  NoDup (map task_id l) -> In t l ->
  due_date t = Some due -> due_soon current due = true ->
  sent_for (task_id t) (fold_left (remind cfg strftime mail_send current) l w)
  = sent_for (task_id t) w
    ++ match fst (try_send cfg strftime mail_send (store w) t due) with
       | Some m => [(task_id t, m)]
       | None => []
       end
  /\ disarmed (task_id t) (store (fold_left (remind cfg strftime mail_send current) l w)).
Proof.
  intros Hnd Hin Hd Hs. revert w Hnd Hin.
  induction l as [|x l IH]; intros w Hnd Hin; [contradiction|].
  inversion Hnd as [|? ? Hnin Hnd']; subst. simpl.
  destruct Hin as [-> | Hin].
  - split.
    + rewrite fold_sent_other by exact Hnin.
      rewrite (remind_hit _ _ _ _ _ _ due Hd Hs).
      unfold sent_for at 1. simpl.
      destruct (fst (try_send _ _ _ _ _ _)); [|now rewrite app_nil_r].
      rewrite sent_for_app. simpl. now rewrite Z.eqb_refl.
    + apply fold_disarmed.
      rewrite (remind_hit _ _ _ _ _ _ due Hd Hs). simpl.
      apply disarmed_update_same.
  - assert (Hne : task_id x <> task_id t).
    { intros E. apply Hnin. rewrite E. now apply in_map. }
    destruct (IH (remind cfg strftime mail_send current w x) Hnd' Hin) as [Hsent Hdis].
    split; [|exact Hdis].
    rewrite Hsent, remind_sent_other by exact Hne.
    unfold try_send, get_user. now rewrite remind_users.
Qed.
End Cycle.

Lemma armed_excludes_disarmed (id : Z) (d : Db) :
  disarmed id d ->
  ~ In id (map task_id (filter (fun t => reminder_set t && negb (complete t)) (tasks d))).
Proof.
  intros H Hin. apply in_map_iff in Hin. destruct Hin as (r & Hid & Hr).
  apply filter_In in Hr. destruct Hr as [Hr Ha].
  apply andb_true_iff in Ha. destruct Ha as [Ha _].
  rewrite (H r Hr Hid) in Ha. discriminate.
Qed.

(** Once no row of a task is armed, no later pass of the loop sends for it,
    whatever the clock, the transport and the mail settings. *)
Lemma disarmed_task_is_never_sent cfg strftime id passes w :
  disarmed id (store w) ->
  sent_for id (reminder_worker cfg strftime passes w) = sent_for id w.
Proof.
  revert w. induction passes as [|[current mail_send] passes IH]; intros w H; simpl;
    [reflexivity|].
  rewrite IH.
  - unfold reminder_cycle. apply fold_sent_other. now apply armed_excludes_disarmed.
  - unfold reminder_cycle. now apply fold_disarmed.
Qed.

Lemma due_soon_iff current due :
  due_soon current due = true <-> 0 < due - current < 300 * 1000000.
Proof.
  unfold due_soon. rewrite andb_true_iff, !Z.ltb_lt. tauto.
Qed.

(** Without both credentials the [try] block neither sends nor raises. *)
Lemma try_send_without_credentials cfg strftime mail_send d t due :
  credentials_set cfg = false ->
  try_send cfg strftime mail_send d t due = (None, false).
Proof. unfold try_send. now intros ->. Qed.

Lemma cycle_without_credentials_is_silent cfg strftime mail_send current w :
  credentials_set cfg = false ->
  sent (reminder_cycle cfg strftime mail_send current w) = sent w
  /\ printed (reminder_cycle cfg strftime mail_send current w) = printed w.
Proof.
  intros Hc. unfold reminder_cycle.
  generalize (filter (fun t => reminder_set t && negb (complete t)) (tasks (store w))).
  intros l. revert w. induction l as [|x l IH]; intros w; simpl; [auto|].
  destruct (IH (remind cfg strftime mail_send current w x)) as [Hs Hp].
  rewrite Hs, Hp. unfold remind.
  destruct (due_date x) as [due|]; [|auto].
  destruct (due_soon current due); [|auto].
  now rewrite (try_send_without_credentials _ _ _ _ _ _ Hc).
Qed.

(** C5, as the code has it: for an armed, incomplete task whose due date is
    strictly between 0 and 300 seconds after the snapshot time, one cycle
    hands at most one message to the mail transport for that task (exactly
    one when both mail credentials are set and the owner's row exists, none
    when a credential is missing), clears the reminder flag of the task
    whether or not the transport delivered, changes no other field of any
    row, and no later cycle sends for that task. *)
Theorem reminder_cycle_single_attempt
    (cfg : Config) (strftime : datetime -> str) (mail_send : Message -> bool)
    (current : datetime) (w : Worker) (t : Task) (due : datetime) :
  NoDup (map task_id (tasks (store w))) ->
  In t (tasks (store w)) ->
  reminder_set t = true ->
  complete t = false ->
  due_date t = Some due ->
  0 < due - current < 300 * 1000000 ->
  let w1 := reminder_cycle cfg strftime mail_send current w in
  (length (sent_for (task_id t) w1) <= length (sent_for (task_id t) w) + 1)%nat
  /\ (credentials_set cfg = true ->
      forall owner, get_user (task_user_id t) (store w) = Some owner ->
        sent_for (task_id t) w1
        = sent_for (task_id t) w
          ++ [(task_id t,
               mkMessage (py "Task Reminder") (or_str (MAIL_USERNAME cfg) [])
                         [email owner] (reminder_body strftime t due))])
  /\ (credentials_set cfg = false -> sent w1 = sent w)
  /\ get_task (task_id t) (store w1) = Some (set_reminder_set false t)
  /\ only_disarms (store w) (store w1)
  /\ forall cfg' strftime' passes,
       sent_for (task_id t) (reminder_worker cfg' strftime' passes w1)
       = sent_for (task_id t) w1.
Proof.
  intros Hnd Hin Harmed Hopen Hdue Hwin w1.
  apply due_soon_iff in Hwin.
  assert (Hsnap : In t (filter (fun t => reminder_set t && negb (complete t))
                               (tasks (store w)))).
  { apply filter_In. split; [exact Hin|]. now rewrite Harmed, Hopen. }
  destruct (fold_remind_one cfg strftime mail_send current _ w t due
              (selected_ids_distinct _ _ Hnd) Hsnap Hdue Hwin) as [Hsent Hdis].
  fold (reminder_cycle cfg strftime mail_send current w) in Hsent, Hdis.
  fold w1 in Hsent, Hdis.
  assert (Hframe : only_disarms (store w) (store w1)).
  { unfold w1, reminder_cycle. apply fold_only_disarms. apply only_disarms_refl. }
  split; [|split; [|split; [|split; [|split]]]].
  - rewrite Hsent, length_app.
    destruct (fst (try_send _ _ _ _ _ _)); simpl; lia.
  - intros Hc owner Ho. rewrite Hsent. unfold try_send. now rewrite Hc, Ho.
  - intros Hc. now apply cycle_without_credentials_is_silent.
  - destruct (get_task_only_disarms (task_id t) _ _ t Hframe
                (get_task_unique _ _ Hnd Hin)) as (t' & Hget & [-> | ->]).
    + exfalso. apply get_task_found in Hget. destruct Hget as [_ Hin'].
      rewrite (Hdis t Hin' eq_refl) in Harmed. discriminate.
    + exact Hget.
  - exact Hframe.
  - intros cfg' strftime' passes. now apply disarmed_task_is_never_sent.
Qed.

Lemma reminder_cycle_single_attempt_witness :
  NoDup (map task_id (tasks (store fresh_worker)))
  /\ In bobs_task (tasks (store fresh_worker))
  /\ 0 < (t_now + 200 * second) - t_now < 300 * 1000000
  /\ sent_for 1 (reminder_cycle mail_configured clock_text delivers t_now fresh_worker)
     = [(1, mkMessage (py "Task Reminder") (py "todo@x.com") [py "bob@x.com"]
                      (reminder_body clock_text bobs_task (t_now + 200 * second)))]
  /\ get_task 1 (store (reminder_cycle mail_configured clock_text delivers t_now
                                       fresh_worker))
     = Some (set_reminder_set false bobs_task).
Proof.
  assert (Hnd : NoDup (map task_id (tasks (store fresh_worker)))).
  { simpl. constructor; [simpl; tauto | constructor]. }
  assert (Hin : In bobs_task (tasks (store fresh_worker))) by (now left).
  assert (Hwin : 0 < (t_now + 200 * second) - t_now < 300 * 1000000)
    by (unfold t_now, second; lia).
  split; [exact Hnd|]. split; [exact Hin|]. split; [exact Hwin|].
  destruct (reminder_cycle_single_attempt mail_configured clock_text delivers t_now
              fresh_worker bobs_task (t_now + 200 * second)
              Hnd Hin eq_refl eq_refl eq_refl Hwin)
    as (_ & Hsent & _ & Hget & _).
  split; [|exact Hget].
  exact (Hsent eq_refl bob eq_refl).
Defined.

(** C5, as stated, fails: with no mail credentials configured, a cycle over
    an armed, incomplete task due in 200 seconds sends nothing, while the
    flag is cleared all the same. *)
Lemma reminder_cycle_sends_nothing_without_credentials :
  reminder_set bobs_task = true
  /\ complete bobs_task = false
  /\ due_date bobs_task = Some (t_now + 200 * second)
  /\ sent (reminder_cycle mail_absent clock_text delivers t_now fresh_worker) = []
  /\ length (sent_for 1 (reminder_cycle mail_absent clock_text delivers t_now
                                        fresh_worker)) <> 1%nat
  /\ option_map reminder_set
       (get_task 1 (store (reminder_cycle mail_absent clock_text delivers t_now
                                          fresh_worker)))
     = Some false.
Proof.
  repeat split. discriminate.
Qed.

Lemma fold_disarms_member cfg strftime mail_send current l w t due :
  In t l -> due_date t = Some due -> due_soon current due = true ->
  disarmed (task_id t)
           (store (fold_left (remind cfg strftime mail_send current) l w)).
Proof.
  intros Hin Hd Hs. revert w.
  induction l as [|x l IH]; intros w; [contradiction|]. simpl.
  destruct Hin as [-> | Hin]; [|now apply IH].
  apply fold_disarmed. rewrite (remind_hit _ _ _ _ _ _ due Hd Hs). simpl.
  apply disarmed_update_same.
Qed.

(** C9: when a mail credential is missing, a cycle makes no call of the mail
    transport and prints nothing, and still clears the reminder flag of
    every armed, incomplete task whose due date is strictly between 0 and
    300 seconds away; nothing else in the database changes, and no later
    pass of the loop, whatever its settings, sends for that task. *)
Theorem reminder_lost_without_credentials
    (cfg : Config) (strftime : datetime -> str) (mail_send : Message -> bool)
    (current : datetime) (w : Worker) (t : Task) (due : datetime) :
  credentials_set cfg = false ->
  In t (tasks (store w)) ->
  reminder_set t = true ->
  complete t = false ->
  due_date t = Some due ->
  0 < due - current < 300 * 1000000 ->
  let w1 := reminder_cycle cfg strftime mail_send current w in
  sent w1 = sent w
  /\ printed w1 = printed w
  /\ (forall r, In r (tasks (store w1)) -> task_id r = task_id t ->
        reminder_set r = false)
  /\ only_disarms (store w) (store w1)
  /\ forall cfg' strftime' passes,
       sent_for (task_id t) (reminder_worker cfg' strftime' passes w1)
       = sent_for (task_id t) w.
Proof.
  intros Hc Hin Harmed Hopen Hdue Hwin w1.
  apply due_soon_iff in Hwin.
  destruct (cycle_without_credentials_is_silent cfg strftime mail_send current w Hc)
    as [Hs Hp].
  assert (Hdis : disarmed (task_id t) (store w1)).
  { unfold w1, reminder_cycle. apply (fold_disarms_member _ _ _ _ _ _ _ due); auto.
    apply filter_In. split; [exact Hin|]. now rewrite Harmed, Hopen. }
  split; [exact Hs|]. split; [exact Hp|]. split; [exact Hdis|]. split.
  - unfold w1, reminder_cycle. apply fold_only_disarms. apply only_disarms_refl.
  - intros cfg' strftime' passes.
    rewrite disarmed_task_is_never_sent by exact Hdis.
    unfold sent_for, w1. now rewrite Hs.
Qed.

Lemma reminder_lost_without_credentials_witness :
  credentials_set mail_absent = false
  /\ In bobs_task (tasks (store fresh_worker))
  /\ 0 < (t_now + 200 * second) - t_now < 300 * 1000000
  /\ sent (reminder_cycle mail_absent clock_text delivers t_now fresh_worker) = []
  /\ sent_for 1 (reminder_worker mail_configured clock_text
                   [(t_now + 60 * second, delivers)]
                   (reminder_cycle mail_absent clock_text delivers t_now fresh_worker))
     = [].
Proof.
  assert (Hin : In bobs_task (tasks (store fresh_worker))) by (now left).
  assert (Hwin : 0 < (t_now + 200 * second) - t_now < 300 * 1000000)
    by (unfold t_now, second; lia).
  split; [reflexivity|]. split; [exact Hin|]. split; [exact Hwin|].
  destruct (reminder_lost_without_credentials mail_absent clock_text delivers t_now
              fresh_worker bobs_task (t_now + 200 * second)
              eq_refl Hin eq_refl eq_refl eq_refl Hwin)
    as (Hs & _ & _ & _ & Hnever).
  split; [exact Hs|].
  exact (Hnever mail_configured clock_text [(t_now + 60 * second, delivers)]).
Defined.

(** ** The model at work *)

Example strip_keeps_inner_spaces : strip (py "  a b ") = py "a b".
Proof. reflexivity. Qed.

Example strip_ideographic_space : strip [12288%N; 9%N; 160%N] = [].
Proof. reflexivity. Qed.

(** A titled task is stored in the owner's first column with status todo. *)
Example add_titled_task_is_stored :
  serve never_parses never_parses ascii_lower EAdd
        (mkRequest [("title"%string, py " Buy milk "); ("reminder"%string, py "on")]
                   [] (Some (py "/workflow")) t_now t_now)
        ann_world
  = (Redirect (py "/workflow"),
     mkWorld (mkDb [ann; bob] board_columns
                   [bobs_task;
                    mkTask 2 (py "Buy milk") None None (py "Medium") false true t_now
                           (py "todo") 1 (Some 1)])
             (cookie ann_world) [(py "Task added.", py "success")]).
Proof. reflexivity. Qed.

(** A user without columns is provisioned with the three defaults. *)
Example ensure_default_columns_provisions :
  columns (persisted (ensure_default_columns 3 (mkSt board board (mkSession (Some 3) None) [])))
  = board_columns
    ++ [mkColumn 6 (py "To Do") 0 3; mkColumn 7 (py "In Progress") 1 3;
        mkColumn 8 (py "Done") 2 3].
Proof. reflexivity. Qed.

(** The owner's delete removes the row. *)
Example delete_own_task :
  serve never_parses never_parses ascii_lower (EDelete 1) plain_request bob_world
  = (Redirect url_index,
     mkWorld (mkDb [ann; bob] board_columns []) (cookie bob_world)
             [(py "Task deleted.", py "info")]).
Proof. reflexivity. Qed.

(** The owner moving a task: column reference and status follow the column. *)
Example move_own_task :
  snd (serve never_parses never_parses ascii_lower (EUpdateColumn 1 5) plain_request bob_world)
  = mkWorld (mkDb [ann; bob] board_columns
                  [mkTask 1 (py "Pay rent") (Some (py "before Friday"))
                          (Some (t_now + 200 * second)) (py "High") false true
                          (t_now - 3600 * second) (py "to do") 2 (Some 5)])
            (cookie bob_world) [].
Proof. reflexivity. Qed.

(** A transport that raises: the attempt is made and logged, the flag is
    cleared all the same. *)
Example reminder_cycle_failed_delivery :
  let w1 := reminder_cycle mail_configured clock_text (fun _ => false) t_now fresh_worker in
  length (sent w1) = 1%nat
  /\ printed w1 = [1]
  /\ option_map reminder_set (get_task 1 (store w1)) = Some false.
Proof. repeat split. Qed.

(** A task already past due, or more than five minutes ahead, is left armed. *)
Example reminder_cycle_outside_window :
  reminder_cycle mail_configured clock_text delivers (t_now + 200 * second) fresh_worker
  = fresh_worker
  /\ reminder_cycle mail_configured clock_text delivers (t_now - 100 * second) fresh_worker
     = fresh_worker.
Proof. split; reflexivity. Qed.

(** * Further properties of the views *)

(** ** Ordered queries *)

Section SortFacts.
Context {A : Type} (ltb : A -> A -> bool).

Lemma insert_sorted_perm (x : A) (l : list A) :
  Permutation (insert_sorted ltb x l) (x :: l).
Proof.
  induction l as [|y l IH]; simpl; [apply Permutation_refl|].
  destruct (ltb y x); [|apply Permutation_refl].
  apply perm_trans with (y :: x :: l); [now apply perm_skip | apply perm_swap].
Qed.

Lemma sorted_perm (l : list A) : Permutation (sorted ltb l) l.
Proof.
  induction l as [|x l IH]; simpl; [apply perm_nil|].
  apply perm_trans with (x :: sorted ltb l);
    [apply insert_sorted_perm | now apply perm_skip].
Qed.

Lemma sorted_length (l : list A) : length (sorted ltb l) = length l.
Proof. apply Permutation_length, sorted_perm. Qed.

Lemma sorted_In (x : A) (l : list A) : In x (sorted ltb l) <-> In x l.
Proof.
  split; apply Permutation_in; [|apply Permutation_sym]; apply sorted_perm.
Qed.

(** With an order that is asymmetric and whose complement is transitive, no
    element of the result is strictly below an earlier one. *)
Hypothesis ltb_asym : forall a b, ltb a b = true -> ltb b a = false.
Hypothesis geb_trans :
  forall a b c, ltb b a = false -> ltb c b = false -> ltb c a = false.

Lemma insert_sorted_ordered (x : A) (l : list A) :
  StronglySorted (fun a b => ltb b a = false) l ->
  StronglySorted (fun a b => ltb b a = false) (insert_sorted ltb x l).
Proof.
  induction 1 as [|y l Hl IH Hy]; simpl.
  - constructor; constructor.
  - destruct (ltb y x) eqn:E.
    + constructor; [exact IH|].
      rewrite Forall_forall in *. intros z Hz.
      apply (Permutation_in _ (insert_sorted_perm x l)) in Hz.
      destruct Hz as [<- | Hz]; [now apply ltb_asym | now apply Hy].
    + constructor; [now constructor|].
      constructor; [exact E|].
      rewrite Forall_forall in *. intros z Hz.
      apply geb_trans with y; [exact E | now apply Hy].
Qed.

Lemma sorted_ordered (l : list A) :
  StronglySorted (fun a b => ltb b a = false) (sorted ltb l).
Proof.
  induction l as [|x l IH]; simpl; [constructor|].
  now apply insert_sorted_ordered.
Qed.
End SortFacts.

(** Sorting by an integer key. *)
Lemma sorted_by_key {A} (key : A -> Z) (l : list A) :
  StronglySorted (fun a b => key a <= key b)
                 (sorted (fun a b => key a <? key b) l).
Proof.
  assert (H := sorted_ordered (fun a b => key a <? key b)
                 (fun a b => ltac:(rewrite Z.ltb_lt, Z.ltb_ge; lia))
                 (fun a b c => ltac:(rewrite !Z.ltb_ge; lia)) l).
  revert H. generalize (sorted (fun a b => key a <? key b) l).
  induction 1 as [|x r Hr IH Hx]; constructor; [exact IH|].
  rewrite Forall_forall in *. intros z Hz. apply Z.ltb_ge. now apply Hx.
Qed.

Lemma columns_of_facts (uid : Z) (d : Db) :
  Permutation (columns_of uid d) (owned_columns uid d)
  /\ (forall c, In c (columns_of uid d)
                <-> In c (columns d) /\ column_user_id c = uid)
  /\ StronglySorted (fun a b => position a <= position b) (columns_of uid d).
Proof.
  unfold columns_of. split; [apply sorted_perm|]. split.
  - intros c. rewrite sorted_In. unfold owned_columns. rewrite filter_In.
    now rewrite Z.eqb_eq.
  - apply sorted_by_key.
Qed.

(** X1: the query for a user's columns returns exactly the columns the user
    owns, each as often as it is stored, in non-decreasing position. *)
Theorem columns_of_owned_in_position_order (uid : Z) (d : Db) :
  Permutation (columns_of uid d) (owned_columns uid d)
  /\ (forall c, In c (columns_of uid d)
                <-> In c (columns d) /\ column_user_id c = uid)
  /\ StronglySorted (fun a b => position a <= position b) (columns_of uid d).
Proof. exact (columns_of_facts uid d). Qed.

Lemma first_column_facts (uid : Z) (d : Db) :
  match first_column uid d with
  | Some c =>
      In c (columns d) /\ column_user_id c = uid
      /\ forall c', In c' (columns d) -> column_user_id c' = uid ->
                    position c <= position c'
  | None => owned_columns uid d = []
  end.
Proof.
  destruct (columns_of_facts uid d) as (_ & Hin & Hs).
  unfold first_column. destruct (columns_of uid d) as [|c r] eqn:E; simpl.
  - unfold columns_of in E. now apply sorted_nil_iff in E.
  - destruct (proj1 (Hin c) (or_introl eq_refl)) as [Hc Hu].
    split; [exact Hc|]. split; [exact Hu|].
    intros c' Hc' Hu'. destruct (proj2 (Hin c') (conj Hc' Hu')) as [<- | Hr]; [lia|].
    inversion Hs as [|? ? _ Hall]; subst.
    rewrite Forall_forall in Hall. now apply Hall.
Qed.

(** X2: the column a task falls back to is one the user owns, and none of
    the user's columns has a smaller position; there is no such column
    exactly when the user owns none. *)
Theorem first_column_is_leftmost_owned (uid : Z) (d : Db) :
  match first_column uid d with
  | Some c =>
      In c (columns d) /\ column_user_id c = uid
      /\ forall c', In c' (columns d) -> column_user_id c' = uid ->
                    position c <= position c'
  | None => owned_columns uid d = []
  end.
Proof. exact (first_column_facts uid d). Qed.

(** ** Provisioning at the start of a request *)

Lemma ensure_default_columns_fresh (uid : Z) (d : Db) (s : Session)
    (fl : list (str * str)) :
  ensure_default_columns uid (mkSt d d s fl)
  = mkSt (provision uid d) (provision uid d) s fl.
Proof.
  unfold provision, ensure_default_columns. cbn [txn].
  destruct (columns_of uid d); reflexivity.
Qed.

(** Provisioning only appends columns of that user, and leaves the user
    with at least one column. *)
Lemma provision_effect (uid : Z) (d : Db) :
  exists extra,
    provision uid d = mkDb (users d) (columns d ++ extra) (tasks d)
    /\ Forall (fun c => column_user_id c = uid) extra
    /\ (owned_columns uid d <> [] -> extra = [])
    /\ owned_columns uid (provision uid d) <> [].
Proof.
  unfold provision, ensure_default_columns, columns_of. cbn [txn].
  destruct (owned_columns uid d) as [|c cs] eqn:E.
  - cbn -[py next_id].
    eexists [_; _; _].
    split; [unfold insert_column; cbn [users columns tasks];
            rewrite <- !app_assoc; reflexivity|].
    split; [repeat constructor|]. split; [congruence|].
    unfold owned_columns. cbn [columns]. rewrite !filter_app. simpl.
    rewrite Z.eqb_refl. intros H. apply app_eq_nil in H. destruct H as [H _].
    apply app_eq_nil in H. destruct H as [_ H]. discriminate.
  - destruct (sorted _ (c :: cs)) eqn:Es.
    + apply sorted_nil_iff in Es. discriminate.
    + exists []. cbn [persisted]. rewrite app_nil_r. split; [now destruct d|].
      split; [constructor|]. split; [reflexivity|]. now rewrite E.
Qed.

Lemma provision_first_column (uid : Z) (d : Db) :
  exists c, first_column uid (provision uid d) = Some c
            /\ In c (columns (provision uid d)) /\ column_user_id c = uid.
Proof.
  destruct (provision_effect uid d) as (extra & _ & _ & _ & Hne).
  pose proof (first_column_facts uid (provision uid d)) as H.
  destruct (first_column uid (provision uid d)) as [c|]; [|contradiction].
  exists c. tauto.
Qed.

(** ** Adding tasks and columns *)

Lemma or_str_nil (s : str) : or_str (Some s) [] = s.
Proof. simpl. now destruct s. Qed.

Lemma truthy_not_nil (s : str) : s <> [] -> truthy s = true.
Proof. destruct s; [contradiction | reflexivity]. Qed.

Lemma column_of_user_found (cid uid : Z) (d : Db) (c : Column) :
  column_of_user cid uid d = Some c ->
  In c (columns d) /\ column_id c = cid /\ column_user_id c = uid.
Proof.
  unfold column_of_user. intros H. apply find_some in H. destruct H as [Hin H].
  apply andb_true_iff in H. rewrite !Z.eqb_eq in H. tauto.
Qed.

(** X3: an add request of a logged-in user with a title that is not blank
    always succeeds: it answers with the redirect back and "Task added.",
    and appends exactly one task to the provisioned database, carrying the
    trimmed title, the submitted description, the priority (Medium when
    none is given), the reminder checkbox, status todo, not complete, owned
    by the session user and filed in a column that this user owns. *)
Theorem add_stores_one_task
    (strptime : str -> option datetime) (int_of_str : str -> option Z)
    (lower : str -> str) (req : Request) (w : World) (uid : Z) (raw : str) :
  session_user_id (cookie w) = Some uid ->
  form_get "title" (form req) = Some raw ->
  strip raw <> [] ->
  exists due col,
    serve strptime int_of_str lower EAdd req w
    = (Redirect (back req),
       mkWorld
         (mkDb (users (db w)) (columns (provision uid (db w)))
               (tasks (db w)
                ++ [mkTask (next_id (map task_id (tasks (db w)))) (strip raw)
                           (form_get "desc" (form req)) due
                           (or_str (form_get "priority" (form req)) (py "Medium"))
                           false (form_has "reminder" (form req)) (utcnow req)
                           (py "todo") uid (Some (column_id col))]))
         (cookie w) (flashed w ++ [(py "Task added.", py "success")]))
    /\ In col (columns (provision uid (db w)))
    /\ column_user_id col = uid
    /\ (due = None
        \/ exists s, form_get "due" (form req) = Some s /\ strptime s = due).
Proof.
  intros Hu Ht Hne.
  destruct (provision_effect uid (db w)) as (extra & Hp & _).
  destruct (provision_first_column uid (db w)) as (c1 & Hfirst & Hin1 & Hown1).
  unfold serve, view_function, add, login_required, with_user_id.
  cbn [session session_user_id txn db cookie flashed].
  rewrite Hu, Ht, or_str_nil, (truthy_not_nil _ Hne). cbn [negb].
  rewrite ensure_default_columns_fresh. cbn [txn]. rewrite Hfirst.
  set (due := match form_get "due" (form req) with
              | Some s => if truthy s then strptime s else None
              | None => None
              end).
  assert (Hshape : forall col,
    insert_task (strip raw) (form_get "desc" (form req)) due
      (or_str (form_get "priority" (form req)) (py "Medium"))
      (form_has "reminder" (form req)) (utcnow req) (py "todo") uid
      (Some (column_id col)) (provision uid (db w))
    = mkDb (users (db w)) (columns (provision uid (db w)))
           (tasks (db w)
            ++ [mkTask (next_id (map task_id (tasks (db w)))) (strip raw)
                       (form_get "desc" (form req)) due
                       (or_str (form_get "priority" (form req)) (py "Medium"))
                       false (form_has "reminder" (form req)) (utcnow req)
                       (py "todo") uid (Some (column_id col))])).
  { intros col. unfold insert_task. now rewrite Hp. }
  assert (Hdue : due = None
                 \/ exists s, form_get "due" (form req) = Some s /\ strptime s = due).
  { unfold due. destruct (form_get "due" (form req)) as [s|]; [|now left].
    destruct (truthy s); [right; now exists s | now left]. }
  exists due.
  destruct (truthy_opt (form_get "column_id" (form req))).
  - destruct (int_of_str (or_str (form_get "column_id" (form req)) [])) as [n|].
    + destruct (column_of_user n uid (provision uid (db w))) as [c|] eqn:Ec.
      * destruct (column_of_user_found _ _ _ _ Ec) as (Hin & Hid & Hown).
        exists c. cbn. rewrite <- Hid, Hshape. auto.
      * exists c1. cbn. rewrite Hshape. auto.
    + exists c1. cbn. rewrite Hshape. auto.
  - exists c1. cbn. rewrite Hshape. auto.
Qed.

Lemma add_stores_one_task_witness :
  session_user_id (cookie ann_world) = Some 1
  /\ form_get "title" (form milk_request) = Some (py " Buy milk ")
  /\ strip (py " Buy milk ") <> []
  /\ exists due col,
       serve never_parses digits_to_Z ascii_lower EAdd milk_request ann_world
       = (Redirect (back milk_request),
          mkWorld
            (mkDb (users board) (columns (provision 1 board))
                  (tasks board
                   ++ [mkTask (next_id (map task_id (tasks board)))
                              (strip (py " Buy milk ")) None due (py "Medium") false
                              true t_now (py "todo") 1 (Some (column_id col))]))
            (cookie ann_world) [(py "Task added.", py "success")])
       /\ In col (columns (provision 1 board))
       /\ column_user_id col = 1
       /\ (due = None
           \/ exists s, form_get "due" (form milk_request) = Some s
                        /\ never_parses s = due).
Proof.
  split; [reflexivity|]. split; [reflexivity|]. split; [vm_compute; discriminate|].
  apply (add_stores_one_task never_parses digits_to_Z ascii_lower milk_request
           ann_world 1 (py " Buy milk "));
    [reflexivity | reflexivity | vm_compute; discriminate].
Defined.

Lemma max_id_bound (ids : list Z) (k : Z) :
  In k ids -> k <= fold_right Z.max 0 ids.
Proof.
  induction ids as [|x ids IH]; simpl; [contradiction|].
  intros [-> | H]; [lia | specialize (IH H); lia].
Qed.

Lemma next_id_fresh (ids : list Z) : ~ In (next_id ids) ids.
Proof.
  unfold next_id. intros H. apply max_id_bound in H. lia.
Qed.

Lemma find_task_appended (id : Z) (rows : list Task) (t : Task) :
  ~ In id (map task_id rows) -> task_id t = id ->
  find (fun r => task_id r =? id) (rows ++ [t]) = Some t.
Proof.
  intros Hn Ht. induction rows as [|x rows IH]; simpl.
  - now rewrite Ht, Z.eqb_refl.
  - simpl in Hn. destruct (task_id x =? id) eqn:E.
    + apply Z.eqb_eq in E. tauto.
    + apply IH. tauto.
Qed.

(** X4: a column id submitted with an add request is honoured only for a
    column of the session user: when no column with that id belongs to the
    user (it is another user's, or does not exist), the stored task is filed
    in the user's own leftmost column instead. *)
Theorem add_ignores_foreign_column
    (strptime : str -> option datetime) (int_of_str : str -> option Z)
    (lower : str -> str) (req : Request) (w : World) (uid : Z) (raw s : str) (n : Z) :
  session_user_id (cookie w) = Some uid ->
  form_get "title" (form req) = Some raw ->
  strip raw <> [] ->
  form_get "column_id" (form req) = Some s ->
  int_of_str s = Some n ->
  (forall c, In c (columns (provision uid (db w))) -> column_id c = n ->
             column_user_id c <> uid) ->
  exists new leftmost,
    get_task (next_id (map task_id (tasks (db w))))
             (db (snd (serve strptime int_of_str lower EAdd req w))) = Some new
    /\ first_column uid (provision uid (db w)) = Some leftmost
    /\ task_column_id new = Some (column_id leftmost)
    /\ column_user_id leftmost = uid
    /\ task_user_id new = uid.
Proof.
  intros Hu Ht Hne Hc Hn Hforeign.
  destruct (provision_effect uid (db w)) as (extra & Hp & _).
  destruct (provision_first_column uid (db w)) as (c1 & Hfirst & Hin1 & Hown1).
  assert (Hnone : column_of_user n uid (provision uid (db w)) = None).
  { destruct (column_of_user n uid (provision uid (db w))) as [c|] eqn:E; [|reflexivity].
    destruct (column_of_user_found _ _ _ _ E) as (Hin & Hid & Hown).
    exfalso. exact (Hforeign c Hin Hid Hown). }
  unfold serve, view_function, add, login_required, with_user_id.
  cbn [session session_user_id txn db cookie flashed].
  rewrite Hu, Ht, or_str_nil, (truthy_not_nil _ Hne). cbn [negb].
  rewrite ensure_default_columns_fresh. cbn [txn]. rewrite Hfirst, Hc.
  rewrite or_str_nil, Hn, Hnone.
  eexists; exists c1.
  split; [|split; [reflexivity|]].
  - destruct (truthy_opt (Some s)); cbn; unfold get_task; rewrite Hp;
      cbn [tasks]; apply find_task_appended;
      [apply next_id_fresh | reflexivity | apply next_id_fresh | reflexivity].
  - cbn. auto.
Qed.

Lemma add_ignores_foreign_column_witness :
  form_get "column_id" (form trespass_request) = Some (py "5")
  /\ digits_to_Z (py "5") = Some 5
  /\ option_map column_user_id (get_column 5 board) = Some 2
  /\ exists new leftmost,
       get_task 2 (db (snd (serve never_parses digits_to_Z ascii_lower EAdd
                                  trespass_request ann_world))) = Some new
       /\ first_column 1 (provision 1 board) = Some leftmost
       /\ task_column_id new = Some (column_id leftmost)
       /\ column_user_id leftmost = 1
       /\ task_user_id new = 1.
Proof.
  split; [reflexivity|]. split; [reflexivity|]. split; [reflexivity|].
  apply (add_ignores_foreign_column never_parses digits_to_Z ascii_lower
           trespass_request ann_world 1 (py "Peek") (py "5") 5);
    try reflexivity.
  - vm_compute. discriminate.
  - vm_compute. intros c H Hid.
    repeat (destruct H as [<- | H]; [simpl in *; lia|]). contradiction.
Defined.

(** X5: an add-column request of a logged-in user whose name field is
    missing, empty or whitespace only is answered with the redirect to the
    board and "Name required"; no column is stored. *)
Theorem add_column_blank_name_rejected
    (strptime : str -> option datetime) (int_of_str : str -> option Z)
    (lower : str -> str) (req : Request) (w : World) (uid : Z) :
  session_user_id (cookie w) = Some uid ->
  match form_get "name" (form req) with
  | Some v => forallb isspace v = true
  | None => True
  end ->
  serve strptime int_of_str lower EAddColumn req w
  = (Redirect url_workflow,
     mkWorld (db w) (cookie w) (flashed w ++ [(py "Name required", py "danger")])).
Proof.
  intros Hu Hblank.
  unfold serve, view_function, add_column, login_required.
  cbn [session session_user_id txn db cookie flashed].
  rewrite Hu, (blank_title_strips_to_nothing _ Hblank). reflexivity.
Qed.

Lemma add_column_blank_name_rejected_witness :
  session_user_id (cookie ann_world) = Some 1
  /\ form_get "name" (form plain_request) = None
  /\ serve never_parses digits_to_Z ascii_lower EAddColumn plain_request ann_world
     = (Redirect url_workflow,
        mkWorld board (cookie ann_world) [(py "Name required", py "danger")]).
Proof.
  split; [reflexivity|]. split; [reflexivity|].
  apply (add_column_blank_name_rejected never_parses digits_to_Z ascii_lower
           plain_request ann_world 1); [reflexivity | exact I].
Defined.

Section SortAppend.
Context {A : Type} (ltb : A -> A -> bool).

Lemma insert_sorted_before_last (y x : A) (r : list A) :
  ltb x y = false ->
  insert_sorted ltb y (r ++ [x]) = insert_sorted ltb y r ++ [x].
Proof.
  intros H. induction r as [|z r IH]; simpl.
  - now rewrite H.
  - destruct (ltb z y); [now rewrite IH | reflexivity].
Qed.

(** An element that is below none of the others, appended to the input,
    comes out last. *)
Lemma sorted_append_last (l : list A) (x : A) :
  (forall y, In y l -> ltb x y = false) ->
  sorted ltb (l ++ [x]) = sorted ltb l ++ [x].
Proof.
  induction l as [|a l IH]; intros H; simpl; [reflexivity|].
  rewrite IH by (intros y Hy; apply H; now right).
  apply insert_sorted_before_last. apply H. now left.
Qed.
End SortAppend.

(** X6: an add-column request with a name that is not blank stores one new
    column of the session user, named by the trimmed text, whose position is
    the number of columns the user owned; when none of those has a larger
    position, the board lists the new column after all of them. *)
Theorem add_column_appends_last
    (strptime : str -> option datetime) (int_of_str : str -> option Z)
    (lower : str -> str) (req : Request) (w : World) (uid : Z) (raw : str) :
  session_user_id (cookie w) = Some uid ->
  form_get "name" (form req) = Some raw ->
  strip raw <> [] ->
  (forall c, In c (columns (db w)) -> column_user_id c = uid ->
             position c <= Z.of_nat (length (owned_columns uid (db w)))) ->
  let new := mkColumn (next_id (map column_id (columns (db w)))) (strip raw)
                      (Z.of_nat (length (owned_columns uid (db w)))) uid in
  serve strptime int_of_str lower EAddColumn req w
  = (Redirect url_workflow,
     mkWorld (mkDb (users (db w)) (columns (db w) ++ [new]) (tasks (db w)))
             (cookie w) (flashed w ++ [(py "Column added.", py "success")]))
  /\ columns_of uid (mkDb (users (db w)) (columns (db w) ++ [new]) (tasks (db w)))
     = columns_of uid (db w) ++ [new].
Proof.
  intros Hu Hn Hne Hpos new. split.
  - unfold serve, view_function, add_column, login_required, with_user_id.
    cbn [session session_user_id txn db cookie flashed].
    rewrite Hu, Hn, or_str_nil, (truthy_not_nil _ Hne). reflexivity.
  - unfold columns_of, owned_columns at 1. cbn [columns].
    rewrite filter_app. cbn [filter column_user_id new]. rewrite Z.eqb_refl.
    apply sorted_append_last. intros y Hy.
    apply filter_In in Hy. destruct Hy as [Hy Hown]. apply Z.eqb_eq in Hown.
    apply Z.ltb_ge. cbn [position new]. now apply Hpos.
Qed.

Lemma add_column_appends_last_witness :
  session_user_id (cookie ann_world) = Some 1
  /\ form_get "name" (form review_request) = Some (py " Review ")
  /\ map column_name
         (columns_of 1 (db (snd (serve never_parses digits_to_Z ascii_lower EAddColumn
                                       review_request ann_world))))
     = [py "To Do"; py "In Progress"; py "Done"; py "My Stage"; py "Review"].
Proof.
  split; [reflexivity|]. split; [reflexivity|].
  destruct (add_column_appends_last never_parses digits_to_Z ascii_lower
              review_request ann_world 1 (py " Review ")) as [Hs Hc].
  - reflexivity.
  - reflexivity.
  - vm_compute. discriminate.
  - intros c H Hown. vm_compute in H.
    repeat (destruct H as [<- | H]; [vm_compute; try discriminate; simpl in Hown; try lia|]).
    contradiction.
  - rewrite Hs. cbn [snd db]. rewrite Hc. reflexivity.
Defined.

(** ** Operations on one task *)

Lemma update_task_rewrites (id : Z) (f : Task -> Task) (d : Db) (t : Task) :
  (forall r, task_id (f r) = task_id r) ->
  get_task id d = Some t ->
  rewrites_task id (f t) d (update_task id f d).
Proof.
  intros Hid Ht. unfold rewrites_task.
  split; [reflexivity|]. split; [reflexivity|].
  split; [apply length_map|]. split.
  - rewrite get_task_update_same by exact Hid. now rewrite Ht.
  - intros k Hk. now apply get_task_update_other.
Qed.

Lemma get_task_deleted (id : Z) (d : Db) : get_task id (delete_task id d) = None.
Proof.
  unfold get_task, delete_task. simpl.
  induction (tasks d) as [|t ts IH]; simpl; [reflexivity|].
  destruct (task_id t =? id) eqn:E; simpl; [exact IH | now rewrite E].
Qed.

Lemma get_task_delete_other (id k : Z) (d : Db) :
  k <> id -> get_task k (delete_task id d) = get_task k d.
Proof.
  intros Hk. unfold get_task, delete_task. simpl.
  induction (tasks d) as [|t ts IH]; simpl; [reflexivity|].
  destruct (task_id t =? id) eqn:E; simpl.
  - apply Z.eqb_eq in E.
    assert (Hf : (task_id t =? k) = false) by (apply Z.eqb_neq; congruence).
    now rewrite Hf.
  - destruct (task_id t =? k); [reflexivity | exact IH].
Qed.

Lemma column_of_user_none (cid uid : Z) (d : Db) :
  (forall c, In c (columns d) -> column_id c = cid -> column_user_id c <> uid) ->
  column_of_user cid uid d = None.
Proof.
  intros H. destruct (column_of_user cid uid d) as [c|] eqn:E; [|reflexivity].
  destruct (column_of_user_found _ _ _ _ E) as (Hin & Hid & Hown).
  exfalso. exact (H c Hin Hid Hown).
Qed.

Section TaskOperations.
Variable strptime : str -> option datetime.
Variable int_of_str : str -> option Z.
Variable lower : str -> str.

(** X7: the owner moving a task to one of their own columns gets the JSON
    success answer; the stored task has the new column reference and the
    lower-cased column name as status, every other field as before, and no
    other row changes. *)
Theorem update_column_moves_own_task
    (req : Request) (w : World) (uid tid cid : Z) (t : Task) (col : Column) :
  session_user_id (cookie w) = Some uid ->
  get_task tid (db w) = Some t ->
  task_user_id t = uid ->
  column_of_user cid uid (db w) = Some col ->
  let r := serve strptime int_of_str lower (EUpdateColumn tid cid) req w in
  fst r = Jsonify true None 200
  /\ cookie (snd r) = cookie w
  /\ flashed (snd r) = flashed w
  /\ rewrites_task tid
       (mkTask (task_id t) (title t) (description t) (due_date t) (priority t)
               (complete t) (reminder_set t) (created_at t)
               (lower (column_name col)) (task_user_id t) (Some cid))
       (db w) (db (snd r)).
Proof.
  intros Hu Ht Ho Hc.
  unfold serve, view_function, update_column, login_required, with_user_id.
  cbn [session session_user_id txn db cookie flashed].
  subst uid. rewrite Hu, Ht, (not_owner_false _ (task_user_id t)) by exact Hu.
  rewrite Hc.
  cbn [fst snd teardown persisted session flashes commit modify txn db cookie flashed].
  split; [reflexivity|]. split; [reflexivity|]. split; [reflexivity|].
  exact (update_task_rewrites tid
           (fun t0 => set_status (lower (column_name col))
                                 (set_column_id (Some cid) t0))
           (db w) t (fun r => eq_refl) Ht).
Qed.

(** X8: a task cannot be moved into a column that is not the session
    user's: when no column with the requested id belongs to the user, the
    answer is the JSON error "Column not found" with status 404, or, for an
    id beyond SQLite's integer range, the driver's OverflowError; either way
    nothing changes. *)
Theorem update_column_refuses_foreign_column
    (req : Request) (w : World) (uid tid cid : Z) (t : Task) :
  session_user_id (cookie w) = Some uid ->
  get_task tid (db w) = Some t ->
  task_user_id t = uid ->
  (forall c, In c (columns (db w)) -> column_id c = cid -> column_user_id c <> uid) ->
  serve strptime int_of_str lower (EUpdateColumn tid cid) req w
  = (if sqlite_integer cid
     then Jsonify false (Some (py "Column not found")) 404
     else InternalServerError OverflowError, w).
Proof.
  intros Hu Ht Ho Hc.
  unfold serve, view_function, update_column, login_required, with_user_id, not_found.
  cbn [session session_user_id txn db cookie flashed].
  rewrite Hu, Ht, Ho, (not_owner_false _ uid) by exact Hu.
  rewrite (column_of_user_none _ _ _ Hc).
  destruct (sqlite_integer cid); now destruct w.
Qed.

(** X9: the owner setting a status gets the JSON success answer; the task is
    stored with the submitted text as status, whatever it is, every other
    field as before, and no other row changes. *)
Theorem update_status_sets_status_only
    (req : Request) (w : World) (uid tid : Z) (t : Task) (new_status : str) :
  session_user_id (cookie w) = Some uid ->
  get_task tid (db w) = Some t ->
  task_user_id t = uid ->
  let r := serve strptime int_of_str lower (EUpdateStatus tid new_status) req w in
  fst r = Jsonify true None 200
  /\ cookie (snd r) = cookie w
  /\ flashed (snd r) = flashed w
  /\ rewrites_task tid
       (mkTask (task_id t) (title t) (description t) (due_date t) (priority t)
               (complete t) (reminder_set t) (created_at t) new_status
               (task_user_id t) (task_column_id t))
       (db w) (db (snd r)).
Proof.
  intros Hu Ht Ho.
  unfold serve, view_function, update_status, login_required.
  cbn [session session_user_id txn db cookie flashed].
  subst uid. rewrite Hu, Ht, (not_owner_false _ (task_user_id t)) by exact Hu.
  cbn [fst snd teardown persisted session flashes commit modify txn db cookie flashed].
  split; [reflexivity|]. split; [reflexivity|]. split; [reflexivity|].
  exact (update_task_rewrites tid (set_status new_status) (db w) t
           (fun r => eq_refl) Ht).
Qed.

(** X10: the owner deleting a task is redirected back with "Task deleted.";
    afterwards no task is stored under that id, while users, columns and
    the tasks under every other id are as before. *)
Theorem delete_removes_own_task
    (req : Request) (w : World) (uid id : Z) (t : Task) :
  session_user_id (cookie w) = Some uid ->
  get_task id (db w) = Some t ->
  task_user_id t = uid ->
  let r := serve strptime int_of_str lower (EDelete id) req w in
  fst r = Redirect (back req)
  /\ cookie (snd r) = cookie w
  /\ flashed (snd r) = flashed w ++ [(py "Task deleted.", py "info")]
  /\ get_task id (db (snd r)) = None
  /\ users (db (snd r)) = users (db w)
  /\ columns (db (snd r)) = columns (db w)
  /\ forall k, k <> id -> get_task k (db (snd r)) = get_task k (db w).
Proof.
  intros Hu Ht Ho.
  unfold serve, view_function, delete, login_required.
  cbn [session session_user_id txn db cookie flashed].
  rewrite Hu, Ht, Ho, (not_owner_false _ uid) by exact Hu.
  cbn [fst snd teardown persisted session flashes commit modify txn db cookie flashed
       flash].
  repeat split; try reflexivity.
  - apply get_task_deleted.
  - intros k Hk. now apply get_task_delete_other.
Qed.

(** X11: for an id under which no task is stored, toggle, toggle_reminder,
    delete, update_column and update_status change nothing and abort with
    404, or, for an id beyond SQLite's integer range, end in the driver's
    OverflowError. *)
Theorem unknown_task_is_404
    (req : Request) (w : World) (uid id cid : Z) (s : str) :
  session_user_id (cookie w) = Some uid ->
  get_task id (db w) = None ->
  let answer := if sqlite_integer id then Abort 404
                else InternalServerError OverflowError in
  serve strptime int_of_str lower (EToggle id) req w = (answer, w)
  /\ serve strptime int_of_str lower (EToggleReminder id) req w = (answer, w)
  /\ serve strptime int_of_str lower (EDelete id) req w = (answer, w)
  /\ serve strptime int_of_str lower (EUpdateColumn id cid) req w = (answer, w)
  /\ serve strptime int_of_str lower (EUpdateStatus id s) req w = (answer, w).
Proof.
  intros Hu Ht answer. unfold answer.
  unfold serve, view_function, toggle, toggle_reminder, delete, update_column,
    update_status, login_required, not_found.
  cbn [session session_user_id txn db cookie flashed].
  rewrite Hu, Ht. destruct w. destruct (sqlite_integer id); repeat split.
Qed.

(** X12: edit_task changes nothing when it is given an id under which no
    task is stored, or a form that lacks one of the fields title,
    description, due_date, priority.  In the first case it redirects to the
    board with "Task not found!", or, for an id beyond SQLite's integer
    range, ends in the driver's OverflowError; in the second it raises
    BadRequestKeyError for a field that is missing. *)
Theorem edit_task_rejections
    (req : Request) (w : World) (uid id : Z) :
  session_user_id (cookie w) = Some uid ->
  (get_task id (db w) = None ->
   serve strptime int_of_str lower (EEditTask id) req w
   = if sqlite_integer id
     then (Redirect url_workflow,
           mkWorld (db w) (cookie w)
                   (flashed w ++ [(py "Task not found!", py "danger")]))
     else (InternalServerError OverflowError, w))
  /\ (get_task id (db w) <> None ->
      form_get "title" (form req) = None
      \/ form_get "description" (form req) = None
      \/ form_get "due_date" (form req) = None
      \/ form_get "priority" (form req) = None ->
      exists key,
        serve strptime int_of_str lower (EEditTask id) req w
        = (BadRequestKeyError key, w)
        /\ form_get key (form req) = None
        /\ In key ["title"; "description"; "due_date"; "priority"]%string).
Proof.
  intros Hu.
  unfold serve, view_function, edit_task, login_required, not_found.
  cbn [session session_user_id txn db cookie flashed].
  rewrite Hu. split.
  - intros ->. destruct (sqlite_integer id); [reflexivity | now destruct w].
  - intros Hsome Hmiss. destruct (get_task id (db w)); [|contradiction].
    destruct w.
    destruct (form_get "title" (form req)) eqn:E1;
      [|exists "title"%string; split; [reflexivity|]; split; [exact E1|];
        simpl; tauto].
    destruct (form_get "description" (form req)) eqn:E2;
      [|exists "description"%string; split; [reflexivity|]; split; [exact E2|];
        simpl; tauto].
    destruct (form_get "due_date" (form req)) eqn:E3;
      [|exists "due_date"%string; split; [reflexivity|]; split; [exact E3|];
        simpl; tauto].
    destruct (form_get "priority" (form req)) eqn:E4;
      [|exists "priority"%string; split; [reflexivity|]; split; [exact E4|];
        simpl; tauto].
    destruct Hmiss as [H | [H | [H | H]]]; discriminate.
Qed.

(** X13: an accepted edit (all four fields present, due_date blank) stores
    the submitted title, description and priority as they are, even a blank
    title, and clears the due date; the id, completion and reminder flags,
    creation time, status, owner and column of the task stay, and no other
    row changes. *)
Theorem edit_task_overwrites_four_fields
    (req : Request) (w : World) (uid id : Z) (t : Task) (ti de pr : str) :
  session_user_id (cookie w) = Some uid ->
  get_task id (db w) = Some t ->
  form_get "title" (form req) = Some ti ->
  form_get "description" (form req) = Some de ->
  form_get "due_date" (form req) = Some [] ->
  form_get "priority" (form req) = Some pr ->
  let r := serve strptime int_of_str lower (EEditTask id) req w in
  fst r = Redirect url_workflow
  /\ cookie (snd r) = cookie w
  /\ flashed (snd r) = flashed w ++ [(py "Task updated!", py "success")]
  /\ rewrites_task id
       (mkTask (task_id t) ti (Some de) None pr (complete t) (reminder_set t)
               (created_at t) (status t) (task_user_id t) (task_column_id t))
       (db w) (db (snd r)).
Proof.
  intros Hu Ht H1 H2 H3 H4 r. unfold r.
  rewrite (edit_task_any_session strptime int_of_str lower req w uid id t ti de pr
             Hu Ht H1 H2 H3 H4).
  cbn [fst snd db cookie flashed].
  split; [reflexivity|]. split; [reflexivity|]. split; [reflexivity|].
  exact (update_task_rewrites id (set_edited ti (Some de) None pr) (db w) t
           (fun r => eq_refl) Ht).
Qed.
End TaskOperations.

Lemma update_column_moves_own_task_witness :
  session_user_id (cookie bob_world) = Some 2
  /\ get_task 1 (db bob_world) = Some bobs_task
  /\ option_map column_card (column_of_user 5 2 (db bob_world)) = Some (py "To Do", 0, 2)
  /\ get_task 1 (db (snd (serve never_parses digits_to_Z ascii_lower (EUpdateColumn 1 5)
                               plain_request bob_world)))
     = Some (mkTask 1 (py "Pay rent") (Some (py "before Friday"))
                    (Some (t_now + 200 * second)) (py "High") false true
                    (t_now - 3600 * second) (py "to do") 2 (Some 5)).
Proof.
  split; [reflexivity|]. split; [reflexivity|]. split; [reflexivity|].
  destruct (update_column_moves_own_task never_parses digits_to_Z ascii_lower
              plain_request bob_world 2 1 5 bobs_task (mkColumn 5 (py "To Do") 0 2)
              eq_refl eq_refl eq_refl eq_refl) as (_ & _ & _ & _ & _ & _ & Hg & _).
  exact Hg.
Defined.

Lemma update_column_refuses_foreign_column_witness :
  session_user_id (cookie bob_world) = Some 2
  /\ get_task 1 (db bob_world) = Some bobs_task
  /\ option_map column_user_id (get_column 1 board) = Some 1
  /\ serve never_parses digits_to_Z ascii_lower (EUpdateColumn 1 1) plain_request bob_world
     = (Jsonify false (Some (py "Column not found")) 404, bob_world).
Proof.
  split; [reflexivity|]. split; [reflexivity|]. split; [reflexivity|].
  apply (update_column_refuses_foreign_column never_parses digits_to_Z ascii_lower
           plain_request bob_world 2 1 1 bobs_task); try reflexivity.
  intros c H Hid. simpl in H.
  repeat (destruct H as [<- | H]; [simpl in *; lia|]). contradiction.
Defined.

Lemma update_status_sets_status_only_witness :
  session_user_id (cookie bob_world) = Some 2
  /\ get_task 1 (db bob_world) = Some bobs_task
  /\ task_user_id bobs_task = 2
  /\ option_map status
       (get_task 1 (db (snd (serve never_parses digits_to_Z ascii_lower
                                   (EUpdateStatus 1 (py "any text at all"))
                                   plain_request bob_world))))
     = Some (py "any text at all").
Proof.
  split; [reflexivity|]. split; [reflexivity|]. split; [reflexivity|].
  destruct (update_status_sets_status_only never_parses digits_to_Z ascii_lower
              plain_request bob_world 2 1 bobs_task (py "any text at all")
              eq_refl eq_refl eq_refl) as (_ & _ & _ & _ & _ & _ & Hg & _).
  now rewrite Hg.
Defined.

Lemma delete_removes_own_task_witness :
  session_user_id (cookie bob_world) = Some 2
  /\ get_task 1 (db bob_world) = Some bobs_task
  /\ task_user_id bobs_task = 2
  /\ get_task 1 (db (snd (serve never_parses digits_to_Z ascii_lower (EDelete 1)
                               plain_request bob_world))) = None.
Proof.
  split; [reflexivity|]. split; [reflexivity|]. split; [reflexivity|].
  destruct (delete_removes_own_task never_parses digits_to_Z ascii_lower
              plain_request bob_world 2 1 bobs_task eq_refl eq_refl eq_refl)
    as (_ & _ & _ & Hg & _).
  exact Hg.
Defined.

Lemma unknown_task_is_404_witness :
  session_user_id (cookie ann_world) = Some 1
  /\ get_task 99 (db ann_world) = None
  /\ serve never_parses digits_to_Z ascii_lower (EToggle 99) plain_request ann_world
     = (Abort 404, ann_world).
Proof.
  split; [reflexivity|]. split; [reflexivity|].
  exact (proj1 (unknown_task_is_404 never_parses digits_to_Z ascii_lower
                  plain_request ann_world 1 99 1 (py "done") eq_refl eq_refl)).
Defined.

Lemma edit_task_rejections_witness :
  session_user_id (cookie bob_world) = Some 2
  /\ get_task 1 (db bob_world) <> None
  /\ form_get "title" (form plain_request) = None
  /\ (exists key,
        serve never_parses digits_to_Z ascii_lower (EEditTask 1) plain_request bob_world
        = (BadRequestKeyError key, bob_world)
        /\ form_get key (form plain_request) = None
        /\ In key ["title"; "description"; "due_date"; "priority"]%string)
  /\ serve never_parses digits_to_Z ascii_lower (EEditTask 99) plain_request bob_world
     = (Redirect url_workflow,
        mkWorld board (cookie bob_world) [(py "Task not found!", py "danger")]).
Proof.
  assert (Hs : get_task 1 (db bob_world) <> None) by discriminate.
  split; [reflexivity|]. split; [exact Hs|]. split; [reflexivity|].
  split.
  - exact (proj2 (edit_task_rejections never_parses digits_to_Z ascii_lower
                    plain_request bob_world 2 1 eq_refl) Hs (or_introl eq_refl)).
  - exact (proj1 (edit_task_rejections never_parses digits_to_Z ascii_lower
                    plain_request bob_world 2 99 eq_refl) eq_refl).
Defined.

Lemma edit_task_overwrites_four_fields_witness :
  session_user_id (cookie bob_world) = Some 2
  /\ get_task 1 (db bob_world) = Some bobs_task
  /\ form_get "due_date" (form overwrite_request) = Some []
  /\ get_task 1 (db (snd (serve never_parses digits_to_Z ascii_lower (EEditTask 1)
                               overwrite_request bob_world)))
     = Some (mkTask 1 (py "Taken over") (Some []) None (py "Low") false true
                    (t_now - 3600 * second) (py "todo") 2 (Some 5)).
Proof.
  split; [reflexivity|]. split; [reflexivity|]. split; [reflexivity|].
  destruct (edit_task_overwrites_four_fields never_parses digits_to_Z ascii_lower
              overwrite_request bob_world 2 1 bobs_task (py "Taken over") [] (py "Low")
              eq_refl eq_refl eq_refl eq_refl eq_refl eq_refl)
    as (_ & _ & _ & _ & _ & _ & Hg & _).
  exact Hg.
Defined.

(** ** Pages *)

Lemma get_user_found (uid : Z) (d : Db) (u : User) :
  get_user uid d = Some u -> user_id u = uid /\ In u (users d).
Proof.
  unfold get_user. intros H. apply find_some in H.
  destruct H as [Hin H]. apply Z.eqb_eq in H. tauto.
Qed.

Lemma filter_perm {A} (f : A -> bool) (l l' : list A) :
  Permutation l l' -> Permutation (filter f l) (filter f l').
Proof.
  induction 1 as [| x l l' _ IH | x y l | l l' l'' _ IH1 _ IH2]; simpl.
  - constructor.
  - destruct (f x); [now constructor | exact IH].
  - destruct (f x), (f y); try apply Permutation_refl. apply perm_swap.
  - now apply perm_trans with (filter f l').
Qed.

Lemma calculate_stats_perm (current : datetime) (l l' : list Task) :
  Permutation l l' -> calculate_stats current l = calculate_stats current l'.
Proof.
  intros H. unfold calculate_stats.
  rewrite (Permutation_length H).
  rewrite (Permutation_length (filter_perm (fun t => negb (complete t)) _ _ H)).
  rewrite (Permutation_length (filter_perm (fun t => complete t) _ _ H)).
  now rewrite (Permutation_length (filter_perm (is_overdue current) _ _ H)).
Qed.

Lemma null_first_asym (a b : option Z) :
  null_first_ltb a b = true -> null_first_ltb b a = false.
Proof.
  destruct a, b; simpl; try reflexivity; try discriminate.
  rewrite Z.ltb_lt, Z.ltb_ge. lia.
Qed.

Lemma null_first_trans (a b c : option Z) :
  null_first_ltb b a = false -> null_first_ltb c b = false ->
  null_first_ltb c a = false.
Proof.
  destruct a, b, c; simpl; try reflexivity; try discriminate.
  rewrite !Z.ltb_ge. lia.
Qed.

(** The result of [.order_by(Task.due_date)]: the same rows, none with a due
    date strictly before that of an earlier row, undated rows first. *)
Lemma by_due_date_facts (l : list Task) :
  Permutation (by_due_date l) l
  /\ StronglySorted (fun a b => null_first_ltb (due_date b) (due_date a) = false)
                    (by_due_date l).
Proof.
  split; [apply sorted_perm|].
  apply (sorted_ordered (fun a b => null_first_ltb (due_date a) (due_date b))).
  - intros a b. apply null_first_asym.
  - intros a b c. apply null_first_trans.
Qed.

Section Pages.
Variable strptime : str -> option datetime.
Variable int_of_str : str -> option Z.
Variable lower : str -> str.

(** X14: toggle_theme of a logged-in user redirects back and flips the
    display flag of the session, a missing flag counting as off; the
    database, the flashed messages and the logged-in user stay, and a second
    toggle brings the flag back to where it was. *)
Theorem toggle_theme_flips_session_flag
    (req : Request) (d : Db) (uid : Z) (dm : option bool) (fl : list (str * str)) :
  let on := match dm with Some b => b | None => false end in
  serve strptime int_of_str lower EToggleTheme req
        (mkWorld d (mkSession (Some uid) dm) fl)
  = (Redirect (back req), mkWorld d (mkSession (Some uid) (Some (negb on))) fl)
  /\ snd (serve strptime int_of_str lower EToggleTheme req
            (snd (serve strptime int_of_str lower EToggleTheme req
                    (mkWorld d (mkSession (Some uid) dm) fl))))
     = mkWorld d (mkSession (Some uid) (Some on)) fl.
Proof.
  split; [reflexivity|].
  cbn. now rewrite negb_involutive.
Qed.

(** X15: for a logged-in user whose row exists, the pages index, completed
    and pending change nothing; they list, ordered by due date with undated
    tasks first, exactly that user's tasks (all of them, the complete ones,
    the incomplete ones), and show the counts over all of that user's
    tasks, so the number of tasks listed is the total, completed and
    pending count. *)
Theorem task_pages_list_own_tasks
    (req : Request) (w : World) (uid : Z) (user : User) :
  session_user_id (cookie w) = Some uid ->
  get_user uid (db w) = Some user ->
  let page e := serve strptime int_of_str lower e req w in
  let mine := tasks_of uid (db w) in
  (forall e, e = EIndex \/ e = ECompleted \/ e = EPending ->
     snd (page e) = w
     /\ shown_stats (fst (page e)) = Some (calculate_stats (now req) mine)
     /\ StronglySorted (fun a b => null_first_ltb (due_date b) (due_date a) = false)
                       (listed_tasks (fst (page e))))
  /\ Permutation (listed_tasks (fst (page EIndex))) mine
  /\ Permutation (listed_tasks (fst (page ECompleted))) (filter complete mine)
  /\ Permutation (listed_tasks (fst (page EPending)))
                 (filter (fun t => negb (complete t)) mine)
  /\ length (listed_tasks (fst (page EIndex)))
     = stat_total (calculate_stats (now req) mine)
  /\ length (listed_tasks (fst (page ECompleted)))
     = stat_completed (calculate_stats (now req) mine)
  /\ length (listed_tasks (fst (page EPending)))
     = stat_pending (calculate_stats (now req) mine).
Proof.
  intros Hu Hg page mine.
  destruct (get_user_found _ _ _ Hg) as [Hid _].
  assert (Ei : page EIndex
               = (RenderTemplate "index.html"
                    (mkContext user (by_due_date mine) None
                       (calculate_stats (now req) (by_due_date mine)) None
                       (get_dark_mode (mkSt (db w) (db w) (cookie w) (flashed w)))), w)).
  { unfold page, serve, view_function, index, login_required, with_user_id.
    cbn [session session_user_id txn db cookie flashed].
    rewrite Hu, Hg, Hid. now destruct w. }
  assert (Ec : page ECompleted
               = (RenderTemplate "completed.html"
                    (mkContext user (by_due_date (filter complete mine)) None
                       (calculate_stats (now req) mine) None
                       (get_dark_mode (mkSt (db w) (db w) (cookie w) (flashed w)))), w)).
  { unfold page, serve, view_function, completed, login_required, with_user_id.
    cbn [session session_user_id txn db cookie flashed].
    rewrite Hu, Hg, Hid. now destruct w. }
  assert (Ep : page EPending
               = (RenderTemplate "pending.html"
                    (mkContext user
                       (by_due_date (filter (fun t => negb (complete t)) mine)) None
                       (calculate_stats (now req) mine) None
                       (get_dark_mode (mkSt (db w) (db w) (cookie w) (flashed w)))), w)).
  { unfold page, serve, view_function, pending, login_required, with_user_id.
    cbn [session session_user_id txn db cookie flashed].
    rewrite Hu, Hg, Hid. now destruct w. }
  split.
  - intros e [-> | [-> | ->]]; [rewrite Ei | rewrite Ec | rewrite Ep];
      cbn [fst snd shown_stats listed_tasks ctx_stats ctx_tasks];
      (split; [reflexivity|]); (split; [|apply by_due_date_facts]); try reflexivity.
    f_equal. apply calculate_stats_perm, by_due_date_facts.
  - rewrite Ei, Ec, Ep. cbn [fst listed_tasks ctx_tasks].
    split; [apply by_due_date_facts|]. split; [apply by_due_date_facts|].
    split; [apply by_due_date_facts|].
    unfold by_due_date. rewrite !sorted_length. repeat split.
Qed.

(** X16: a session whose user row is gone ends the four pages in a server
    error, before anything is read or written. *)
Theorem pages_fail_without_user_row (req : Request) (w : World) (uid : Z) :
  session_user_id (cookie w) = Some uid ->
  get_user uid (db w) = None ->
  forall e, e = EIndex \/ e = EWorkflow \/ e = ECompleted \/ e = EPending ->
    serve strptime int_of_str lower e req w
    = (InternalServerError (AttributeError "id"), w).
Proof.
  intros Hu Hg e He.
  destruct He as [-> | [-> | [-> | ->]]];
    unfold serve, view_function, index, workflow, completed, pending,
      login_required, with_user_id;
    cbn [session session_user_id txn db cookie flashed];
    rewrite Hu, Hg; now destruct w.
Qed.
End Pages.

Lemma task_pages_list_own_tasks_witness :
  session_user_id (cookie bob_world) = Some 2
  /\ get_user 2 (db bob_world) = Some bob
  /\ listed_tasks (fst (serve never_parses digits_to_Z ascii_lower EPending
                              plain_request bob_world)) = [bobs_task]
  /\ snd (serve never_parses digits_to_Z ascii_lower EIndex plain_request bob_world)
     = bob_world.
Proof.
  split; [reflexivity|]. split; [reflexivity|].
  destruct (task_pages_list_own_tasks never_parses digits_to_Z ascii_lower
              plain_request bob_world 2 bob eq_refl eq_refl) as (Hall & _).
  split; [reflexivity|].
  exact (proj1 (Hall EIndex (or_introl eq_refl))).
Defined.

Lemma pages_fail_without_user_row_witness :
  session_user_id (cookie stale_world) = Some 7
  /\ get_user 7 (db stale_world) = None
  /\ serve never_parses digits_to_Z ascii_lower EWorkflow plain_request stale_world
     = (InternalServerError (AttributeError "id"), stale_world).
Proof.
  split; [reflexivity|]. split; [reflexivity|].
  apply (pages_fail_without_user_row never_parses digits_to_Z ascii_lower
           plain_request stale_world 7 eq_refl eq_refl EWorkflow).
  right. now left.
Defined.

(** ** The board *)

Lemma staged_columns_keep_tasks (uid : Z) (existing names : list str) (st : St) :
  tasks (txn (fold_left
                (fun s name =>
                   if negb (str_in name existing)
                   then modify (insert_column name 0 uid) s
                   else s)
                names st))
  = tasks (txn st).
Proof.
  revert st. induction names as [|n names IH]; intros st; simpl; [reflexivity|].
  rewrite IH. now destruct (negb (str_in n existing)).
Qed.

Lemma staged_columns_keep_session (uid : Z) (existing names : list str) (st : St) :
  session (fold_left
             (fun s name =>
                if negb (str_in name existing)
                then modify (insert_column name 0 uid) s
                else s)
             names st) = session st
  /\ flashes (fold_left
                (fun s name =>
                   if negb (str_in name existing)
                   then modify (insert_column name 0 uid) s
                   else s)
                names st) = flashes st.
Proof.
  revert st. induction names as [|n names IH]; intros st; simpl; [auto|].
  destruct (IH (if negb (str_in n existing)
                then modify (insert_column n 0 uid) st else st)) as [H1 H2].
  rewrite H1, H2. now destruct (negb (str_in n existing)).
Qed.

Lemma column_tasks_by_tasks (c : Column) (d d' : Db) :
  tasks d = tasks d' -> column_tasks c d = column_tasks c d'.
Proof. unfold column_tasks. now intros ->. Qed.

(** Sorting by an integer key, largest first. *)
Lemma sorted_by_key_desc {A} (key : A -> Z) (l : list A) :
  StronglySorted (fun a b => key b <= key a)
                 (sorted (fun a b => key b <? key a) l).
Proof.
  assert (H := sorted_ordered (fun a b => key b <? key a)
                 (fun a b => ltac:(rewrite Z.ltb_lt, Z.ltb_ge; lia))
                 (fun a b c => ltac:(rewrite !Z.ltb_ge; lia)) l).
  revert H. generalize (sorted (fun a b => key b <? key a) l).
  induction 1 as [|x r Hr IH Hx]; constructor; [exact IH|].
  rewrite Forall_forall in *. intros z Hz. apply Z.ltb_ge. now apply Hx.
Qed.

Section Board.
Variable strptime : str -> option datetime.
Variable int_of_str : str -> option Z.
Variable lower : str -> str.

(** The rendered board of a logged-in user, written out. *)
Lemma workflow_logged_in (req : Request) (w : World) (uid : Z) (user : User) :
  session_user_id (cookie w) = Some uid ->
  get_user uid (db w) = Some user ->
  exists ts dm sort_by,
    serve strptime int_of_str lower EWorkflow req w
    = (RenderTemplate "workflow.html"
         (mkContext user ts
            (Some (map (fun col =>
                          (col, sorted (fun a b => due_or_max a <? due_or_max b)
                                       (column_tasks col (db w))))
                       (columns_of uid (provision uid (db w)))))
            (calculate_stats (now req) ts) (Some sort_by) dm),
       mkWorld (provision uid (db w)) (cookie w) (flashed w))
    /\ Permutation ts (tasks_of uid (db w))
    /\ (form_get "sort" (args req) = Some (py "priority") ->
        StronglySorted
          (fun a b => priority_rank (priority a) <= priority_rank (priority b)) ts)
    /\ (form_get "sort" (args req) = Some (py "created_at") ->
        StronglySorted (fun a b => created_at b <= created_at a) ts)
    /\ (form_get "sort" (args req) = None ->
        StronglySorted
          (fun a b => null_first_ltb (due_date b) (due_date a) = false) ts).
Proof.
  intros Hu Hg.
  destruct (get_user_found _ _ _ Hg) as [Hid _].
  destruct (provision_effect uid (db w)) as (extra & Hp & _).
  assert (Htasks : tasks (provision uid (db w)) = tasks (db w)) by now rewrite Hp.
  unfold serve, view_function, workflow, login_required, with_user_id.
  cbn [session session_user_id txn db cookie flashed].
  rewrite Hu, Hg, Hid, ensure_default_columns_fresh.
  cbn [txn session].
  match goal with
  | |- context [fold_left ?f ?names ?st0] =>
      set (staged := fold_left f names st0)
  end.
  assert (Hst : tasks (txn staged) = tasks (db w)).
  { unfold staged. rewrite staged_columns_keep_tasks. exact Htasks. }
  assert (Hpers : persisted staged = provision uid (db w)).
  { unfold staged. now rewrite staged_columns_not_persisted. }
  destruct (staged_columns_keep_session uid
              (map column_name (columns_of uid (provision uid (db w))))
              [py "To Do"; py "In Progress"; py "Completed"; py "Pending"; py "Done"]
              (mkSt (provision uid (db w)) (provision uid (db w)) (cookie w) (flashed w)))
    as [Hsess Hfl].
  fold staged in Hsess, Hfl. cbn [session flashes] in Hsess, Hfl.
  assert (Hmine : tasks_of uid (provision uid (db w)) = tasks_of uid (db w))
    by (unfold tasks_of; now rewrite Htasks).
  rewrite Hmine.
  cbn [teardown persisted session flashes]. rewrite Hpers, Hsess, Hfl.
  rewrite (map_ext
             (fun col => (col, sorted (fun a b => due_or_max a <? due_or_max b)
                                      (column_tasks col (txn staged))))
             (fun col => (col, sorted (fun a b => due_or_max a <? due_or_max b)
                                      (column_tasks col (db w)))))
    by (intros col; unfold column_tasks; now rewrite Hst).
  eexists; eexists; eexists. split; [|split; [|split; [|split]]].
  - reflexivity.
  - destruct (str_eqb _ (py "priority")); [apply sorted_perm|].
    destruct (str_eqb _ (py "created_at")); [apply sorted_perm|].
    apply sorted_perm.
  - intros ->. rewrite str_eqb_refl. apply (sorted_by_key (fun a => priority_rank (priority a))).
  - intros ->.
    replace (str_eqb (py "created_at") (py "priority")) with false by reflexivity.
    rewrite str_eqb_refl. apply sorted_by_key_desc.
  - intros ->.
    replace (str_eqb (py "due_date") (py "priority")) with false by reflexivity.
    replace (str_eqb (py "due_date") (py "created_at")) with false by reflexivity.
    apply by_due_date_facts.
Qed.
End Board.

Section BoardFacts.
Variable strptime : str -> option datetime.
Variable int_of_str : str -> option Z.
Variable lower : str -> str.

(** X17: for a logged-in user whose row exists, the board shows exactly the
    user's columns after provisioning, in position order and at least one,
    none of them another user's; under each column it lists exactly the
    tasks filed in it, ordered by due date with undated tasks counted as
    [datetime.max]; and all the request stores is the provisioning. *)
Theorem workflow_shows_own_columns
    (req : Request) (w : World) (uid : Z) (user : User) :
  session_user_id (cookie w) = Some uid ->
  get_user uid (db w) = Some user ->
  let r := serve strptime int_of_str lower EWorkflow req w in
  map fst (shown_columns (fst r)) = columns_of uid (provision uid (db w))
  /\ shown_columns (fst r) <> []
  /\ Forall (fun p => column_user_id (fst p) = uid
                      /\ Permutation (snd p) (column_tasks (fst p) (db w))
                      /\ StronglySorted (fun a b => due_or_max a <= due_or_max b) (snd p))
            (shown_columns (fst r))
  /\ snd r = mkWorld (provision uid (db w)) (cookie w) (flashed w).
Proof.
  intros Hu Hg r.
  destruct (workflow_logged_in strptime int_of_str lower req w uid user Hu Hg)
    as (ts & dm & sort_by & Hr & _).
  unfold r. rewrite Hr. cbn [fst snd shown_columns ctx_columns].
  split; [|split; [|split; [|reflexivity]]].
  - rewrite map_map. cbn [fst]. apply map_id.
  - destruct (provision_first_column uid (db w)) as (c & Hc & _).
    unfold first_column in Hc.
    destruct (columns_of uid (provision uid (db w))); [discriminate Hc | discriminate].
  - apply Forall_forall. intros p Hp. apply in_map_iff in Hp.
    destruct Hp as (col & <- & Hin). cbn [fst snd].
    split; [|split].
    + now apply (columns_of_facts uid (provision uid (db w))) in Hin.
    + apply sorted_perm.
    + apply (sorted_by_key due_or_max).
Qed.

(** X18: the flat task list of the board holds exactly the session user's
    tasks; with sort=priority it runs High, Medium, Low, then any other
    value; with sort=created_at newest first; without a sort argument by due
    date with undated tasks first. *)
Theorem workflow_orders_task_list
    (req : Request) (w : World) (uid : Z) (user : User) :
  session_user_id (cookie w) = Some uid ->
  get_user uid (db w) = Some user ->
  let ts := listed_tasks (fst (serve strptime int_of_str lower EWorkflow req w)) in
  Permutation ts (tasks_of uid (db w))
  /\ (form_get "sort" (args req) = Some (py "priority") ->
      StronglySorted
        (fun a b => priority_rank (priority a) <= priority_rank (priority b)) ts)
  /\ (form_get "sort" (args req) = Some (py "created_at") ->
      StronglySorted (fun a b => created_at b <= created_at a) ts)
  /\ (form_get "sort" (args req) = None ->
      StronglySorted
        (fun a b => null_first_ltb (due_date b) (due_date a) = false) ts).
Proof.
  intros Hu Hg.
  destruct (workflow_logged_in strptime int_of_str lower req w uid user Hu Hg)
    as (ts & dm & sort_by & Hr & Hperm & Hsorts).
  rewrite Hr. cbn [fst listed_tasks ctx_tasks]. now split.
Qed.
End BoardFacts.

Lemma workflow_shows_own_columns_witness :
  session_user_id (cookie ann_world) = Some 1
  /\ get_user 1 (db ann_world) = Some ann
  /\ map fst (shown_columns (fst (serve never_parses digits_to_Z ascii_lower EWorkflow
                                        plain_request ann_world)))
     = columns_of 1 (provision 1 board).
Proof.
  split; [reflexivity|]. split; [reflexivity|].
  exact (proj1 (workflow_shows_own_columns never_parses digits_to_Z ascii_lower
                  plain_request ann_world 1 ann eq_refl eq_refl)).
Defined.

Lemma workflow_orders_task_list_witness :
  session_user_id (cookie bob_world) = Some 2
  /\ get_user 2 (db bob_world) = Some bob
  /\ form_get "sort" (args priority_request) = Some (py "priority")
  /\ StronglySorted
       (fun a b => priority_rank (priority a) <= priority_rank (priority b))
       (listed_tasks (fst (serve never_parses digits_to_Z ascii_lower EWorkflow
                                 priority_request bob_world))).
Proof.
  split; [reflexivity|]. split; [reflexivity|]. split; [reflexivity|].
  destruct (workflow_orders_task_list never_parses digits_to_Z ascii_lower
              priority_request bob_world 2 bob eq_refl eq_refl) as (_ & Hp & _).
  exact (Hp eq_refl).
Defined.

(** ** More on the reminder worker *)

Lemma only_disarms_trans (a b c : Db) :
  only_disarms a b -> only_disarms b c -> only_disarms a c.
Proof.
  intros (Hu1 & Hc1 & Ht1) (Hu2 & Hc2 & Ht2).
  split; [congruence|]. split; [congruence|].
  revert Ht2. generalize (tasks c). revert Ht1. generalize (tasks a) (tasks b).
  induction 1 as [|x y la lb Hxy _ IH]; intros lc H; inversion H; subst; constructor.
  - destruct Hxy as [-> | ->]; [assumption|].
    match goal with
    | Hy : _ = set_reminder_set false x \/ _ |- _ =>
        destruct Hy as [-> | ->]; right; reflexivity
    end.
  - now apply IH.
Qed.

Lemma cycle_only_disarms cfg strftime mail_send current w :
  only_disarms (store w) (store (reminder_cycle cfg strftime mail_send current w)).
Proof. unfold reminder_cycle. apply fold_only_disarms, only_disarms_refl. Qed.

Lemma remind_sent_grows cfg strftime mail_send current w t :
  exists more, sent (remind cfg strftime mail_send current w t) = sent w ++ more.
Proof.
  destruct (remind_cases cfg strftime mail_send current w t)
    as [E | (due & _ & _ & _ & Es)].
  - exists []. now rewrite E, app_nil_r.
  - eexists. exact Es.
Qed.

Lemma cycle_sent_grows cfg strftime mail_send current w :
  exists more,
    sent (reminder_cycle cfg strftime mail_send current w) = sent w ++ more.
Proof.
  unfold reminder_cycle.
  generalize (filter (fun t => reminder_set t && negb (complete t)) (tasks (store w))).
  intros l. revert w. induction l as [|x l IH]; intros w; simpl.
  - exists []. now rewrite app_nil_r.
  - destruct (IH (remind cfg strftime mail_send current w x)) as (m2 & H2).
    destruct (remind_sent_grows cfg strftime mail_send current w x) as (m1 & H1).
    exists (m1 ++ m2). now rewrite H2, H1, app_assoc.
Qed.

Lemma reminder_worker_frame
    (cfg : Config) (strftime : datetime -> str)
    (passes : list (datetime * (Message -> bool))) (w : Worker) :
  only_disarms (store w) (store (reminder_worker cfg strftime passes w))
  /\ map task_id (tasks (store (reminder_worker cfg strftime passes w)))
     = map task_id (tasks (store w))
  /\ exists more, sent (reminder_worker cfg strftime passes w) = sent w ++ more.
Proof.
  assert (H : only_disarms (store w) (store (reminder_worker cfg strftime passes w))
              /\ exists more,
                   sent (reminder_worker cfg strftime passes w) = sent w ++ more).
  { revert w. induction passes as [|[current mail_send] passes IH]; intros w; simpl.
    - split; [apply only_disarms_refl|]. exists []. now rewrite app_nil_r.
    - destruct (IH (reminder_cycle cfg strftime mail_send current w)) as (Hd & m2 & H2).
      destruct (cycle_sent_grows cfg strftime mail_send current w) as (m1 & H1).
      split.
      + eapply only_disarms_trans; [apply cycle_only_disarms | exact Hd].
      + exists (m1 ++ m2). now rewrite H2, H1, app_assoc. }
  destruct H as [Hd Hs]. split; [exact Hd|]. split; [|exact Hs].
  destruct Hd as (_ & _ & Hf). revert Hf.
  generalize (tasks (store w)) (tasks (store (reminder_worker cfg strftime passes w))).
  induction 1 as [|x y la lb Hxy _ IH]; simpl; [reflexivity|].
  rewrite IH. now destruct Hxy as [-> | ->].
Qed.

(** X19: however long the loop runs, whatever the clock readings, the
    transport and the mail settings, all it ever does to the database is
    clear reminder flags: users and columns stay, every task keeps its id
    and all other fields, and no task is added or removed; the record of
    sends only grows. *)
Theorem reminder_worker_only_disarms
    (cfg : Config) (strftime : datetime -> str)
    (passes : list (datetime * (Message -> bool))) (w : Worker) :
  only_disarms (store w) (store (reminder_worker cfg strftime passes w))
  /\ map task_id (tasks (store (reminder_worker cfg strftime passes w)))
     = map task_id (tasks (store w))
  /\ exists more, sent (reminder_worker cfg strftime passes w) = sent w ++ more.
Proof. exact (reminder_worker_frame cfg strftime passes w). Qed.

Lemma remind_send_is_reminder cfg strftime mail_send current d w t :
  users (store w) = users d ->
  In t (tasks d) -> reminder_set t = true -> complete t = false ->
  exists more,
    sent (remind cfg strftime mail_send current w t) = sent w ++ more
    /\ Forall (fun p => credentials_set cfg = true
                        /\ reminder_of cfg strftime current d p) more.
Proof.
  intros Hus Hin Ha Hc.
  destruct (remind_cases cfg strftime mail_send current w t)
    as [E | (due & Hd & Hs & _ & Es)].
  - exists []. rewrite E, app_nil_r. split; [reflexivity | constructor].
  - eexists. split; [exact Es|].
    unfold try_send.
    destruct (credentials_set cfg) eqn:Ecfg; [|constructor].
    assert (Hg : get_user (task_user_id t) (store w) = get_user (task_user_id t) d)
      by (unfold get_user; now rewrite Hus).
    rewrite Hg. destruct (get_user (task_user_id t) d) as [owner|] eqn:Eo; [|constructor].
    constructor; [|constructor]. split; [reflexivity|].
    exists t, owner, due. cbn [fst snd].
    apply due_soon_iff in Hs. repeat split; auto; apply Hs.
Qed.

Lemma fold_sends_are_reminders cfg strftime mail_send current d l w :
  users (store w) = users d ->
  (forall t, In t l -> In t (tasks d) /\ reminder_set t = true /\ complete t = false) ->
  exists more,
    sent (fold_left (remind cfg strftime mail_send current) l w) = sent w ++ more
    /\ Forall (fun p => credentials_set cfg = true
                        /\ reminder_of cfg strftime current d p) more.
Proof.
  revert w. induction l as [|x l IH]; intros w Hus Hl; simpl.
  - exists []. rewrite app_nil_r. split; [reflexivity | constructor].
  - destruct (Hl x (or_introl eq_refl)) as (Hin & Ha & Hc).
    destruct (remind_send_is_reminder cfg strftime mail_send current d w x
                Hus Hin Ha Hc) as (m1 & H1 & F1).
    destruct (IH (remind cfg strftime mail_send current w x)) as (m2 & H2 & F2).
    + now rewrite remind_users.
    + intros t Ht. apply Hl. now right.
    + exists (m1 ++ m2). rewrite H2, H1, app_assoc. split; [reflexivity|].
      apply Forall_app. now split.
Qed.

(** X20: whatever a cycle hands to the mail transport is a reminder for a
    task that was armed, incomplete and due within the next 300 seconds at
    the snapshot, sent from the configured account to the one address of
    the task's owner, and it is sent only when both credentials are set. *)
Theorem reminder_mail_goes_to_owner
    (cfg : Config) (strftime : datetime -> str) (mail_send : Message -> bool)
    (current : datetime) (w : Worker) :
  exists more,
    sent (reminder_cycle cfg strftime mail_send current w) = sent w ++ more
    /\ Forall (fun p => credentials_set cfg = true
                        /\ reminder_of cfg strftime current (store w) p) more.
Proof.
  unfold reminder_cycle. apply fold_sends_are_reminders; [reflexivity|].
  intros t Ht. apply filter_In in Ht. destruct Ht as [Hin H].
  apply andb_true_iff in H. destruct H as [Ha Hc].
  apply negb_true_iff in Hc. auto.
Qed.

Lemma same_id_same_row (rows : list Task) (x t : Task) :
  NoDup (map task_id rows) -> In x rows -> In t rows ->
  task_id x = task_id t -> x = t.
Proof.
  induction rows as [|r rows IH]; simpl; intros Hnd Hx Ht Hid; [contradiction|].
  inversion Hnd as [|? ? Hnin Hnd']; subst.
  destruct Hx as [-> | Hx], Ht as [-> | Ht]; auto.
  - exfalso. apply Hnin. rewrite Hid. now apply in_map.
  - exfalso. apply Hnin. rewrite <- Hid. now apply in_map.
Qed.

Lemma In_update_other (k : Z) (f : Task -> Task) (d : Db) (t : Task) :
  In t (tasks d) -> task_id t <> k -> In t (tasks (update_task k f d)).
Proof.
  intros Hin Hne. unfold update_task. simpl. apply in_map_iff.
  exists t. split; [|exact Hin].
  destruct (task_id t =? k) eqn:E; [|reflexivity].
  apply Z.eqb_eq in E. contradiction.
Qed.

Lemma fold_skips_task cfg strftime mail_send current l w t :
  In t (tasks (store w)) ->
  (forall x, In x l -> task_id x = task_id t -> x = t) ->
  match due_date t with
  | Some due => due_soon current due = false
  | None => True
  end ->
  In t (tasks (store (fold_left (remind cfg strftime mail_send current) l w)))
  /\ sent_for (task_id t) (fold_left (remind cfg strftime mail_send current) l w)
     = sent_for (task_id t) w.
Proof.
  intros Hin Hsame Hout. revert w Hin.
  induction l as [|x l IH]; intros w Hin; simpl; [auto|].
  assert (Hstep : In t (tasks (store (remind cfg strftime mail_send current w x)))
                  /\ sent_for (task_id t) (remind cfg strftime mail_send current w x)
                     = sent_for (task_id t) w).
  { destruct (Z.eq_dec (task_id x) (task_id t)) as [E | E].
    - rewrite (Hsame x (or_introl eq_refl) E).
      rewrite (remind_skip _ _ _ _ _ _ Hout). auto.
    - split; [|now apply remind_sent_other].
      destruct (remind_cases cfg strftime mail_send current w x)
        as [Eq | (due & _ & _ & Es & _)]; [now rewrite Eq|].
      rewrite Es. apply In_update_other; auto. }
  destruct Hstep as [Hin' Hs'].
  destruct (IH (fun y Hy => Hsame y (or_intror Hy)) _ Hin') as [H1 H2].
  split; [exact H1 | now rewrite H2].
Qed.

(** X21: a task that is outside the window at every pass (its due time has
    already come, or is 300 seconds or more away, or it has none) is never
    mailed, and it is stored unchanged, armed as it was, however long the
    loop runs: a reminder that the loop did not catch in its five minutes is
    never sent. *)
Theorem reminder_outside_window_never_sent
    (cfg : Config) (strftime : datetime -> str)
    (passes : list (datetime * (Message -> bool))) (w : Worker) (t : Task) :
  NoDup (map task_id (tasks (store w))) ->
  In t (tasks (store w)) ->
  match due_date t with
  | Some due =>
      Forall (fun p => ~ (0 < due - fst p < 300 * 1000000)) passes
  | None => True
  end ->
  In t (tasks (store (reminder_worker cfg strftime passes w)))
  /\ sent_for (task_id t) (reminder_worker cfg strftime passes w)
     = sent_for (task_id t) w.
Proof.
  revert w. induction passes as [|[current mail_send] passes IH]; intros w Hnd Hin Hout;
    simpl; [auto|].
  assert (Hnow : match due_date t with
                 | Some due => due_soon current due = false
                 | None => True
                 end).
  { destruct (due_date t) as [due|]; [|exact I].
    inversion Hout as [|? ? Hh _]; subst. cbn [fst] in Hh.
    destruct (due_soon current due) eqn:E; [|reflexivity].
    apply due_soon_iff in E. contradiction. }
  assert (Hlater : match due_date t with
                   | Some due =>
                       Forall (fun p => ~ (0 < due - fst p < 300 * 1000000)) passes
                   | None => True
                   end).
  { destruct (due_date t); [|exact I]. now inversion Hout. }
  destruct (fold_skips_task cfg strftime mail_send current
              (filter (fun t => reminder_set t && negb (complete t)) (tasks (store w)))
              w t Hin) as [Hin1 Hs1]; [|exact Hnow|].
  { intros x Hx Hid. apply filter_In in Hx.
    apply (same_id_same_row (tasks (store w))); tauto. }
  fold (reminder_cycle cfg strftime mail_send current w) in Hin1, Hs1.
  destruct (IH (reminder_cycle cfg strftime mail_send current w)) as [H1 H2]; auto.
  - destruct (reminder_worker_frame cfg strftime [(current, mail_send)] w)
      as (_ & Hids & _).
    simpl in Hids. now rewrite Hids.
  - split; [exact H1 | now rewrite H2].
Qed.

Lemma reminder_outside_window_never_sent_witness :
  NoDup (map task_id (tasks (store fresh_worker)))
  /\ In bobs_task (tasks (store fresh_worker))
  /\ In bobs_task
        (tasks (store (reminder_worker mail_configured clock_text
                         [(t_now + 200 * second, delivers);
                          (t_now + 260 * second, delivers)] fresh_worker)))
  /\ sent_for 1 (reminder_worker mail_configured clock_text
                   [(t_now + 200 * second, delivers);
                    (t_now + 260 * second, delivers)] fresh_worker) = [].
Proof.
  assert (Hnd : NoDup (map task_id (tasks (store fresh_worker)))).
  { simpl. constructor; [simpl; tauto | constructor]. }
  assert (Hin : In bobs_task (tasks (store fresh_worker))) by (now left).
  split; [exact Hnd|]. split; [exact Hin|].
  apply (reminder_outside_window_never_sent mail_configured clock_text
           [(t_now + 200 * second, delivers); (t_now + 260 * second, delivers)]
           fresh_worker bobs_task Hnd Hin).
  cbn [due_date bobs_task]. unfold t_now, second.
  repeat constructor; cbn [fst]; lia.
Defined.

(** ** Primary keys stay distinct *)

Lemma NoDup_snoc_fresh (ids : list Z) :
  NoDup ids -> NoDup (ids ++ [next_id ids]).
Proof.
  intros H. apply NoDup_app.
  - exact H.
  - constructor; [simpl; tauto | constructor].
  - intros x Hx [<- | []]. now apply next_id_fresh in Hx.
Qed.

Lemma keys_insert_column name pos uid d :
  keys_unique d -> keys_unique (insert_column name pos uid d).
Proof.
  intros (Hu & Hc & Ht). unfold keys_unique, insert_column. cbn [users columns tasks].
  rewrite map_app. cbn [map column_id]. auto using NoDup_snoc_fresh.
Qed.

Lemma keys_insert_task ti de du pr rem created st uid cid d :
  keys_unique d -> keys_unique (insert_task ti de du pr rem created st uid cid d).
Proof.
  intros (Hu & Hc & Ht). unfold keys_unique, insert_task. cbn [users columns tasks].
  rewrite map_app. cbn [map task_id]. auto using NoDup_snoc_fresh.
Qed.

Lemma keys_insert_user name mail hashed d :
  keys_unique d -> keys_unique (insert_user name mail hashed d).
Proof.
  intros (Hu & Hc & Ht). unfold keys_unique, insert_user. cbn [users columns tasks].
  rewrite map_app. cbn [map user_id]. auto using NoDup_snoc_fresh.
Qed.

Lemma update_task_ids id f d :
  (forall r, task_id (f r) = task_id r) ->
  map task_id (tasks (update_task id f d)) = map task_id (tasks d).
Proof.
  intros Hf. unfold update_task. cbn [tasks]. rewrite map_map.
  apply map_ext. intros r. destruct (task_id r =? id); [apply Hf | reflexivity].
Qed.

Lemma keys_update_task id f d :
  (forall r, task_id (f r) = task_id r) ->
  keys_unique d -> keys_unique (update_task id f d).
Proof.
  intros Hf (Hu & Hc & Ht). unfold keys_unique.
  rewrite update_task_ids by exact Hf. auto.
Qed.

Lemma keys_delete_task id d : keys_unique d -> keys_unique (delete_task id d).
Proof.
  intros (Hu & Hc & Ht). unfold keys_unique, delete_task. cbn [users columns tasks].
  auto using selected_ids_distinct.
Qed.

Lemma selected_column_ids_distinct (keep : Column -> bool) (rows : list Column) :
  NoDup (map column_id rows) -> NoDup (map column_id (filter keep rows)).
Proof.
  induction rows as [|x rows IH]; simpl; intros H; [constructor|].
  inversion H as [|? ? Hnin Hnd]; subst.
  destruct (keep x); simpl; [|auto].
  constructor; [|auto].
  intros Hin. apply Hnin. apply in_map_iff in Hin.
  destruct Hin as (y & Hy & Hin). apply filter_In in Hin.
  apply in_map_iff. exists y. tauto.
Qed.

Lemma keys_delete_column_row id d :
  keys_unique d -> keys_unique (delete_column_row id d).
Proof.
  intros (Hu & Hc & Ht). unfold keys_unique, delete_column_row.
  cbn [users columns tasks]. split; [exact Hu|].
  split; [now apply selected_column_ids_distinct|].
  rewrite map_map.
  replace (map _ (tasks d)) with (map task_id (tasks d)); [exact Ht|].
  apply map_ext. intros r. destruct (task_column_id r) as [k|]; [|reflexivity].
  now destruct (k =? id).
Qed.

(** Both the stored database and the one inside the open transaction have
    distinct keys. *)
Lemma keys_flash msg cat st :
  keys_unique (persisted st) /\ keys_unique (txn st) ->
  keys_unique (persisted (flash msg cat st)) /\ keys_unique (txn (flash msg cat st)).
Proof. auto. Qed.

Lemma keys_flash_str msg cat st :
  keys_unique (persisted st) /\ keys_unique (txn st) ->
  keys_unique (persisted (flash_str msg cat st))
  /\ keys_unique (txn (flash_str msg cat st)).
Proof. auto. Qed.

Lemma keys_set_session s st :
  keys_unique (persisted st) /\ keys_unique (txn st) ->
  keys_unique (persisted (set_session s st)) /\ keys_unique (txn (set_session s st)).
Proof. auto. Qed.

Lemma keys_commit st :
  keys_unique (persisted st) /\ keys_unique (txn st) ->
  keys_unique (persisted (commit st)) /\ keys_unique (txn (commit st)).
Proof. intros [_ H]. now split. Qed.

Lemma keys_modify f st :
  (forall d, keys_unique d -> keys_unique (f d)) ->
  keys_unique (persisted st) /\ keys_unique (txn st) ->
  keys_unique (persisted (modify f st)) /\ keys_unique (txn (modify f st)).
Proof. intros Hf [H1 H2]. split; [exact H1 | now apply Hf]. Qed.

Lemma keys_ensure_default_columns uid st :
  keys_unique (persisted st) /\ keys_unique (txn st) ->
  keys_unique (persisted (ensure_default_columns uid st))
  /\ keys_unique (txn (ensure_default_columns uid st)).
Proof.
  intros H. unfold ensure_default_columns.
  destruct (columns_of uid (txn st)); [|exact H].
  cbn -[py next_id]. destruct H as [_ H].
  split; repeat apply keys_insert_column; exact H.
Qed.

Lemma keys_staged_columns uid existing names st :
  keys_unique (persisted st) /\ keys_unique (txn st) ->
  keys_unique (persisted (fold_left
                 (fun s name =>
                    if negb (str_in name existing)
                    then modify (insert_column name 0 uid) s
                    else s) names st))
  /\ keys_unique (txn (fold_left
                 (fun s name =>
                    if negb (str_in name existing)
                    then modify (insert_column name 0 uid) s
                    else s) names st)).
Proof.
  revert st. induction names as [|n names IH]; intros st H; simpl; [exact H|].
  apply IH. destruct (negb (str_in n existing)); [|exact H].
  apply keys_modify; [intros d; apply keys_insert_column | exact H].
Qed.

Ltac keys_step :=
  first
    [ assumption
    | apply keys_flash
    | apply keys_flash_str
    | apply keys_set_session
    | apply keys_commit
    | apply keys_ensure_default_columns
    | apply keys_staged_columns
    | apply keys_modify;
      [ intros ?d;
        first [ apply keys_insert_column | apply keys_insert_task
              | apply keys_insert_user | apply keys_delete_task
              | apply keys_delete_column_row
              | apply keys_update_task; intros ?r; reflexivity ]
      | ] ].

Ltac keys_cases :=
  repeat match goal with
         | |- context [match ?x with _ => _ end] => destruct x eqn:?
         end;
  cbn [snd]; repeat keys_step.

Section KeysHandlers.
Variable strptime : str -> option datetime.
Variable int_of_str : str -> option Z.
Variable lower : str -> str.

Lemma keys_view (e : Endpoint) (req : Request) (st : St) :
  keys_unique (persisted st) /\ keys_unique (txn st) ->
  keys_unique (persisted (snd (view_function strptime int_of_str lower e req st)))
  /\ keys_unique (txn (snd (view_function strptime int_of_str lower e req st))).
Proof.
  intros H.
  destruct e; unfold view_function, index, workflow, completed, pending, add,
    add_column, update_column, update_status, toggle_reminder, toggle, delete,
    toggle_theme, delete_column, edit_task, login_required, with_user_id, not_found;
    cbv zeta; keys_cases.
Qed.
End KeysHandlers.

(** ** Tasks stay in columns of their owner *)

Lemma intact_insert_column name pos uid d :
  intact d -> intact (insert_column name pos uid d).
Proof.
  intros [Hk Hf]. split; [now apply keys_insert_column|].
  intros t c Hin Hc. destruct (Hf t c Hin Hc) as (col & Hcol & H).
  exists col. split; [|exact H]. cbn [insert_column columns]. apply in_or_app. now left.
Qed.

Lemma intact_insert_task ti de du pr rem created st uid cid d :
  intact d ->
  (cid = None
   \/ exists col, In col (columns d) /\ Some (column_id col) = cid
                  /\ column_user_id col = uid) ->
  intact (insert_task ti de du pr rem created st uid cid d).
Proof.
  intros [Hk Hf] Hc. split; [now apply keys_insert_task|].
  intros t c Hin Htc. cbn [insert_task tasks columns] in *.
  apply in_app_or in Hin. destruct Hin as [Hin | [<- | []]]; [now apply (Hf t c)|].
  cbn [task_column_id task_user_id] in *.
  destruct Hc as [-> | (col & Hcol & Hid & Hown)]; [discriminate|].
  exists col. rewrite Htc in Hid. injection Hid as Hid. auto.
Qed.

Lemma intact_update_plain id f d :
  (forall r, task_id (f r) = task_id r /\ task_user_id (f r) = task_user_id r
             /\ task_column_id (f r) = task_column_id r) ->
  intact d -> intact (update_task id f d).
Proof.
  intros Hf [Hk Hfd]. split; [apply keys_update_task; [apply Hf | exact Hk]|].
  intros t c Hin Hc. cbn [update_task tasks columns] in *.
  apply in_map_iff in Hin. destruct Hin as (r & <- & Hin).
  destruct (task_id r =? id); [|now apply (Hfd r c)].
  destruct (Hf r) as (_ & Ho & Hcol). rewrite Hcol in Hc. rewrite Ho.
  now apply (Hfd r c).
Qed.

Lemma intact_move tid cid uid s d t col :
  intact d ->
  get_task tid d = Some t ->
  task_user_id t = uid ->
  column_of_user cid uid d = Some col ->
  intact (update_task tid (fun t0 => set_status s (set_column_id (Some cid) t0)) d).
Proof.
  intros [Hk Hfd] Ht Ho Hc.
  split; [apply keys_update_task; [reflexivity | exact Hk]|].
  intros r c Hin Hrc. cbn [update_task tasks columns] in *.
  apply in_map_iff in Hin. destruct Hin as (r0 & <- & Hin).
  destruct (task_id r0 =? tid) eqn:E; [|now apply (Hfd r0 c)].
  apply Z.eqb_eq in E.
  destruct (get_task_found _ _ _ Ht) as [Hid Hint].
  assert (r0 = t).
  { apply (same_id_same_row (tasks d)); [apply Hk | exact Hin | exact Hint | congruence]. }
  subst r0. cbn [set_status set_column_id task_column_id task_user_id] in *.
  injection Hrc as <-.
  destruct (column_of_user_found _ _ _ _ Hc) as (H1 & H2 & H3).
  exists col. rewrite H3, Ho. auto.
Qed.

Lemma intact_delete_task id d : intact d -> intact (delete_task id d).
Proof.
  intros [Hk Hf]. split; [now apply keys_delete_task|].
  intros t c Hin Hc. cbn [delete_task tasks columns] in *.
  apply filter_In in Hin. now apply (Hf t c).
Qed.

Lemma intact_delete_column_row id d : intact d -> intact (delete_column_row id d).
Proof.
  intros [Hk Hf]. split; [now apply keys_delete_column_row|].
  intros t c Hin Hc. cbn [delete_column_row tasks columns] in *.
  apply in_map_iff in Hin. destruct Hin as (r & <- & Hin).
  destruct (task_column_id r) as [k|] eqn:Ek; [|congruence].
  destruct (k =? id) eqn:E; [discriminate Hc|].
  rewrite Ek in Hc. injection Hc as <-.
  destruct (Hf r k Hin Ek) as (col & Hcol & Hid & Hown).
  exists col. split; [|auto]. apply filter_In. split; [exact Hcol|].
  rewrite Hid, E. reflexivity.
Qed.

Lemma not_owner_false_inv owner st uid :
  not_owner owner st = false -> session_user_id (session st) = Some uid -> owner = uid.
Proof.
  unfold not_owner. intros H Hu. rewrite Hu in H.
  apply negb_false_iff in H. now apply Z.eqb_eq.
Qed.

Lemma first_column_owned uid d c :
  first_column uid d = Some c ->
  exists col, In col (columns d) /\ Some (column_id col) = Some (column_id c)
              /\ column_user_id col = uid.
Proof.
  intros H. pose proof (first_column_facts uid d) as F. rewrite H in F.
  exists c. tauto.
Qed.

Lemma column_of_user_owned n uid d c :
  column_of_user n uid d = Some c ->
  exists col, In col (columns d) /\ Some (column_id col) = Some n
              /\ column_user_id col = uid.
Proof.
  intros H. destruct (column_of_user_found _ _ _ _ H) as (H1 & H2 & H3).
  exists c. rewrite H2. auto.
Qed.

Lemma sound_flash msg cat st :
  intact (persisted st) /\ intact (txn st) ->
  intact (persisted (flash msg cat st)) /\ intact (txn (flash msg cat st)).
Proof. auto. Qed.

Lemma sound_flash_str msg cat st :
  intact (persisted st) /\ intact (txn st) ->
  intact (persisted (flash_str msg cat st)) /\ intact (txn (flash_str msg cat st)).
Proof. auto. Qed.

Lemma sound_set_session s st :
  intact (persisted st) /\ intact (txn st) ->
  intact (persisted (set_session s st)) /\ intact (txn (set_session s st)).
Proof. auto. Qed.

Lemma sound_commit st :
  intact (persisted st) /\ intact (txn st) ->
  intact (persisted (commit st)) /\ intact (txn (commit st)).
Proof. intros [_ H]. now split. Qed.

Lemma sound_modify f st :
  intact (persisted st) /\ intact (txn st) ->
  intact (f (txn st)) ->
  intact (persisted (modify f st)) /\ intact (txn (modify f st)).
Proof. intros [H1 _] H2. now split. Qed.

Lemma sound_ensure_default_columns uid st :
  intact (persisted st) /\ intact (txn st) ->
  intact (persisted (ensure_default_columns uid st))
  /\ intact (txn (ensure_default_columns uid st)).
Proof.
  intros H. unfold ensure_default_columns.
  destruct (columns_of uid (txn st)); [|exact H].
  cbn -[py next_id]. destruct H as [_ H].
  split; repeat apply intact_insert_column; exact H.
Qed.

Lemma sound_staged_columns uid existing names st :
  intact (persisted st) /\ intact (txn st) ->
  intact (persisted (fold_left
            (fun s name =>
               if negb (str_in name existing)
               then modify (insert_column name 0 uid) s
               else s) names st))
  /\ intact (txn (fold_left
            (fun s name =>
               if negb (str_in name existing)
               then modify (insert_column name 0 uid) s
               else s) names st)).
Proof.
  revert st. induction names as [|n names IH]; intros st H; simpl; [exact H|].
  apply IH. destruct (negb (str_in n existing)); [|exact H].
  apply sound_modify; [exact H|]. apply intact_insert_column, H.
Qed.

Ltac sound_step :=
  first
    [ assumption
    | apply sound_flash
    | apply sound_flash_str
    | apply sound_set_session
    | apply sound_commit
    | apply sound_ensure_default_columns
    | apply sound_staged_columns
    | apply sound_modify ].

Ltac sound_txn :=
  match goal with
  | |- intact (txn ?s) =>
      let H := fresh in
      assert (H : intact (persisted s) /\ intact (txn s)) by (repeat sound_step);
      exact (proj2 H)
  end.

Ltac sound_op :=
  first
    [ sound_txn
    | apply intact_insert_column; sound_txn
    | apply intact_delete_task; sound_txn
    | apply intact_delete_column_row; sound_txn
    | apply intact_update_plain; [intros ?r; repeat split; reflexivity | sound_txn]
    | eapply intact_move;
      [ sound_txn | eassumption | eapply not_owner_false_inv; eassumption | eassumption ]
    | apply intact_insert_task;
      [ sound_txn
      | first [ now left
              | right; eapply column_of_user_owned; eassumption
              | right; eapply first_column_owned; eassumption ] ] ].

Ltac sound_cases :=
  repeat match goal with
         | |- context [match ?x with _ => _ end] => destruct x eqn:?
         end;
  cbn [snd]; repeat sound_step; try sound_op.

Section SoundHandlers.
Variable strptime : str -> option datetime.
Variable int_of_str : str -> option Z.
Variable lower : str -> str.

Lemma sound_view (e : Endpoint) (req : Request) (st : St) :
  intact (persisted st) /\ intact (txn st) ->
  intact (persisted (snd (view_function strptime int_of_str lower e req st)))
  /\ intact (txn (snd (view_function strptime int_of_str lower e req st))).
Proof.
  intros H.
  destruct e; unfold view_function, index, workflow, completed, pending, add,
    add_column, update_column, update_status, toggle_reminder, toggle, delete,
    toggle_theme, delete_column, edit_task, login_required, with_user_id, option_map,
    not_found;
    cbv zeta; sound_cases.
  all: apply intact_insert_task; [sound_txn|].
  all: match goal with Hs : _ = inr ?o |- _ => revert Hs end.
  all: repeat match goal with
              | |- context [match ?x with _ => _ end] => destruct x eqn:?
              end.
  all: intros E; try discriminate E; injection E as <-.
  all: first [ now left
             | right; eapply column_of_user_owned; eassumption
             | right; eapply first_column_owned; eassumption ].
Qed.
End SoundHandlers.

Lemma intact_insert_user name mail hashed d :
  intact d -> intact (insert_user name mail hashed d).
Proof.
  intros [Hk Hf]. split; [now apply keys_insert_user | exact Hf].
Qed.

Lemma only_disarms_ids d d' :
  only_disarms d d' -> map task_id (tasks d') = map task_id (tasks d).
Proof.
  intros (_ & _ & Hf). revert Hf. generalize (tasks d) (tasks d').
  induction 1 as [|x y la lb Hxy _ IH]; simpl; [reflexivity|].
  rewrite IH. now destruct Hxy as [-> | ->].
Qed.

Lemma intact_only_disarms d d' : only_disarms d d' -> intact d -> intact d'.
Proof.
  intros Hd [(Hu & Hc & Ht) Hf].
  pose proof (only_disarms_ids _ _ Hd) as Hids.
  destruct Hd as (Eu & Ec & Hrel).
  split; [unfold keys_unique; now rewrite Eu, Ec, Hids|].
  intros t c Hin Htc. rewrite Ec.
  assert (Hsrc : exists r, In r (tasks d)
                           /\ task_column_id r = task_column_id t
                           /\ task_user_id r = task_user_id t).
  { revert Hin. clear -Hrel. induction Hrel as [|x y la lb Hxy _ IH]; [contradiction|].
    intros [<- | Hin].
    - exists x. split; [now left|]. now destruct Hxy as [-> | ->].
    - destruct (IH Hin) as (r & Hr & H). exists r. split; [now right | exact H]. }
  destruct Hsrc as (r & Hr & Hcol & Hown).
  rewrite <- Hown. apply (Hf r c Hr). congruence.
Qed.

Section SoundAccounts.
Variable lower : str -> str.
Variable generate_password_hash : str -> str.
Variable check_password_hash : str -> str -> bool.

Lemma sound_auth_view (e : AuthEndpoint) (req : Request) (st : St) :
  intact (persisted st) /\ intact (txn st) ->
  intact (persisted (snd (auth_view lower generate_password_hash check_password_hash
                            e req st)))
  /\ intact (txn (snd (auth_view lower generate_password_hash check_password_hash
                         e req st))).
Proof.
  intros H.
  destruct e as [[|] | [|] |]; unfold auth_view, signup, login, logout; cbv zeta;
    repeat match goal with
           | |- context [match ?x with _ => _ end] => destruct x eqn:?
           end;
    cbn [snd]; repeat sound_step.
  apply intact_insert_user, H.
Qed.
End SoundAccounts.

(** X22: primary keys stay distinct.  If the ids are distinct within the
    user, column and task tables, they still are after any request to a
    board or task view, after any request to signup, login or logout, and
    after any run of the reminder loop. *)
Theorem primary_keys_stay_distinct
    (strptime : str -> option datetime) (int_of_str : str -> option Z)
    (lower : str -> str) (generate_password_hash : str -> str)
    (check_password_hash : str -> str -> bool) (req : Request) (w : World) :
  keys_unique (db w) ->
  (forall e, keys_unique (db (snd (serve strptime int_of_str lower e req w))))
  /\ (forall e, keys_unique
                  (db (snd (serve_auth lower generate_password_hash
                                       check_password_hash e req w))))
  /\ (forall cfg strftime passes sends logged,
        keys_unique (store (reminder_worker cfg strftime passes
                              (mkWorker (db w) sends logged)))).
Proof.
  intros Hk. split; [|split].
  - intros e. unfold serve.
    pose proof (keys_view strptime int_of_str lower e req
                  (mkSt (db w) (db w) (cookie w) (flashed w)) (conj Hk Hk)) as [H _].
    destruct (view_function strptime int_of_str lower e req _) as [r st].
    exact H.
  - intros e. unfold serve_auth.
    assert (H : keys_unique
                  (persisted (snd (auth_view lower generate_password_hash
                                     check_password_hash e req
                                     (mkSt (db w) (db w) (cookie w) (flashed w)))))).
    { destruct e as [[|] | [|] |]; unfold auth_view, signup, login, logout; cbv zeta;
        repeat match goal with
               | |- context [match ?x with _ => _ end] => destruct x eqn:?
               end;
        cbn [snd flash flash_str set_session persisted]; try exact Hk.
      apply (keys_ensure_default_columns _
               (commit (modify (insert_user _ _ _)
                               (mkSt (db w) (db w) (cookie w) (flashed w))))).
      cbn [commit modify persisted txn]. split; now apply keys_insert_user. }
    destruct (auth_view lower generate_password_hash check_password_hash e req _)
      as [r st].
    exact H.
  - intros cfg strftime passes sends logged.
    destruct (reminder_worker_frame cfg strftime passes (mkWorker (db w) sends logged))
      as ((Eu & Ec & _) & Hids & _).
    cbn [store] in *. destruct Hk as (Hu & Hc & Ht).
    unfold keys_unique. now rewrite Eu, Ec, Hids.
Qed.

(** X23: tasks stay in columns of their owner.  If ids are distinct and
    every task that sits in a column sits in a column of its own user, the
    same holds after any request to a board or task view, after any request
    to signup, login or logout, and after any run of the reminder loop. *)
Theorem tasks_stay_in_own_columns
    (strptime : str -> option datetime) (int_of_str : str -> option Z)
    (lower : str -> str) (generate_password_hash : str -> str)
    (check_password_hash : str -> str -> bool) (req : Request) (w : World) :
  keys_unique (db w) ->
  filed_with_owner (db w) ->
  (forall e, filed_with_owner (db (snd (serve strptime int_of_str lower e req w))))
  /\ (forall e, filed_with_owner
                  (db (snd (serve_auth lower generate_password_hash
                                       check_password_hash e req w))))
  /\ (forall cfg strftime passes sends logged,
        filed_with_owner (store (reminder_worker cfg strftime passes
                                   (mkWorker (db w) sends logged)))).
Proof.
  intros Hk Hf. assert (Hi : intact (db w)) by now split.
  split; [|split].
  - intros e. unfold serve.
    pose proof (sound_view strptime int_of_str lower e req
                  (mkSt (db w) (db w) (cookie w) (flashed w)) (conj Hi Hi)) as [H _].
    destruct (view_function strptime int_of_str lower e req _) as [r st].
    apply H.
  - intros e. unfold serve_auth.
    pose proof (sound_auth_view lower generate_password_hash check_password_hash e req
                  (mkSt (db w) (db w) (cookie w) (flashed w)) (conj Hi Hi)) as [H _].
    destruct (auth_view lower generate_password_hash check_password_hash e req _)
      as [r st].
    apply H.
  - intros cfg strftime passes sends logged.
    destruct (reminder_worker_frame cfg strftime passes (mkWorker (db w) sends logged))
      as (Hd & _).
    apply (intact_only_disarms _ _ Hd Hi).
Qed.

Lemma primary_keys_stay_distinct_witness :
  keys_unique (db ann_world)
  /\ keys_unique (db (snd (serve never_parses digits_to_Z ascii_lower EAdd milk_request
                                 ann_world)))
  /\ keys_unique (db (snd (serve_auth ascii_lower toy_hash toy_check (ESignup POST)
                                      cat_request ann_world))).
Proof.
  assert (Hk : keys_unique (db ann_world)).
  { unfold keys_unique. cbn.
    repeat split; repeat (constructor; [simpl; lia|]); constructor. }
  split; [exact Hk|].
  destruct (primary_keys_stay_distinct never_parses digits_to_Z ascii_lower toy_hash
              toy_check milk_request ann_world Hk) as (H1 & _ & _).
  destruct (primary_keys_stay_distinct never_parses digits_to_Z ascii_lower toy_hash
              toy_check cat_request ann_world Hk) as (_ & H2 & _).
  split; [apply H1 | apply H2].
Defined.

Lemma tasks_stay_in_own_columns_witness :
  keys_unique (db bob_world)
  /\ filed_with_owner (db bob_world)
  /\ filed_with_owner
       (db (snd (serve never_parses digits_to_Z ascii_lower (EUpdateColumn 1 5)
                       plain_request bob_world))).
Proof.
  assert (Hk : keys_unique (db bob_world)).
  { unfold keys_unique. cbn.
    repeat split; repeat (constructor; [simpl; lia|]); constructor. }
  assert (Hf : filed_with_owner (db bob_world)).
  { intros t c [<- | []] [= <-]. exists (mkColumn 5 (py "To Do") 0 2).
    cbn. intuition. }
  split; [exact Hk|]. split; [exact Hf|].
  destruct (tasks_stay_in_own_columns never_parses digits_to_Z ascii_lower toy_hash
              toy_check plain_request bob_world Hk Hf) as (H1 & _ & _).
  apply H1.
Defined.

(** ** Accounts *)

Lemma find_user_by_email_found mail d u :
  find_user_by_email mail d = Some u -> In u (users d) /\ email u = mail.
Proof.
  unfold find_user_by_email. intros H. apply find_some in H.
  destruct H as [Hin H]. apply str_eqb_eq in H. auto.
Qed.

Lemma find_user_by_email_none mail d :
  find_user_by_email mail d = None <-> ~ In mail (map email (users d)).
Proof.
  unfold find_user_by_email. split.
  - intros H Hin. apply in_map_iff in Hin. destruct Hin as (u & He & Hu).
    pose proof (find_none _ _ H u Hu) as F. cbn in F.
    rewrite He, str_eqb_refl in F. discriminate.
  - intros H. destruct (find _ (users d)) as [u|] eqn:E; [|reflexivity].
    apply find_some in E. destruct E as [Hin He]. apply str_eqb_eq in He.
    exfalso. apply H. rewrite <- He. now apply in_map.
Qed.

Lemma find_in_last_row (keep : User -> bool) (rows : list User) (x : User) :
  find keep rows = None -> keep x = true -> find keep (rows ++ [x]) = Some x.
Proof.
  intros Hn Hx. induction rows as [|r rows IH]; simpl in *.
  - now rewrite Hx.
  - destruct (keep r); [discriminate | now apply IH].
Qed.

Lemma find_user_registered name mail hashed d :
  find_user_by_email mail d = None ->
  find_user_by_email mail (insert_user name mail hashed d)
  = Some (mkUser (next_id (map user_id (users d))) name mail hashed).
Proof.
  unfold find_user_by_email, insert_user. cbn [users]. intros H.
  apply find_in_last_row; [exact H | apply str_eqb_refl].
Qed.

Lemma provision_creates_defaults (uid : Z) (d : Db) :
  owned_columns uid d = [] ->
  map column_card (columns_of uid (provision uid d))
  = [(py "To Do", 0, uid); (py "In Progress", 1, uid); (py "Done", 2, uid)].
Proof.
  intros E.
  assert (Hc : columns_of uid d = []) by (unfold columns_of; now rewrite E).
  unfold provision, ensure_default_columns. cbn [txn]. rewrite Hc.
  cbn -[py next_id columns_of].
  unfold columns_of, owned_columns, insert_column. cbn [columns].
  rewrite !filter_app.
  change (filter _ (columns d)) with (owned_columns uid d). rewrite E.
  cbn -[py next_id]. rewrite Z.eqb_refl. reflexivity.
Qed.

Section AccountFacts.
Variable lower : str -> str.
Variable generate_password_hash : str -> str.
Variable check_password_hash : str -> str -> bool.

(** X24: a signup form in which the name, the normalised email or the
    password is blank is answered with the form again and "Please fill all
    fields."; nothing is stored and nobody is logged in. *)
Theorem signup_requires_all_fields (req : Request) (w : World) :
  strip (or_str (form_get "name" (form req)) []) = []
  \/ lower (strip (or_str (form_get "email" (form req)) [])) = []
  \/ strip (or_str (form_get "password" (form req)) []) = [] ->
  serve_auth lower generate_password_hash check_password_hash (ESignup POST) req w
  = (RenderForm "signup.html",
     mkWorld (db w) (cookie w)
             (flashed w ++ [(py "Please fill all fields.", py "danger")])).
Proof.
  intros H. unfold serve_auth, auth_view, signup.
  cbn [session txn db cookie flashed].
  assert (E : negb (truthy (strip (or_str (form_get "name" (form req)) [])))
              || negb (truthy (lower (strip (or_str (form_get "email" (form req)) []))))
              || negb (truthy (strip (or_str (form_get "password" (form req)) [])))
              = true).
  { destruct H as [-> | [-> | ->]]; cbn; rewrite ?orb_true_r; reflexivity. }
  rewrite E. reflexivity.
Qed.

(** X25: a signup whose normalised email (trimmed, lower-cased) is the
    email of a stored user is answered with the form again and "Email
    already registered."; nothing is stored and nobody is logged in. *)
Theorem signup_rejects_registered_email (req : Request) (w : World) (u : User) :
  strip (or_str (form_get "name" (form req)) []) <> [] ->
  strip (or_str (form_get "password" (form req)) []) <> [] ->
  lower (strip (or_str (form_get "email" (form req)) [])) <> [] ->
  In u (users (db w)) ->
  email u = lower (strip (or_str (form_get "email" (form req)) [])) ->
  serve_auth lower generate_password_hash check_password_hash (ESignup POST) req w
  = (RenderForm "signup.html",
     mkWorld (db w) (cookie w)
             (flashed w ++ [(py "Email already registered.", py "warning")])).
Proof.
  intros Hn Hp Hm Hin He. unfold serve_auth, auth_view, signup.
  cbn [session txn db cookie flashed].
  rewrite (truthy_not_nil _ Hn), (truthy_not_nil _ Hp), (truthy_not_nil _ Hm).
  cbn [negb orb].
  destruct (find_user_by_email _ (db w)) as [v|] eqn:E; [reflexivity|].
  apply find_user_by_email_none in E. exfalso. apply E.
  rewrite <- He. now apply in_map.
Qed.

(** X26: a signup with the three fields filled and an email no stored user
    has is redirected to the login page; it stores one new user with the
    trimmed name, the trimmed lower-cased email and the hash of the trimmed
    password (never the password itself unless the hash function returns
    it), provisions that user's columns, and leaves the session as it was:
    signing up does not log in.  A user without columns gets To Do,
    In Progress, Done at positions 0, 1, 2. *)
Theorem signup_creates_account (req : Request) (w : World) :
  let name := strip (or_str (form_get "name" (form req)) []) in
  let mail := lower (strip (or_str (form_get "email" (form req)) [])) in
  let secret := strip (or_str (form_get "password" (form req)) []) in
  let new_id := next_id (map user_id (users (db w))) in
  let r := serve_auth lower generate_password_hash check_password_hash
                      (ESignup POST) req w in
  name <> [] -> mail <> [] -> secret <> [] ->
  ~ In mail (map email (users (db w))) ->
  fst r = RedirectTo url_login
  /\ cookie (snd r) = cookie w
  /\ flashed (snd r) = flashed w ++ [(account_created, py "success")]
  /\ users (db (snd r))
     = users (db w) ++ [mkUser new_id name mail (generate_password_hash secret)]
  /\ tasks (db (snd r)) = tasks (db w)
  /\ db (snd r)
     = provision new_id
         (insert_user name mail (generate_password_hash secret) (db w))
  /\ (owned_columns new_id (db w) = [] ->
      map column_card (columns_of new_id (db (snd r)))
      = [(py "To Do", 0, new_id); (py "In Progress", 1, new_id); (py "Done", 2, new_id)]).
Proof.
  intros name mail secret new_id r Hn Hm Hp Hfree.
  apply find_user_by_email_none in Hfree.
  assert (Hr : r = (RedirectTo url_login,
                    mkWorld (provision new_id
                               (insert_user name mail (generate_password_hash secret)
                                            (db w)))
                            (cookie w)
                            (flashed w ++ [(account_created, py "success")]))).
  { unfold r, serve_auth, auth_view, signup.
    cbn [session txn db cookie flashed].
    fold name mail secret.
    rewrite (truthy_not_nil _ Hn), (truthy_not_nil _ Hp), (truthy_not_nil _ Hm).
    cbn [negb orb]. rewrite Hfree.
    change (commit (modify (insert_user name mail (generate_password_hash secret))
                           (mkSt (db w) (db w) (cookie w) (flashed w))))
      with (mkSt (insert_user name mail (generate_password_hash secret) (db w))
                 (insert_user name mail (generate_password_hash secret) (db w))
                 (cookie w) (flashed w)).
    rewrite ensure_default_columns_fresh. reflexivity. }
  rewrite Hr. cbn [fst snd db cookie flashed].
  destruct (provision_effect new_id
              (insert_user name mail (generate_password_hash secret) (db w)))
    as (extra & Hprov & _).
  repeat split; try (rewrite Hprov; reflexivity).
  intros Hnone. apply provision_creates_defaults. exact Hnone.
Qed.
End AccountFacts.

(** ** The user table *)

Lemma users_ensure_default_columns uid st U :
  users (persisted st) = U /\ users (txn st) = U ->
  users (persisted (ensure_default_columns uid st)) = U
  /\ users (txn (ensure_default_columns uid st)) = U.
Proof.
  intros H. unfold ensure_default_columns.
  destruct (columns_of uid (txn st)); [|exact H].
  cbn -[py next_id]. destruct H as [_ H]. auto.
Qed.

Lemma users_staged_columns uid existing names st U :
  users (persisted st) = U /\ users (txn st) = U ->
  users (persisted (fold_left
           (fun s name =>
              if negb (str_in name existing)
              then modify (insert_column name 0 uid) s
              else s) names st)) = U
  /\ users (txn (fold_left
           (fun s name =>
              if negb (str_in name existing)
              then modify (insert_column name 0 uid) s
              else s) names st)) = U.
Proof.
  revert st. induction names as [|n names IH]; intros st H; simpl; [exact H|].
  apply IH. now destruct (negb (str_in n existing)).
Qed.

Lemma users_flash msg cat st U :
  users (persisted st) = U /\ users (txn st) = U ->
  users (persisted (flash msg cat st)) = U /\ users (txn (flash msg cat st)) = U.
Proof. auto. Qed.

Lemma users_flash_str msg cat st U :
  users (persisted st) = U /\ users (txn st) = U ->
  users (persisted (flash_str msg cat st)) = U
  /\ users (txn (flash_str msg cat st)) = U.
Proof. auto. Qed.

Lemma users_set_session s st U :
  users (persisted st) = U /\ users (txn st) = U ->
  users (persisted (set_session s st)) = U /\ users (txn (set_session s st)) = U.
Proof. auto. Qed.

Lemma users_commit st U :
  users (persisted st) = U /\ users (txn st) = U ->
  users (persisted (commit st)) = U /\ users (txn (commit st)) = U.
Proof. intros [_ H]. now split. Qed.

Lemma users_modify f st U :
  users (f (txn st)) = users (txn st) ->
  users (persisted st) = U /\ users (txn st) = U ->
  users (persisted (modify f st)) = U /\ users (txn (modify f st)) = U.
Proof. intros Hf [H1 H2]. split; [exact H1 | cbn; congruence]. Qed.

Ltac users_step :=
  first
    [ assumption
    | apply users_flash
    | apply users_flash_str
    | apply users_set_session
    | apply users_commit
    | apply users_ensure_default_columns
    | apply users_staged_columns
    | apply users_modify; [reflexivity|] ].

Section UsersHandlers.
Variable strptime : str -> option datetime.
Variable int_of_str : str -> option Z.
Variable lower : str -> str.

Lemma users_view (e : Endpoint) (req : Request) (st : St) (U : list User) :
  users (persisted st) = U /\ users (txn st) = U ->
  users (persisted (snd (view_function strptime int_of_str lower e req st))) = U
  /\ users (txn (snd (view_function strptime int_of_str lower e req st))) = U.
Proof.
  intros H.
  destruct e; unfold view_function, index, workflow, completed, pending, add,
    add_column, update_column, update_status, toggle_reminder, toggle, delete,
    toggle_theme, delete_column, edit_task, login_required, with_user_id, not_found;
    cbv zeta;
    repeat match goal with
           | |- context [match ?x with _ => _ end] => destruct x eqn:?
           end;
    cbn [snd]; repeat users_step.
Qed.
End UsersHandlers.

(** X27: no board or task view ever changes the user table; an account view
    leaves it as it is or appends one user whose email no stored user has
    and whose id no stored user has, so emails that are distinct stay
    distinct. *)
Theorem user_table_grows_by_fresh_emails
    (strptime : str -> option datetime) (int_of_str : str -> option Z)
    (lower : str -> str) (generate_password_hash : str -> str)
    (check_password_hash : str -> str -> bool) (req : Request) (w : World) :
  (forall e, users (db (snd (serve strptime int_of_str lower e req w)))
             = users (db w))
  /\ (forall e,
        let after := users (db (snd (serve_auth lower generate_password_hash
                                                check_password_hash e req w))) in
        (after = users (db w)
         \/ exists u, after = users (db w) ++ [u]
                      /\ ~ In (email u) (map email (users (db w)))
                      /\ ~ In (user_id u) (map user_id (users (db w))))
        /\ (NoDup (map email (users (db w))) -> NoDup (map email after))).
Proof.
  split.
  - intros e. unfold serve.
    pose proof (users_view strptime int_of_str lower e req
                  (mkSt (db w) (db w) (cookie w) (flashed w)) (users (db w))
                  (conj eq_refl eq_refl)) as [H _].
    destruct (view_function strptime int_of_str lower e req _) as [r st].
    exact H.
  - intros e after.
    assert (H : after = users (db w)
                \/ exists u, after = users (db w) ++ [u]
                             /\ ~ In (email u) (map email (users (db w)))
                             /\ ~ In (user_id u) (map user_id (users (db w)))).
    { assert (Ha : after
                   = users (persisted (snd (auth_view lower generate_password_hash
                                              check_password_hash e req
                                              (mkSt (db w) (db w) (cookie w)
                                                    (flashed w)))))).
      { unfold after, serve_auth.
        now destruct (auth_view lower generate_password_hash check_password_hash
                        e req _). }
      rewrite Ha. clear Ha after.
      destruct e as [[|] | [|] |]; unfold auth_view, signup, login, logout; cbv zeta;
        cbn [txn];
        repeat match goal with
               | |- context [match ?x with _ => _ end] => destruct x eqn:?
               end;
        try (left; reflexivity).
      right.
      change (commit (modify (insert_user ?n ?m ?h)
                             (mkSt (db w) (db w) (cookie w) (flashed w))))
        with (mkSt (insert_user n m h (db w)) (insert_user n m h (db w))
                   (cookie w) (flashed w)).
      rewrite ensure_default_columns_fresh.
      cbn [snd teardown flash_str persisted db].
      match goal with
      | |- context [provision ?k ?d] =>
          destruct (provision_effect k d) as (extra & Hp & _); rewrite Hp
      end.
      cbn [users insert_user]. eexists. split; [reflexivity|].
      cbn [email user_id]. split.
      - now apply find_user_by_email_none.
      - apply next_id_fresh. }
    split; [exact H|].
    intros Hnd. destruct H as [-> | (u & -> & Hfresh & _)]; [exact Hnd|].
    rewrite map_app. apply NoDup_app; [exact Hnd | |].
    + constructor; [simpl; tauto | constructor].
    + intros x Hx [<- | []]. contradiction.
Qed.

Section Sessions.
Variable strptime : str -> option datetime.
Variable int_of_str : str -> option Z.
Variable lower : str -> str.
Variable generate_password_hash : str -> str.
Variable check_password_hash : str -> str -> bool.

(** X28: login never writes to the database or touches the display flag.
    It either shows the form again and leaves the session as it was, or
    redirects to the index with the session set to a stored user whose
    email is the normalised email submitted and whose stored hash accepts
    the trimmed password.  With both fields filled, every failure flashes
    the same "Invalid credentials.", whether the email is unknown or the
    password wrong. *)
Theorem login_grants_session_only_on_match (m : Method) (req : Request) (w : World) :
  let mail := lower (strip (or_str (form_get "email" (form req)) [])) in
  let secret := strip (or_str (form_get "password" (form req)) []) in
  let r := serve_auth lower generate_password_hash check_password_hash
                      (ELogin m) req w in
  db (snd r) = db w
  /\ dark_mode (cookie (snd r)) = dark_mode (cookie w)
  /\ ((fst r = RenderForm "login.html" /\ cookie (snd r) = cookie w)
      \/ (fst r = RedirectTo url_index
          /\ exists u, In u (users (db w)) /\ email u = mail
                       /\ check_password_hash (password u) secret = true
                       /\ session_user_id (cookie (snd r)) = Some (user_id u)))
  /\ (m = POST -> mail <> [] -> secret <> [] -> fst r = RenderForm "login.html" ->
      flashed (snd r) = flashed w ++ [(py "Invalid credentials.", py "danger")]).
Proof.
  intros mail secret r. unfold r, serve_auth, auth_view, login.
  cbn [session txn db cookie flashed]. fold mail secret.
  destruct m.
  - cbn. repeat split; auto. intros H. discriminate H.
  - destruct (negb (truthy mail) || negb (truthy secret)) eqn:Eb.
    + cbn. repeat split; auto.
      intros _ Hm Hs _. rewrite (truthy_not_nil _ Hm), (truthy_not_nil _ Hs) in Eb.
      discriminate Eb.
    + destruct (find_user_by_email mail (db w)) as [u|] eqn:Eu.
      * destruct (check_password_hash (password u) secret) eqn:Ec.
        -- cbn. split; [reflexivity|]. split; [reflexivity|]. split.
           ++ right. split; [reflexivity|]. exists u.
              destruct (find_user_by_email_found _ _ _ Eu) as [Hin He]. auto.
           ++ intros _ _ _ H. discriminate H.
        -- cbn. repeat split; auto.
      * cbn. repeat split; auto.
Qed.

(** X29: logout drops the user from the session, keeps the display flag and
    the database, and flashes "Logged out."; the next request to any board
    or task view is answered with the redirect to the login page and
    changes nothing in the database. *)
Theorem logout_ends_session (req next : Request) (w : World) (e : Endpoint) :
  let out := serve_auth lower generate_password_hash check_password_hash
                        ELogout req w in
  out = (RedirectTo url_login,
         mkWorld (db w) (mkSession None (dark_mode (cookie w)))
                 (flashed w ++ [(py "Logged out.", py "info")]))
  /\ fst (serve strptime int_of_str lower e next (snd out)) = Redirect url_login
  /\ db (snd (serve strptime int_of_str lower e next (snd out))) = db w.
Proof.
  intros out.
  assert (Ho : out = (RedirectTo url_login,
                      mkWorld (db w) (mkSession None (dark_mode (cookie w)))
                              (flashed w ++ [(py "Logged out.", py "info")])))
    by reflexivity.
  split; [exact Ho|]. rewrite Ho. cbn [snd].
  rewrite serve_anonymous. auto.
Qed.

Lemma signup_accepted (req : Request) (w : World) :
  strip (or_str (form_get "name" (form req)) []) <> [] ->
  lower (strip (or_str (form_get "email" (form req)) [])) <> [] ->
  strip (or_str (form_get "password" (form req)) []) <> [] ->
  ~ In (lower (strip (or_str (form_get "email" (form req)) [])))
       (map email (users (db w))) ->
  serve_auth lower generate_password_hash check_password_hash (ESignup POST) req w
  = (RedirectTo url_login,
     mkWorld (provision (next_id (map user_id (users (db w))))
                (insert_user (strip (or_str (form_get "name" (form req)) []))
                   (lower (strip (or_str (form_get "email" (form req)) [])))
                   (generate_password_hash
                      (strip (or_str (form_get "password" (form req)) [])))
                   (db w)))
             (cookie w) (flashed w ++ [(account_created, py "success")])).
Proof.
  intros Hn Hm Hp Hfree. apply find_user_by_email_none in Hfree.
  unfold serve_auth, auth_view, signup.
  cbn [session txn db cookie flashed].
  rewrite (truthy_not_nil _ Hn), (truthy_not_nil _ Hp), (truthy_not_nil _ Hm).
  cbn [negb orb]. rewrite Hfree.
  change (commit (modify (insert_user ?n ?m ?h)
                         (mkSt (db w) (db w) (cookie w) (flashed w))))
    with (mkSt (insert_user n m h (db w)) (insert_user n m h (db w))
               (cookie w) (flashed w)).
  rewrite ensure_default_columns_fresh. reflexivity.
Qed.

Lemma get_user_last_row (rows : list User) (x : User) :
  ~ In (user_id x) (map user_id rows) ->
  find (fun u => user_id u =? user_id x) (rows ++ [x]) = Some x.
Proof.
  intros H. induction rows as [|r rows IH]; simpl.
  - now rewrite Z.eqb_refl.
  - simpl in H. destruct (user_id r =? user_id x) eqn:E.
    + apply Z.eqb_eq in E. tauto.
    + apply IH. tauto.
Qed.

(** X30: signing up and then logging in with the same form works whenever
    the hash function's output is accepted by the check for the same
    password: the login redirects to the index with the new user's id in
    the session, and the index page of the new user lists no task and shows
    the counts 0, 0, 0, 0 (given that no stored task carries the new id). *)
Theorem signup_then_login_then_index (req page : Request) (w : World) :
  let name := strip (or_str (form_get "name" (form req)) []) in
  let mail := lower (strip (or_str (form_get "email" (form req)) [])) in
  let secret := strip (or_str (form_get "password" (form req)) []) in
  let new_id := next_id (map user_id (users (db w))) in
  let w1 := snd (serve_auth lower generate_password_hash check_password_hash
                            (ESignup POST) req w) in
  let r2 := serve_auth lower generate_password_hash check_password_hash
                       (ELogin POST) req w1 in
  let r3 := serve strptime int_of_str lower EIndex page (snd r2) in
  name <> [] -> mail <> [] -> secret <> [] ->
  ~ In mail (map email (users (db w))) ->
  check_password_hash (generate_password_hash secret) secret = true ->
  tasks_of new_id (db w) = [] ->
  fst r2 = RedirectTo url_index
  /\ session_user_id (cookie (snd r2)) = Some new_id
  /\ listed_tasks (fst r3) = []
  /\ shown_stats (fst r3) = Some (mkStats 0 0 0 0).
Proof.
  intros name mail secret new_id w1 r2 r3 Hn Hm Hp Hfree Hcheck Hnone.
  assert (E1 : w1 = mkWorld (provision new_id
                               (insert_user name mail (generate_password_hash secret)
                                            (db w)))
                            (cookie w) (flashed w ++ [(account_created, py "success")])).
  { unfold w1. now rewrite (signup_accepted req w Hn Hm Hp Hfree). }
  destruct (provision_effect new_id
              (insert_user name mail (generate_password_hash secret) (db w)))
    as (extra & Hprov & _).
  set (newcomer := mkUser new_id name mail (generate_password_hash secret)).
  assert (Hfind : find_user_by_email mail (db w1) = Some newcomer).
  { rewrite E1. cbn [db]. rewrite Hprov.
    apply find_user_by_email_none in Hfree.
    apply (find_user_registered name mail (generate_password_hash secret) (db w) Hfree). }
  assert (E2 : r2 = (RedirectTo url_index,
                     mkWorld (db w1) (mkSession (Some new_id) (dark_mode (cookie w1)))
                             (flashed w1
                              ++ [(py "Welcome, " ++ name ++ py "!", py "success")]))).
  { unfold r2, serve_auth, auth_view, login.
    cbn [session txn db cookie flashed].
    fold mail secret.
    rewrite (truthy_not_nil _ Hm), (truthy_not_nil _ Hp). cbn [negb orb].
    rewrite Hfind. cbn [password newcomer]. rewrite Hcheck. reflexivity. }
  split; [now rewrite E2|]. split; [now rewrite E2|].
  assert (Hg : get_user new_id (db w1) = Some newcomer).
  { rewrite E1. cbn [db]. rewrite Hprov. unfold get_user, insert_user. cbn [users].
    apply (get_user_last_row (users (db w)) newcomer). apply next_id_fresh. }
  assert (Ht : tasks_of new_id (db w1) = []).
  { rewrite E1. cbn [db]. rewrite Hprov. exact Hnone. }
  unfold r3. rewrite E2. cbn [snd].
  unfold serve, view_function, index, login_required, with_user_id.
  cbn [session session_user_id txn db cookie flashed].
  rewrite Hg. cbn [user_id newcomer]. rewrite Ht. split; reflexivity.
Qed.
End Sessions.

Lemma signup_requires_all_fields_witness :
  strip (or_str (form_get "name" (form plain_request)) []) = []
  /\ serve_auth ascii_lower toy_hash toy_check (ESignup POST) plain_request anonymous_world
     = (RenderForm "signup.html",
        mkWorld board (mkSession None None)
                [(py "Please fill all fields.", py "danger")]).
Proof.
  split; [reflexivity|].
  apply (signup_requires_all_fields ascii_lower toy_hash toy_check plain_request
           anonymous_world).
  left. reflexivity.
Defined.

Lemma signup_rejects_registered_email_witness :
  In ann (users (db anonymous_world))
  /\ email ann
     = ascii_lower (strip (or_str (form_get "email" (form ann_again_request)) []))
  /\ serve_auth ascii_lower toy_hash toy_check (ESignup POST) ann_again_request
                anonymous_world
     = (RenderForm "signup.html",
        mkWorld board (mkSession None None)
                [(py "Email already registered.", py "warning")]).
Proof.
  split; [now left|]. split; [reflexivity|].
  apply (signup_rejects_registered_email ascii_lower toy_hash toy_check
           ann_again_request anonymous_world ann).
  - vm_compute. discriminate.
  - vm_compute. discriminate.
  - vm_compute. discriminate.
  - now left.
  - reflexivity.
Defined.

Lemma signup_creates_account_witness :
  ~ In (py "cat@x.com") (map email (users (db anonymous_world)))
  /\ users (db (snd (serve_auth ascii_lower toy_hash toy_check (ESignup POST)
                                cat_request anonymous_world)))
     = [ann; bob; mkUser 3 (py "Cat") (py "cat@x.com") (py "toy$pw123456")]
  /\ map column_card
         (columns_of 3 (db (snd (serve_auth ascii_lower toy_hash toy_check
                                            (ESignup POST) cat_request
                                            anonymous_world))))
     = [(py "To Do", 0, 3); (py "In Progress", 1, 3); (py "Done", 2, 3)].
Proof.
  assert (Hfree : ~ In (py "cat@x.com") (map email (users (db anonymous_world)))).
  { vm_compute. intros [H | [H | []]]; discriminate H. }
  split; [exact Hfree|].
  destruct (signup_creates_account ascii_lower toy_hash toy_check cat_request
              anonymous_world) as (_ & _ & _ & Hu & _ & _ & Hc).
  - vm_compute. discriminate.
  - vm_compute. discriminate.
  - vm_compute. discriminate.
  - exact Hfree.
  - split; [exact Hu | exact (Hc eq_refl)].
Defined.

Lemma signup_then_login_then_index_witness :
  ~ In (py "cat@x.com") (map email (users (db anonymous_world)))
  /\ toy_check (toy_hash (py "pw123456")) (py "pw123456") = true
  /\ tasks_of 3 (db anonymous_world) = []
  /\ session_user_id
       (cookie (snd (serve_auth ascii_lower toy_hash toy_check (ELogin POST) cat_request
                       (snd (serve_auth ascii_lower toy_hash toy_check (ESignup POST)
                                        cat_request anonymous_world)))))
     = Some 3.
Proof.
  assert (Hfree : ~ In (py "cat@x.com") (map email (users (db anonymous_world)))).
  { vm_compute. intros [H | [H | []]]; discriminate H. }
  split; [exact Hfree|]. split; [reflexivity|]. split; [reflexivity|].
  destruct (signup_then_login_then_index never_parses digits_to_Z ascii_lower toy_hash
              toy_check cat_request plain_request anonymous_world)
    as (_ & Hs & _).
  - vm_compute. discriminate.
  - vm_compute. discriminate.
  - vm_compute. discriminate.
  - exact Hfree.
  - reflexivity.
  - reflexivity.
  - exact Hs.
Defined.

(** An id the route accepts but SQLite cannot bind: the lookup raises, and
    nothing is answered or changed by the view. *)
Example id_beyond_sqlite_range :
  serve never_parses digits_to_Z ascii_lower (EToggle (2 ^ 63)) plain_request ann_world
  = (InternalServerError OverflowError, ann_world)
  /\ serve never_parses digits_to_Z ascii_lower (EEditTask (2 ^ 63)) overwrite_request
           ann_world
     = (InternalServerError OverflowError, ann_world)
  /\ serve never_parses digits_to_Z ascii_lower (EUpdateColumn 1 (2 ^ 63)) plain_request
           bob_world
     = (InternalServerError OverflowError, bob_world)
  /\ serve never_parses digits_to_Z ascii_lower (EDeleteColumn (2 ^ 63)) plain_request
           ann_world
     = (InternalServerError OverflowError, ann_world)
  /\ serve never_parses digits_to_Z ascii_lower (EToggle (2 ^ 63 - 1)) plain_request
           ann_world
     = (Abort 404, ann_world).
Proof. repeat split. Qed.
